(** * Line-item extraction and product ranking (product_processor.py)

    A shallow embedding of the three functions of [product_processor.py]:
    [extract_line_items_from_orders], [get_top_products] and
    [format_product_table], with the properties the specification states
    about them.

    Modelling conventions.
    - A Python [float] is an IEEE 754 binary64 number: Rocq's primitive
      [float], whose operations are the IEEE ones (round to nearest, ties to
      even), so [0 / 0] is [nan] and [1 / 0] is [infinity], as in numpy.
    - A Python [int] is an unbounded [Z]; a numpy [int64] column is a [Z]
      with its wrap-around written out ([wrap_int64]).
    - A Python [str] is a [string], its characters held in UTF-8; a [dict]
      is an association list in insertion order, looked up by its first
      matching key.
    - The sum of a [float64] column is taken as pandas takes it:
      [group_sum], a compensated sum in row order, for the groups of a
      [groupby]; [series_sum], numpy's pairwise sum, for a whole column.
    - A raised exception is the [Raise] outcome of a computation; the
      [try]/[except] of the extractor is a case analysis on it.
    - [json.loads] is a parameter of the extractor, so that what is proved of
      it holds whatever the decoder accepts and whatever it raises; the
      examples run on [Json.loads], a decoder written out below.
    - A DataFrame the code mutates lives in a store and is named by its
      location, so that aliasing between argument and result is visible. *)

From Stdlib Require Import ZArith Floats String Ascii List Lia Bool.
From Stdlib Require Import DecimalString Sorted.
From stdpp Require Import base option list gmap strings.

Open Scope Z_scope.

(** ** Exceptions and outcomes *)

Inductive exn :=
| JSONDecodeError | KeyError | TypeError | ValueError
| AttributeError | OverflowError | RecursionError.

Inductive outcome (A : Type) :=
| Ok (a : A)
| Raise (e : exn).
Arguments Ok {A} a.
Arguments Raise {A} e.

Definition bind {A B} (m : outcome A) (k : A -> outcome B) : outcome B :=
  match m with
  | Ok a => k a
  | Raise e => Raise e
  end.

Notation "x <~ m ; k" := (bind m (fun x => k))
  (at level 100, m at next level, right associativity).

(** ** Python values *)

#[local] Set Warnings "-register-all".

Inductive pyval :=
| VNone
| VBool (b : bool)
| VInt (z : Z)
| VFloat (f : float)
| VStr (s : string)
| VList (l : list pyval)
| VDict (d : list (string * pyval)).

(** ** Floats: [float(x)] and [float * x] *)

Module PyFloat.

(** [float(n)] for an [int]: the nearest binary64, [OverflowError] when the
    integer is too large for a finite one. *)
Definition of_int (z : Z) : outcome float :=
  match binary_normalize prec emax z 0 false with
  | S754_infinity _ => Raise OverflowError
  | sf => Ok (SF2Prim sf)
  end.

(** The white space [float] and [int] strip from both ends of their
    argument: the characters 9 to 13 and the space. *)
Definition is_space (c : ascii) : bool :=
  let n := Z.of_nat (nat_of_ascii c) in
  ((9 <=? n) && (n <=? 13)) || (n =? 32).

(** The code points above ASCII that [str.isspace] accepts. *)
Definition unicode_space (cp : Z) : bool :=
  (cp =? 133) || (cp =? 160) || (cp =? 5760) ||
  ((8192 <=? cp) && (cp <=? 8202)) || (cp =? 8232) || (cp =? 8233) ||
  (cp =? 8239) || (cp =? 8287) || (cp =? 12288).

(** The code points of the digit zero of the decimal digits of Unicode 14
    (category [Nd]); the nine code points after each are its digits 1 to
    9. The mathematical digits, five series in a row, come last. *)
Definition digit_zeros : list Z :=
  [1632; 1776; 1984; 2406; 2534; 2662; 2790; 2918; 3046; 3174; 3302; 3430;
   3558; 3664; 3792; 3872; 4160; 4240; 6112; 6160; 6470; 6608; 6784; 6800;
   6992; 7088; 7232; 7248; 42528; 43216; 43264; 43472; 43504; 43600; 44016;
   65296; 66720; 68912; 69734; 69872; 69942; 70096; 70384; 70736; 70864;
   71248; 71360; 71472; 71904; 72016; 72784; 73040; 73120; 92768; 92864;
   93008; 120782; 120792; 120802; 120812; 120822; 123200; 123632; 125264;
   130032].

Definition unicode_decimal (cp : Z) : option Z :=
  match List.find (fun z => (z <=? cp) && (cp <? z + 10)) digit_zeros with
  | Some z => Some (cp - z)
  | None => None
  end.

Definition byte_val (c : ascii) : Z := Z.of_nat (nat_of_ascii c).

Definition is_cont (c : ascii) : bool :=
  (128 <=? byte_val c) && (byte_val c <? 192).

Definition cont_val (c : ascii) : Z := byte_val c - 128.

(** What [float] and [int] make of the characters of a string before they
    parse it: an ASCII character stays, white space above ASCII becomes a
    space and a decimal digit of another script the ASCII digit of the same
    value; any other character makes the conversion fail ([None]). The string
    is held in UTF-8. *)
Definition to_ascii_char (cp : Z) : option ascii :=
  if unicode_space cp then Some " "%char
  else
    match unicode_decimal cp with
    | Some d => Some (ascii_of_N (Z.to_N (48 + d)))
    | None => None
    end.

Fixpoint to_ascii (s : list ascii) : option (list ascii) :=
  let next (cp : Z) (rest : option (list ascii)) :=
    match to_ascii_char cp, rest with
    | Some c, Some cs => Some (c :: cs)
    | _, _ => None
    end in
  match s with
  | [] => Some []
  | b0 :: s1 =>
      let n0 := byte_val b0 in
      if n0 <? 128 then
        match to_ascii s1 with
        | Some cs => Some (b0 :: cs)
        | None => None
        end
      else if n0 <? 192 then None
      else
        match s1 with
        | b1 :: s2 =>
            if negb (is_cont b1) then None
            else if n0 <? 224 then
              next ((n0 - 192) * 64 + cont_val b1) (to_ascii s2)
            else
              match s2 with
              | b2 :: s3 =>
                  if negb (is_cont b2) then None
                  else if n0 <? 240 then
                    next (((n0 - 224) * 64 + cont_val b1) * 64 + cont_val b2)
                         (to_ascii s3)
                  else
                    match s3 with
                    | b3 :: s4 =>
                        if negb (is_cont b3) then None
                        else
                          next ((((n0 - 240) * 64 + cont_val b1) * 64
                                 + cont_val b2) * 64 + cont_val b3)
                               (to_ascii s4)
                    | [] => None
                    end
              | [] => None
              end
        | [] => None
        end
  end.

Definition is_digit (c : ascii) : bool :=
  let n := Z.of_nat (nat_of_ascii c) in
  (48 <=? n) && (n <=? 57).

Definition digit_val (c : ascii) : Z := Z.of_nat (nat_of_ascii c) - 48.

Definition lower (c : ascii) : ascii :=
  let n := nat_of_ascii c in
  if ((65 <=? n) && (n <=? 90))%nat then ascii_of_nat (n + 32) else c.

Fixpoint lstrip (s : list ascii) : list ascii :=
  match s with
  | c :: s' => if is_space c then lstrip s' else s
  | [] => []
  end.

Definition strip (s : list ascii) : list ascii :=
  rev (lstrip (rev (lstrip s))).

Fixpoint span_digits (s : list ascii) : list ascii * list ascii :=
  match s with
  | c :: s' =>
      if is_digit c then let '(ds, r) := span_digits s' in (c :: ds, r)
      else ([], s)
  | [] => ([], [])
  end.

Definition digits_val (ds : list ascii) : Z :=
  fold_left (fun acc c => 10 * acc + digit_val c) ds 0.

(** An underscore is accepted only between two digits; [prev] tells whether
    the character before is a digit. *)
Fixpoint underscores_ok (prev : bool) (s : list ascii) : bool :=
  match s with
  | [] => true
  | c :: s' =>
      if Ascii.eqb c "_"
      then prev && match s' with d :: _ => is_digit d | [] => false end
           && underscores_ok false s'
      else underscores_ok (is_digit c) s'
  end.

Definition drop_underscores (s : list ascii) : list ascii :=
  List.filter (fun c => negb (Ascii.eqb c "_")) s.

(** The binary64 nearest to [(-1)^neg * d * 10^e], for [d >= 0]. The two
    guards only avoid huge powers of ten: beyond them the result is already
    infinite or zero. *)
Definition of_decimal (neg : bool) (d e : Z) : float :=
  if d =? 0 then SF2Prim (S754_zero neg)
  else
    if 400 <? e then SF2Prim (S754_infinity neg)
    else if e + Z.log2_up (d + 1) <? -1100 then SF2Prim (S754_zero neg)
    else if 0 <=? e
    then SF2Prim (binary_normalize prec emax
                    ((if neg then -1 else 1) * d * 10 ^ e) 0 false)
    else SF2Prim (SFdiv prec emax
                    (S754_finite neg (Z.to_pos d) 0)
                    (S754_finite false (Z.to_pos (10 ^ (- e))) 0)).

(** The exponent part [e[+-]ddd] at the end of a literal. *)
Definition parse_exponent (s : list ascii) : option Z :=
  match s with
  | [] => Some 0
  | c :: s' =>
      if Ascii.eqb (lower c) "e" then
        let '(neg, s'') :=
          match s' with
          | "-"%char :: t => (true, t)
          | "+"%char :: t => (false, t)
          | _ => (false, s')
          end in
        let '(ds, r) := span_digits s'' in
        match ds, r with
        | _ :: _, [] => Some (if neg then - digits_val ds else digits_val ds)
        | _, _ => None
        end
      else None
  end.

Definition parse_number (neg : bool) (s : list ascii) : option float :=
  let '(ip, r1) := span_digits s in
  let '(fp, r2) :=
    match r1 with
    | "."%char :: t => span_digits t
    | _ => ([], r1)
    end in
  match ip ++ fp with
  | [] => None
  | ds =>
      match parse_exponent r2 with
      | Some ex => Some (of_decimal neg (digits_val ds)
                                    (ex - Z.of_nat (List.length fp)))
      | None => None
      end
  end.

(** [float(s)] for a [str]: optional white space around an optional sign
    and [inf], [infinity], [nan] (in any case) or a decimal literal. [None]
    stands for the [ValueError] of a string that is none of these. *)
Definition of_str (s : string) : option float :=
  match to_ascii (list_ascii_of_string s) with
  | None => None
  | Some cs =>
      let cs := strip cs in
      if negb (underscores_ok false cs) then None
      else
        let cs := drop_underscores cs in
        let '(neg, body) :=
          match cs with
          | "-"%char :: t => (true, t)
          | "+"%char :: t => (false, t)
          | _ => (false, cs)
          end in
        let word := string_of_list_ascii (map lower body) in
        if String.eqb word "inf" || String.eqb word "infinity"
        then Some (SF2Prim (S754_infinity neg))
        else if String.eqb word "nan" then Some nan
        else parse_number neg body
  end.

End PyFloat.

(** The builtin [float(v)]. *)
Definition py_float (v : pyval) : outcome float :=
  match v with
  | VFloat f => Ok f
  | VInt z => PyFloat.of_int z
  | VBool b => Ok (if b then 1%float else 0%float)
  | VStr s =>
      match PyFloat.of_str s with
      | Some f => Ok f
      | None => Raise ValueError
      end
  | VNone | VList _ | VDict _ => Raise TypeError
  end.

(** [x * v] for a float [x]: an [int] or [bool] operand is converted to a
    float first; any other operand is a [TypeError]. *)
Definition py_float_mul (x : float) (v : pyval) : outcome float :=
  match v with
  | VFloat y => Ok (x * y)%float
  | VInt z => y <~ PyFloat.of_int z; Ok (x * y)%float
  | VBool b => Ok (x * (if b then 1 else 0))%float
  | VNone | VStr _ | VList _ | VDict _ => Raise TypeError
  end.

(** ** [json.loads]

    A decoder for JSON text as Python's [json] module reads it, including
    its [NaN], [Infinity] and [-Infinity] literals. Strings are byte
    strings: a [\uXXXX] escape is stored in UTF-8. *)

Module Json.

Definition is_ws (c : ascii) : bool :=
  Ascii.eqb c " " || Ascii.eqb c "009" || Ascii.eqb c "010" || Ascii.eqb c "013".

Fixpoint skip_ws (s : list ascii) : list ascii :=
  match s with
  | c :: s' => if is_ws c then skip_ws s' else s
  | [] => []
  end.

Fixpoint strip_prefix (p s : list ascii) : option (list ascii) :=
  match p, s with
  | [], _ => Some s
  | a :: p', b :: s' => if Ascii.eqb a b then strip_prefix p' s' else None
  | _ :: _, [] => None
  end.

Definition hex_val (c : ascii) : option Z :=
  let n := Z.of_nat (nat_of_ascii c) in
  if (48 <=? n) && (n <=? 57) then Some (n - 48)
  else if (65 <=? n) && (n <=? 70) then Some (n - 55)
  else if (97 <=? n) && (n <=? 102) then Some (n - 87)
  else None.

Definition hex4 (s : list ascii) : option (Z * list ascii) :=
  match s with
  | a :: b :: c :: d :: s' =>
      match hex_val a, hex_val b, hex_val c, hex_val d with
      | Some x, Some y, Some z, Some w =>
          Some (((x * 16 + y) * 16 + z) * 16 + w, s')
      | _, _, _, _ => None
      end
  | _ => None
  end.

Definition byte (n : Z) : ascii := ascii_of_N (Z.to_N n).

Definition utf8 (cp : Z) : list ascii :=
  if cp <? 128 then [byte cp]
  else if cp <? 2048 then [byte (192 + cp / 64); byte (128 + cp mod 64)]
  else if cp <? 65536 then
    [byte (224 + cp / 4096); byte (128 + cp / 64 mod 64);
     byte (128 + cp mod 64)]
  else
    [byte (240 + cp / 262144); byte (128 + cp / 4096 mod 64);
     byte (128 + cp / 64 mod 64); byte (128 + cp mod 64)].

(** A [\u] escape, after the [u]: a high surrogate followed by an escaped
    low surrogate is one code point. *)
Definition unicode_escape (s : list ascii) : option (list ascii * list ascii) :=
  match hex4 s with
  | None => None
  | Some (hi, r) =>
      let single := Some (utf8 hi, r) in
      if (55296 <=? hi) && (hi <=? 56319) then
        match r with
        | "\"%char :: "u"%char :: r1 =>
            match hex4 r1 with
            | Some (lo, r2) =>
                if (56320 <=? lo) && (lo <=? 57343)
                then Some (utf8 (65536 + (hi - 55296) * 1024 + (lo - 56320)),
                           r2)
                else single
            | None => single
            end
        | _ => single
        end
      else single
  end.

(** The characters of a string literal, after its opening quote. *)
Fixpoint scan_string (fuel : nat) (s : list ascii)
  : option (list ascii * list ascii) :=
  match fuel with
  | O => None
  | S fuel =>
      match s with
      | [] => None
      | "034"%char :: s' => Some ([], s')
      | "\"%char :: e :: s' =>
          let simple (c : ascii) :=
            match scan_string fuel s' with
            | Some (cs, r) => Some (c :: cs, r)
            | None => None
            end in
          if Ascii.eqb e "034" then simple "034"%char
          else if Ascii.eqb e "\" then simple "\"%char
          else if Ascii.eqb e "/" then simple "/"%char
          else if Ascii.eqb e "b" then simple "008"%char
          else if Ascii.eqb e "f" then simple "012"%char
          else if Ascii.eqb e "n" then simple "010"%char
          else if Ascii.eqb e "r" then simple "013"%char
          else if Ascii.eqb e "t" then simple "009"%char
          else if Ascii.eqb e "u" then
            match unicode_escape s' with
            | Some (bs, r1) =>
                match scan_string fuel r1 with
                | Some (cs, r) => Some (bs ++ cs, r)
                | None => None
                end
            | None => None
            end
          else None
      | c :: s' =>
          if (nat_of_ascii c <? 32)%nat then None
          else
            match scan_string fuel s' with
            | Some (cs, r) => Some (c :: cs, r)
            | None => None
            end
      end
  end.

(** A number: an optional minus sign, an integer part without leading
    zeros, an optional fraction and an optional exponent; an [int] without
    fraction and exponent and a [float] otherwise. *)
Definition scan_number (s : list ascii) : option (pyval * list ascii) :=
  let '(neg, s1) :=
    match s with
    | "-"%char :: t => (true, t)
    | _ => (false, s)
    end in
  let '(ds, r) := PyFloat.span_digits s1 in
  let '(ip, r1) :=
    match ds with
    | "0"%char :: _ :: _ => (["0"%char], skipn 1 s1)
    | _ => (ds, r)
    end in
  match ip with
  | [] => None
  | _ =>
      let '(fp, r2) :=
        match r1 with
        | "."%char :: t =>
            match PyFloat.span_digits t with
            | ([], _) => ([], r1)
            | (fs, r') => ("."%char :: fs, r')
            end
        | _ => ([], r1)
        end in
      let '(ep, r3) :=
        match r2 with
        | e :: t =>
            if Ascii.eqb (PyFloat.lower e) "e" then
              let '(sg, t') :=
                match t with
                | "-"%char :: u => (["-"%char], u)
                | "+"%char :: u => (["+"%char], u)
                | _ => ([], t)
                end in
              match PyFloat.span_digits t' with
              | ([], _) => ([], r2)
              | (es, r') => (e :: sg ++ es, r')
              end
            else ([], r2)
        | [] => ([], r2)
        end in
      match fp, ep with
      | [], [] =>
          let n := PyFloat.digits_val ip in
          Some (VInt (if neg then - n else n), r3)
      | _, _ =>
          let text := (if neg then ["-"%char] else []) ++ ip ++ fp ++ ep in
          match PyFloat.of_str (string_of_list_ascii text) with
          | Some f => Some (VFloat f, r3)
          | None => None
          end
      end
  end.

(** [dict[k] = v]: a repeated key keeps its place and takes the new
    value. *)
Fixpoint dict_set (k : string) (v : pyval) (d : list (string * pyval))
  : list (string * pyval) :=
  match d with
  | [] => [(k, v)]
  | (k', v') :: d' =>
      if String.eqb k k' then (k, v) :: d' else (k', v') :: dict_set k v d'
  end.

Definition literal (s : list ascii) : option (pyval * list ascii) :=
  let try (w : string) (v : pyval) :=
    match strip_prefix (list_ascii_of_string w) s with
    | Some r => Some (v, r)
    | None => None
    end in
  match try "null" VNone with Some x => Some x | None =>
  match try "true" (VBool true) with Some x => Some x | None =>
  match try "false" (VBool false) with Some x => Some x | None =>
  match scan_number s with Some x => Some x | None =>
  match try "NaN" (VFloat nan) with Some x => Some x | None =>
  match try "Infinity" (VFloat infinity) with Some x => Some x | None =>
  try "-Infinity" (VFloat neg_infinity)
  end end end end end end.

(** One value at the head of [s], and what follows it. The local loops read
    the remaining elements of an array and the remaining members of an
    object. *)
Fixpoint scan (fuel : nat) (s : list ascii) : option (pyval * list ascii) :=
  match fuel with
  | O => None
  | S fuel =>
      let fix elements (n : nat) (s : list ascii) (acc : list pyval)
        : option (pyval * list ascii) :=
        match n with
        | O => None
        | S n =>
            match scan fuel s with
            | None => None
            | Some (v, r) =>
                match skip_ws r with
                | ","%char :: r' => elements n (skip_ws r') (acc ++ [v])
                | "]"%char :: r' => Some (VList (acc ++ [v]), r')
                | _ => None
                end
            end
        end in
      let fix members (n : nat) (s : list ascii) (acc : list (string * pyval))
        : option (pyval * list ascii) :=
        match n with
        | O => None
        | S n =>
            match s with
            | "034"%char :: s1 =>
                match scan_string fuel s1 with
                | None => None
                | Some (k, r) =>
                    match skip_ws r with
                    | ":"%char :: r1 =>
                        match scan fuel (skip_ws r1) with
                        | None => None
                        | Some (v, r2) =>
                            let acc' :=
                              dict_set (string_of_list_ascii k) v acc in
                            match skip_ws r2 with
                            | ","%char :: r3 => members n (skip_ws r3) acc'
                            | "}"%char :: r3 => Some (VDict acc', r3)
                            | _ => None
                            end
                        end
                    | _ => None
                    end
                end
            | _ => None
            end
        end in
      match s with
      | "034"%char :: s' =>
          match scan_string fuel s' with
          | Some (cs, r) => Some (VStr (string_of_list_ascii cs), r)
          | None => None
          end
      | "["%char :: s' =>
          match skip_ws s' with
          | "]"%char :: r => Some (VList [], r)
          | s'' => elements fuel s'' []
          end
      | "{"%char :: s' =>
          match skip_ws s' with
          | "}"%char :: r => Some (VDict [], r)
          | s'' => members fuel s'' []
          end
      | _ => literal s
      end
  end.

(** One value, surrounded by white space only. The fuel, one more than the
    length of the text, is never exhausted: every nested call has consumed a
    character. *)
Definition decode (s : string) : option pyval :=
  let cs := list_ascii_of_string s in
  match scan (S (List.length cs)) (skip_ws cs) with
  | Some (v, r) =>
      match skip_ws r with
      | [] => Some v
      | _ => None
      end
  | None => None
  end.

(** [json.loads(s)] for a text that stays within the limits of the
    interpreter (the depth of its nesting below the recursion limit, its
    integers within the digit limit): the decoded value, or
    [JSONDecodeError]. *)
Definition loads (s : string) : outcome pyval :=
  match decode s with
  | Some v => Ok v
  | None => Raise JSONDecodeError
  end.

End Json.

(** ** Dictionaries, Series and DataFrames *)

Fixpoint assoc {A} (k : string) (d : list (string * A)) : option A :=
  match d with
  | [] => None
  | (k', v) :: d' => if String.eqb k k' then Some v else assoc k d'
  end.

Definition dict_get (d : list (string * pyval)) (k : string)
    (default : pyval) : pyval :=
  match assoc k d with
  | Some v => v
  | None => default
  end.

(** [item.get(k, default)]: an attribute of dictionaries only. *)
Definition py_get (item : pyval) (k : string) (default : pyval)
  : outcome pyval :=
  match item with
  | VDict d => Ok (dict_get d k default)
  | _ => Raise AttributeError
  end.

(** What [for item in v] iterates over: the elements of a list, the keys of
    a dictionary, the characters of a string; other values are not
    iterable. *)
Definition py_iter (v : pyval) : outcome (list pyval) :=
  match v with
  | VList l => Ok l
  | VDict d => Ok (map (fun kv => VStr (fst kv)) d)
  | VStr s => Ok (map (fun c => VStr (String c EmptyString))
                      (list_ascii_of_string s))
  | VNone | VBool _ | VInt _ | VFloat _ => Raise TypeError
  end.

(** A row as [iterrows] yields it: the cells of one order, labelled by the
    columns of the frame. *)
Definition Series := list (string * pyval).

(** [row[k]]. *)
Definition getitem (row : Series) (k : string) : outcome pyval :=
  match assoc k row with
  | Some v => Ok v
  | None => Raise KeyError
  end.

Record DataFrame := {
  columns : list string;
  rows : list (list pyval)
}.

Definition iterrows (df : DataFrame) : list Series :=
  map (fun r => combine (columns df) r) (rows df).

(** [df.empty]: no row or no column. *)
Definition df_empty (df : DataFrame) : bool :=
  match rows df, columns df with
  | [], _ | _, [] => true
  | _, _ => false
  end.

Definition has_column (df : DataFrame) (k : string) : bool :=
  existsb (String.eqb k) (columns df).

(** ** The line-item extractor *)

(** One transaction line, the dictionary [product_data] of the source. *)
Record product_data := {
  pd_order_id : pyval;
  pd_order_date : pyval;
  pd_channel : pyval;
  pd_line_item_id : pyval;
  pd_product_id : pyval;
  pd_variant_id : pyval;
  pd_sku : pyval;
  pd_name : pyval;
  pd_title : pyval;
  pd_quantity : pyval;
  pd_price : float;
  pd_total_discount : float;
  pd_line_total : float
}.

(** The exceptions the [except] clause of the row loop catches. *)
Definition caught (e : exn) : bool :=
  match e with
  | JSONDecodeError | KeyError | TypeError => true
  | ValueError | AttributeError | OverflowError | RecursionError => false
  end.

(** The dictionary display of the loop body, its entries evaluated in the
    order they are written. *)
Definition make_product_data (row : Series) (item : pyval)
  : outcome product_data :=
  order_id <~ getitem row "id";
  order_date <~ getitem row "date";
  channel <~ getitem row "channel";
  line_item_id <~ py_get item "id" VNone;
  product_id <~ py_get item "product_id" VNone;
  variant_id <~ py_get item "variant_id" VNone;
  sku <~ py_get item "sku" (VStr "N/A");
  name <~ py_get item "name" (VStr "Sin nombre");
  title_default <~ py_get item "name" (VStr "Sin título");
  title <~ py_get item "title" title_default;
  quantity <~ py_get item "quantity" (VInt 0);
  price_raw <~ py_get item "price" (VInt 0);
  price <~ py_float price_raw;
  discount_raw <~ py_get item "total_discount" (VInt 0);
  total_discount <~ py_float discount_raw;
  price_raw' <~ py_get item "price" (VInt 0);
  price' <~ py_float price_raw';
  quantity' <~ py_get item "quantity" (VInt 0);
  line_total <~ py_float_mul price' quantity';
  Ok {| pd_order_id := order_id; pd_order_date := order_date;
        pd_channel := channel; pd_line_item_id := line_item_id;
        pd_product_id := product_id; pd_variant_id := variant_id;
        pd_sku := sku; pd_name := name; pd_title := title;
        pd_quantity := quantity; pd_price := price;
        pd_total_discount := total_discount;
        pd_line_total := line_total |}.

(** [for item in items: ... all_items.append(product_data)]: the lines
    appended before an exception stay in [all_items]. *)
Fixpoint items_loop (row : Series) (items : list pyval)
    (all_items : list product_data) : list product_data * option exn :=
  match items with
  | [] => (all_items, None)
  | item :: items' =>
      match make_product_data row item with
      | Ok product_data => items_loop row items' (all_items ++ [product_data])
      | Raise e => (all_items, Some e)
      end
  end.

Section Extract.

(** [json.loads] of the standard library, on a string: the decoded value, or
    the exception it raises: [JSONDecodeError] for a malformed document,
    and whatever else it may raise ([RecursionError] for a document nested
    too deeply, [ValueError] for an integer of too many digits). *)
Variable json_loads : string -> outcome pyval.

(** The items the [try] body iterates over: [None] for a field that is
    neither a string nor a list ([continue]). *)
Definition items_of (row : Series) : outcome (option (list pyval)) :=
  line_items <~ getitem row "line_items";
  match line_items with
  | VStr s => items <~ json_loads s; l <~ py_iter items; Ok (Some l)
  | VList l => Ok (Some l)
  | _ => Ok None
  end.

(** The body of the [try] for one row: the new [all_items], and the
    exception that ended the body, if any. *)
Definition try_body (row : Series) (all_items : list product_data)
  : list product_data * option exn :=
  match items_of row with
  | Raise e => (all_items, Some e)
  | Ok None => (all_items, None)
  | Ok (Some l) => items_loop row l all_items
  end.

(** [for idx, row in df.iterrows(): try: ... except (json.JSONDecodeError,
    KeyError, TypeError): continue]. *)
Fixpoint rows_loop (rs : list Series) (all_items : list product_data)
  : outcome (list product_data) :=
  match rs with
  | [] => Ok all_items
  | row :: rs' =>
      match try_body row all_items with
      | (all_items', None) => rows_loop rs' all_items'
      | (all_items', Some e) =>
          if caught e then rows_loop rs' all_items' else Raise e
      end
  end.

(** The result frame [pd.DataFrame(all_items)] is given by the records it
    is built from, one per row and in order, and [pd.DataFrame()] by the
    empty list. The types pandas infers for the columns of the frame (a
    column of integers with a missing entry becomes [float64], with NaN for
    the missing entry) are not part of this description: text stays as it
    is, and [items_frame] below gives the four columns the ranker reads, for
    the frames on which their types are settled. *)
Definition extract_line_items_from_orders (df : DataFrame)
  : outcome (list product_data) :=
  if df_empty df || negb (has_column df "line_items") then Ok []
  else
    all_items <~ rows_loop (iterrows df) [];
    match all_items with
    | [] => Ok []
    | _ => Ok all_items
    end.

(** A row is passed over when its [try] body leaves [all_items] as it was
    and ends normally or with an exception the [except] clause catches. *)
Definition passed_over (row : Series) : Prop :=
  forall acc, exists oe, try_body row acc = (acc, oe) /\
    match oe with None => True | Some e => caught e = true end.

(** The lines the row loop adds all come from a dictionary among the items
    of a row it has seen. *)
Definition line_from (rs : list Series) (p : product_data) : Prop :=
  exists row items d,
    row ∈ rs /\ items_of row = Ok (Some items) /\ VDict d ∈ items /\
    py_float (dict_get d "price" (VInt 0)) = Ok (pd_price p) /\
    pd_quantity p = dict_get d "quantity" (VInt 0) /\
    py_float_mul (pd_price p) (pd_quantity p) = Ok (pd_line_total p).

End Extract.

(** The line-items field of a row yields the list [items]: it is that
    list, or JSON text that decodes to it. *)
Definition parses_to (json_loads : string -> outcome pyval) (row : Series)
    (items : list pyval) : Prop :=
  getitem row "line_items" = Ok (VList items) \/
  exists s, getitem row "line_items" = Ok (VStr s) /\
            json_loads s = Ok (VList items).

(** A cell of the result frame holds the text of its source: when the value
    the code puts into the record is text, the cell is that text. *)
Definition same_text (source : outcome pyval) (cell : pyval) : Prop :=
  forall s, source = Ok (VStr s) -> cell = VStr s.

(** A well-formed order: its line-items field yields a list of items, each
    of which becomes a line; [ps] are these lines, one per item, in order. *)
Definition order_lines (json_loads : string -> outcome pyval) (row : Series)
    (ps : list product_data) : Prop :=
  exists items,
    parses_to json_loads row items /\
    Forall2 (fun item p => make_product_data row item = Ok p) items ps.

(** JSON text for the examples, written with apostrophes where JSON has
    double quotes. *)
Definition json_text (s : string) : string :=
  string_of_list_ascii
    (map (fun c => if Ascii.eqb c "'" then "034"%char else c)
         (list_ascii_of_string s)).

Definition order_columns : list string := ["id"; "date"; "channel"; "line_items"].

(** ** Sorting, as the ranker uses it *)

Section Sorting.
Context {A : Type} (le : A -> A -> bool).

(** A stable insertion sort: [x] is placed before the first [y] with
    [le x y]. *)
Fixpoint insert_by (x : A) (l : list A) : list A :=
  match l with
  | [] => [x]
  | y :: l' => if le x y then x :: l else y :: insert_by x l'
  end.

Definition sort_by (l : list A) : list A := fold_right insert_by [] l.

Definition le_rel (x y : A) : Prop := le x y = true.

End Sorting.

(** ** The product ranker *)

(** The four columns [get_top_products] reads of [items_df], which are also
    the columns of [product_summary] after [groupby(...).agg(...)
    .reset_index()]: [quantity] is an [int64] column, [line_total] a
    [float64] one, and [K] is what a cell of the two key columns holds. *)
Record sales_row (K : Type) := {
  sku : K;
  name : K;
  quantity : Z;
  line_total : float
}.
Arguments sku {K} _.
Arguments name {K} _.
Arguments quantity {K} _.
Arguments line_total {K} _.

(** A row of [items_df]: a key is a string or null ([None] or NaN, as the
    extractor leaves them for a JSON [null]). *)
Definition line : Type := sales_row (option string).

(** A row of [product_summary]: [groupby] keeps no null key
    ([dropna=True]), so its keys are strings. *)
Definition summary_row : Type := sales_row string.

(** A row of the returned frame: its index label and the five renamed
    columns. *)
Record product_row := {
  rank : Z;
  SKU : string;
  Producto : string;
  Unidades : Z;
  Ventas : float;
  PctTotal : float
}.

(** [int64] arithmetic wraps around. *)
Definition wrap_int64 (z : Z) : Z := (z + 2 ^ 63) mod 2 ^ 64 - 2 ^ 63.

Definition sum_int64 (zs : list Z) : Z :=
  fold_left (fun acc z => wrap_int64 (acc + z)) zs 0.

(** pandas' [sum] of the groups of a [float64] column ([group_sum]): the
    values of a group are added in row order with a running compensation
    (Kahan summation). NaN is skipped ([skipna=True]), a group without
    numbers sums to [0.0], and a compensation that has become NaN (an
    infinite value was added) is set back to zero. *)
Definition kahan_add (st : float * float) (val : float) : float * float :=
  let '(sumx, compensation) := st in
  if is_nan val then (sumx, compensation)
  else
    let y := (val - compensation)%float in
    let t := (sumx + y)%float in
    let c := (t - sumx - y)%float in
    (t, if is_nan c then 0%float else c).

Definition group_sum (xs : list float) : float :=
  fst (fold_left kahan_add xs (0%float, 0%float)).

(** numpy's sum of a [float64] array (pairwise summation). Fewer than
    eight values are added one after the other. From eight values on, eight
    accumulators take the values in turn, the accumulators are added in
    pairs, and the values left over after the last full round of eight are
    added to that. *)
Record acc8 := {
  r0 : float; r1 : float; r2 : float; r3 : float;
  r4 : float; r5 : float; r6 : float; r7 : float
}.

(** A property of all eight accumulators. *)
Definition all8 (P : float -> Prop) (r : acc8) : Prop :=
  P (r0 r) /\ P (r1 r) /\ P (r2 r) /\ P (r3 r) /\
  P (r4 r) /\ P (r5 r) /\ P (r6 r) /\ P (r7 r).

Fixpoint accumulate8 (r : acc8) (xs : list float) : acc8 * list float :=
  match xs with
  | a0 :: a1 :: a2 :: a3 :: a4 :: a5 :: a6 :: a7 :: xs' =>
      accumulate8
        {| r0 := r0 r + a0; r1 := r1 r + a1; r2 := r2 r + a2;
           r3 := r3 r + a3; r4 := r4 r + a4; r5 := r5 r + a5;
           r6 := r6 r + a6; r7 := r7 r + a7 |}%float xs'
  | _ => (r, xs)
  end.

Definition block_sum (xs : list float) : float :=
  match xs with
  | a0 :: a1 :: a2 :: a3 :: a4 :: a5 :: a6 :: a7 :: xs' =>
      let '(r, rest) :=
        accumulate8
          {| r0 := a0; r1 := a1; r2 := a2; r3 := a3;
             r4 := a4; r5 := a5; r6 := a6; r7 := a7 |} xs' in
      fold_left (fun res x => (res + x)%float) rest
        ((r0 r + r1 r) + (r2 r + r3 r) + ((r4 r + r5 r) + (r6 r + r7 r)))%float
  | _ => fold_left (fun res x => (res + x)%float) xs 0%float
  end.

(** More than 128 values are split in two, the first part a multiple of
    eight, and the sums of the parts are added. The fuel bounds the depth of
    the splitting; the length of the list is more than enough
    ([pairwise_sum_fuel]). *)
Fixpoint pairwise_sum (fuel : nat) (xs : list float) : float :=
  match fuel with
  | O => block_sum xs
  | S fuel =>
      let n := length xs in
      if (n <=? 128)%nat then block_sum xs
      else
        let n2 := (n / 2 - (n / 2) mod 8)%nat in
        (pairwise_sum fuel (take n2 xs) + pairwise_sum fuel (drop n2 xs))%float
  end.

(** [Series.sum()] on a [float64] column: NaN counts as [0.0]
    ([skipna=True]), and numpy adds the values pairwise to the initial value
    [0.0] of the reduction. *)
Definition fill_nan (x : float) : float := if is_nan x then 0%float else x.

Definition series_sum (xs : list float) : float :=
  (0 + pairwise_sum (length xs) (map fill_nan xs))%float.

Definition key : Type := string * string.

(** The group key of a line: none when its SKU or its name is null. *)
Definition key_of (l : line) : option key :=
  match sku l, name l with
  | Some s, Some n => Some (s, n)
  | _, _ => None
  end.

Definition summary_key (g : summary_row) : key := (sku g, name g).

Definition key_eqb (k1 k2 : key) : bool :=
  String.eqb (fst k1) (fst k2) && String.eqb (snd k1) (snd k2).

(** Group keys are ordered as tuples: by SKU, then by name. *)
Definition key_leb (k1 k2 : key) : bool :=
  match String.compare (fst k1) (fst k2) with
  | Lt => true
  | Gt => false
  | Eq => String.leb (snd k1) (snd k2)
  end.

(** The distinct keys, first occurrences kept. *)
Fixpoint distinct_keys (ks : list key) : list key :=
  match ks with
  | [] => []
  | k :: ks' =>
      k :: List.filter (fun k' => negb (key_eqb k k')) (distinct_keys ks')
  end.

(** The groups of [groupby(['sku', 'name'])], in sorted key order
    ([sort=True]); the lines with a null key belong to no group
    ([dropna=True]). *)
Definition group_keys (items_df : list line) : list key :=
  sort_by key_leb (distinct_keys (omap key_of items_df)).

Definition has_key (k : key) (l : line) : bool :=
  match key_of l with
  | Some k' => key_eqb k k'
  | None => false
  end.

(** The lines of a group, in the order of the frame. *)
Definition group_of (k : key) (items_df : list line) : list line :=
  List.filter (has_key k) items_df.

(** [.agg({'quantity': 'sum', 'line_total': 'sum'})] on one group. *)
Definition agg (k : key) (items_df : list line) : summary_row :=
  {| sku := fst k; name := snd k;
     quantity := sum_int64 (map quantity (group_of k items_df));
     line_total := group_sum (map line_total (group_of k items_df)) |}.

Definition groupby_sum (items_df : list line) : list summary_row :=
  map (fun k => agg k items_df) (group_keys items_df).

(** [sort_values('line_total', ascending=False)]: larger revenue first, NaN
    last. [revenue_before a b] says that [a] need not come after [b]. Rows
    of equal revenue are kept in their order here. pandas leaves their order
    to numpy's sorting algorithm, which need not keep it; so among rows of
    equal revenue the order of a result below is one of the orders the code
    may give, and the properties proved do not depend on which. *)
Definition desc_leb (x y : float) : bool := is_nan y || (y <=? x)%float.

Definition revenue_before (a b : summary_row) : bool :=
  desc_leb (line_total a) (line_total b).

Definition sort_values_desc (summary : list summary_row) : list summary_row :=
  sort_by revenue_before summary.

(** numpy's [rint]: the nearest integer, ties to even. Below [2^52] it is
    obtained by adding and subtracting [2^52]; from there on every float is
    an integer. *)
Definition two52 : float := 4503599627370496%float.

Definition rint (x : float) : float :=
  if (abs x <? two52)%float then
    let r := ((abs x + two52) - two52)%float in
    if get_sign x then (- r)%float else r
  else x.

(** [Series.round(2)]: numpy multiplies by [10^2], rounds to an integer and
    divides again. *)
Definition round2 (x : float) : float := (rint (x * 100) / 100)%float.

Definition pct_total (total_sales : float) (g : summary_row) : float :=
  round2 (line_total g / total_sales * 100)%float.

(** [total_sales]: the revenue of all groups, before any truncation. *)
Definition total_sales (items_df : list line) : float :=
  series_sum (map line_total (sort_values_desc (groupby_sum items_df))).

(** [product_summary] with its [pct_total] column, all groups. *)
Definition with_pct (items_df : list line)
  : list (summary_row * float) :=
  let product_summary := sort_values_desc (groupby_sum items_df) in
  map (fun g => (g, pct_total (total_sales items_df) g)) product_summary.

(** [df.head(n)] is [df.iloc[:n]]: for a negative [n], all rows but the
    last [-n]. *)
Definition df_head {A} (n : Z) (l : list A) : list A :=
  if 0 <=? n then take (Z.to_nat n) l
  else take (Z.to_nat (Z.of_nat (length l) + n)) l.

Definition mk_row (i : Z) (gp : summary_row * float) : product_row :=
  {| rank := i; SKU := sku (fst gp); Producto := name (fst gp);
     Unidades := quantity (fst gp); Ventas := line_total (fst gp);
     PctTotal := snd gp |}.

(** [reset_index(drop=True)] then [index + 1]: labels 1, 2, ... *)
Definition number_rows (top : list (summary_row * float))
  : list product_row :=
  zip_with mk_row (seqZ 1 (Z.of_nat (length top))) top.

(** The returned frame is the list of its rows; [pd.DataFrame()] and a
    frame of no rows are the empty list. *)
Definition get_top_products (items_df : list line) (top_n : Z)
  : list product_row :=
  match items_df with
  | [] => []
  | _ => number_rows (df_head top_n (with_pct items_df))
  end.

(** The number of groups, and the percentages of all of them. *)
Definition num_groups (items_df : list line) : nat :=
  length (group_keys items_df).

(** The groups as the specification counts them: [keys] lists the pairs
    (SKU, name) that some line carries, each pair once. *)
Definition lists_pairs (items_df : list line) (keys : list key) : Prop :=
  NoDup keys /\
  forall s n, (s, n) ∈ keys <->
    exists l, l ∈ items_df /\ sku l = Some s /\ name l = Some n.

(** A line with both keys. *)
Definition has_keys (l : line) : bool :=
  match key_of l with
  | Some _ => true
  | None => false
  end.

Definition all_pct (items_df : list line) : list float :=
  map snd (with_pct items_df).

(** A float that is a number other than zero. *)
Definition finite_nonzero (x : float) : bool :=
  match Prim2SF x with
  | S754_finite _ _ _ => true
  | S754_zero _ | S754_infinity _ | S754_nan => false
  end.

(** A float that is infinite or NaN. *)
Definition nonfinite (x : float) : bool :=
  match Prim2SF x with
  | S754_infinity _ | S754_nan => true
  | S754_zero _ | S754_finite _ _ _ => false
  end.

(** The sum of a list of floats, as Python's [sum] takes it, and the test
    that a sum of percentages is 100.0 within 0.05 (the float nearest to
    0.05, written exactly). *)
Definition fsum (xs : list float) : float :=
  fold_left (fun acc x => (acc + x)%float) xs 0%float.

Definition within_tolerance (s : float) : bool :=
  (abs (s - 100) <=? 0x1.999999999999ap-5)%float.

(** A key cell of [pd.DataFrame(all_items)]: a string, or null for [None]
    and for NaN; keys of other types are not described. *)
Definition key_cell (v : pyval) : option (option string) :=
  match v with
  | VStr s => Some (Some s)
  | VNone => Some None
  | VFloat f => if is_nan f then Some None else None
  | _ => None
  end.

(** The rows of [pd.DataFrame(all_items)] as [get_top_products] reads them,
    for a frame whose [sku] and [name] columns hold strings or null and
    whose [quantity] column holds integers in the [int64] range. *)
Definition line_of_product_data (p : product_data) : option line :=
  match key_cell (pd_sku p), key_cell (pd_name p), pd_quantity p with
  | Some s, Some n, VInt q =>
      if (- 2 ^ 63 <=? q) && (q <? 2 ^ 63)
      then Some {| sku := s; name := n; quantity := q;
                   line_total := pd_line_total p |}
      else None
  | _, _, _ => None
  end.

Definition items_frame (all_items : list product_data) : option (list line) :=
  mapM line_of_product_data all_items.

(** ** Presentation formatting *)

Module Fmt.

Definition digits (n : Z) : list ascii :=
  list_ascii_of_string (NilZero.string_of_uint (N.to_uint (Z.to_N n))).

(** Thousands separators, on the digits in reverse order. *)
Fixpoint commas_rev (ds : list ascii) : list ascii :=
  match ds with
  | a :: b :: c :: ((_ :: _) as rest) =>
      a :: b :: c :: ","%char :: commas_rev rest
  | _ => ds
  end.

Definition grouped (n : Z) : list ascii := rev (commas_rev (rev (digits n))).

(** [f"{n:,}"] for an integer. *)
Definition int_grouped (n : Z) : string :=
  string_of_list_ascii
    ((if n <? 0 then ["-"%char] else []) ++ grouped (Z.abs n)).

(** The integer nearest to [num / den], ties to even, for [den > 0]. *)
Definition round_half_even (num den : Z) : Z :=
  let q := num / den in
  let r := num mod den in
  if 2 * r <? den then q
  else if den <? 2 * r then q + 1
  else if Z.even q then q else q + 1.

(** [f"{x:.df}"] and [f"{x:,.df}"] for [d >= 1]: the exact binary value of
    [x], correctly rounded to [d] decimals. *)
Definition fixed (grouping : bool) (d : Z) (x : float) : string :=
  let sign (s : bool) := if s then ["-"%char] else [] in
  let body (n : Z) :=
    (if grouping then grouped (n / 10 ^ d) else digits (n / 10 ^ d))
    ++ "."%char :: skipn 1 (digits (10 ^ d + n mod 10 ^ d)) in
  string_of_list_ascii
    match Prim2SF x with
    | S754_nan => list_ascii_of_string "nan"
    | S754_infinity s => sign s ++ list_ascii_of_string "inf"
    | S754_zero s => sign s ++ body 0
    | S754_finite s m e =>
        sign s ++
        body (if 0 <=? e then Z.pos m * 2 ^ e * 10 ^ d
              else round_half_even (Z.pos m * 10 ^ d) (2 ^ (- e)))
    end.

(** [int(x)] for a float: truncation towards zero. *)
Definition int_of_float (x : float) : outcome Z :=
  match Prim2SF x with
  | S754_nan => Raise ValueError
  | S754_infinity _ => Raise OverflowError
  | S754_zero _ => Ok 0
  | S754_finite s m e =>
      let n := if 0 <=? e then Z.pos m * 2 ^ e else Z.pos m / 2 ^ (- e) in
      Ok (if s then - n else n)
  end.

(** [int(s)] for a string: decimal digits with an optional sign, white
    space around them. *)
Definition int_of_str (s : string) : outcome Z :=
  match PyFloat.to_ascii (list_ascii_of_string s) with
  | None => Raise ValueError
  | Some cs =>
      let cs := PyFloat.strip cs in
      if negb (PyFloat.underscores_ok false cs) then Raise ValueError
      else
        let cs := PyFloat.drop_underscores cs in
        let '(neg, body) :=
          match cs with
          | "-"%char :: t => (true, t)
          | "+"%char :: t => (false, t)
          | _ => (false, cs)
          end in
        match PyFloat.span_digits body with
        | ((_ :: _) as ds, []) =>
            Ok (if neg then - PyFloat.digits_val ds else PyFloat.digits_val ds)
        | _ => Raise ValueError
        end
  end.

End Fmt.

(** A cell of a displayed frame: a number, its formatted text, or what else
    a column of objects may hold of the values above: a boolean or [None]. *)
Inductive cell :=
| CInt (z : Z)
| CFloat (f : float)
| CStr (s : string)
| CBool (b : bool)
| CNone.

(** A row of a product table: index label, the two text columns, and the
    three columns [format_product_table] rewrites. *)
Record table_row := {
  t_index : Z;
  t_SKU : string;
  t_Producto : string;
  t_Unidades : cell;
  t_Ventas : cell;
  t_PctTotal : cell
}.

Definition row_cells (r : product_row) : table_row :=
  {| t_index := rank r; t_SKU := SKU r; t_Producto := Producto r;
     t_Unidades := CInt (Unidades r); t_Ventas := CFloat (Ventas r);
     t_PctTotal := CFloat (PctTotal r) |}.

(** The float behind a format specification of type [f]: text has no such
    format ([ValueError]), [None] has no format at all ([TypeError]). *)
Definition float_of_cell (c : cell) : outcome float :=
  match c with
  | CFloat f => Ok f
  | CInt z => PyFloat.of_int z
  | CBool b => Ok (if b then 1%float else 0%float)
  | CStr _ => Raise ValueError
  | CNone => Raise TypeError
  end.

(** [lambda x: f"${x:,.2f}"]. *)
Definition fmt_ventas (c : cell) : outcome cell :=
  f <~ float_of_cell c;
  Ok (CStr (String "$" (Fmt.fixed true 2 f))).

(** [lambda x: f"{x:.1f}%"]. *)
Definition fmt_pct (c : cell) : outcome cell :=
  f <~ float_of_cell c;
  Ok (CStr (Fmt.fixed false 1 f ++ "%")).

(** [lambda x: f"{int(x):,}"]. *)
Definition fmt_unidades (c : cell) : outcome cell :=
  n <~ match c with
       | CInt z => Ok z
       | CFloat f => Fmt.int_of_float f
       | CStr s => Fmt.int_of_str s
       | CBool b => Ok (if b then 1 else 0)
       | CNone => Raise TypeError
       end;
  Ok (CStr (Fmt.int_grouped n)).

(** [Series.apply(f)]: [f] on every cell in turn; the first exception ends
    it. *)
Fixpoint apply (f : cell -> outcome cell) (col : list cell)
  : outcome (list cell) :=
  match col with
  | [] => Ok []
  | c :: col' => c' <~ f c; col'' <~ apply f col'; Ok (c' :: col'')
  end.

Definition set_Ventas (r : table_row) (c : cell) : table_row :=
  {| t_index := t_index r; t_SKU := t_SKU r; t_Producto := t_Producto r;
     t_Unidades := t_Unidades r; t_Ventas := c; t_PctTotal := t_PctTotal r |}.

Definition set_PctTotal (r : table_row) (c : cell) : table_row :=
  {| t_index := t_index r; t_SKU := t_SKU r; t_Producto := t_Producto r;
     t_Unidades := t_Unidades r; t_Ventas := t_Ventas r; t_PctTotal := c |}.

Definition set_Unidades (r : table_row) (c : cell) : table_row :=
  {| t_index := t_index r; t_SKU := t_SKU r; t_Producto := t_Producto r;
     t_Unidades := c; t_Ventas := t_Ventas r; t_PctTotal := t_PctTotal r |}.

(** The three column assignments on the rows of a frame that is not empty:
    the rows the frame holds in the end, and the exception that stopped the
    assignments, if any. Each assignment rewrites the frame, so a later
    exception leaves the earlier columns formatted. *)
Definition format_columns (t : list table_row)
  : list table_row * option exn :=
  match apply fmt_ventas (map t_Ventas t) with
  | Raise e => (t, Some e)
  | Ok ventas =>
      let t1 := zip_with set_Ventas t ventas in
      match apply fmt_pct (map t_PctTotal t1) with
      | Raise e => (t1, Some e)
      | Ok pct =>
          let t2 := zip_with set_PctTotal t1 pct in
          match apply fmt_unidades (map t_Unidades t2) with
          | Raise e => (t2, Some e)
          | Ok unidades => (zip_with set_Unidades t2 unidades, None)
          end
      end
  end.

(** A row of [get_top_products] after formatting. *)
Definition formatted (r : product_row) : table_row :=
  {| t_index := rank r; t_SKU := SKU r; t_Producto := Producto r;
     t_Unidades := CStr (Fmt.int_grouped (Unidades r));
     t_Ventas := CStr (String "$" (Fmt.fixed true 2 (Ventas r)));
     t_PctTotal := CStr (Fmt.fixed false 1 (PctTotal r) ++ "%") |}.

(** ** DataFrames as objects

    A frame object is named by a location of the store; a function that
    receives a frame receives its location. *)

Definition loc := positive.

Inductive frame :=
| Items (items : list line)
| Table (tbl : list table_row).

Abbreviation store := (gmap loc frame).

(** [get_top_products(items_df, top_n)] on objects: every frame it builds
    is a new one, and the returned frame is the last of them. *)
Definition get_top_products_obj (items_df : loc) (top_n : Z) (h : store)
  : option (store * outcome loc) :=
  match h !! items_df with
  | None => None
  | Some (Items items) =>
      let top_products := fresh (dom h) in
      Some (<[top_products := Table (map row_cells (get_top_products items top_n))]> h,
            Ok top_products)
  | Some (Table []) =>
      let top_products := fresh (dom h) in
      Some (<[top_products := Table []]> h, Ok top_products)
  | Some (Table (_ :: _)) => Some (h, Raise KeyError)
  end.

(** [format_product_table(df)]: the column assignments [df[c] = ...] write
    into the frame it was given, and that same frame is returned. *)
Definition format_product_table (df : loc) (h : store)
  : option (store * outcome loc) :=
  match h !! df with
  | None => None
  | Some (Items []) | Some (Table []) => Some (h, Ok df)
  | Some (Items (_ :: _)) => Some (h, Raise KeyError)
  | Some (Table t) =>
      match format_columns t with
      | (t', None) => Some (<[df := Table t']> h, Ok df)
      | (t', Some e) => Some (<[df := Table t']> h, Raise e)
      end
  end.

(** [df.copy()]: a new frame with the same rows. *)
Definition copy (df : loc) (h : store) : option (store * loc) :=
  match h !! df with
  | None => None
  | Some f => let c := fresh (dom h) in Some (<[c := f]> h, c)
  end.

(** ** Sample frames

    The frames the examples below are run on. *)

Definition mk_line (s n : string) (q : Z) (t : float) : line :=
  {| sku := Some s; name := Some n; quantity := q; line_total := t |}.

Definition three_products : list line :=
  [mk_line "A" "Alfa" 1 20; mk_line "B" "Beta" 3 50; mk_line "C" "Gama" 2 30].

Definition two_names : list line :=
  [mk_line "X1" "Widget" 2 20; mk_line "X1" "Widget (blue)" 1 150;
   mk_line "X1" "Widget" 3 30].

Definition thirty_products : list line :=
  map (fun i => mk_line (String (ascii_of_nat (65 + i)) "") "p" 1 1) (seq 0 30).

Definition zero_revenue : list line := [mk_line "A" "Alfa" 1 0].

Definition eight_groups : list line :=
  [mk_line "A" "p" 1 1e16; mk_line "B" "p" 1 7; mk_line "C" "p" 1 7;
   mk_line "D" "p" 1 7; mk_line "E" "p" 1 7; mk_line "F" "p" 1 1;
   mk_line "G" "p" 1 1; mk_line "H" "p" 1 (-1e16)].

Definition top_two : list product_row :=
  [{| rank := 1; SKU := "B"; Producto := "Beta"; Unidades := 1234;
      Ventas := 1234567.5; PctTotal := 62.5 |};
   {| rank := 2; SKU := "C"; Producto := "Gama"; Unidades := 2;
      Ventas := 30; PctTotal := 37.5 |}].

(** The sum of a list of integers, without wrap-around. *)
Definition Zsum (zs : list Z) : Z := fold_right Z.add 0 zs.

(** ** The dashboard (app.py)

    The functions of [app.py] that compute on the orders frame. Of an order
    they read three columns, as [load_orders_data] leaves them: [date]
    (a [datetime.date]), [channel] (a string) and [total_price]
    ([float64]). *)

(** A [datetime.date]; dates compare by year, then month, then day. *)
Record date := {
  d_year : Z;
  d_month : Z;
  d_day : Z
}.

Definition date_compare (a b : date) : comparison :=
  match d_year a ?= d_year b with
  | Eq =>
      match d_month a ?= d_month b with
      | Eq => d_day a ?= d_day b
      | c => c
      end
  | c => c
  end.

Definition date_leb (a b : date) : bool :=
  match date_compare a b with
  | Gt => false
  | Eq | Lt => true
  end.

Definition date_eqb (a b : date) : bool :=
  match date_compare a b with
  | Eq => true
  | Lt | Gt => false
  end.

(** [today.replace(day=1)]. *)
Definition first_day_month (today : date) : date :=
  {| d_year := d_year today; d_month := d_month today; d_day := 1 |}.

Record order := {
  o_date : date;
  o_channel : string;
  o_total_price : float
}.

(** The [float64] of an integer count. *)
Definition float_of_Z (n : Z) : float :=
  SF2Prim (binary_normalize prec emax n 0 false).

(** The dictionary [calculate_kpis] returns. An empty frame gives the
    integers [0]; otherwise [ventas_total] is a float, and
    [ticket_promedio] is a float or, without orders, the integer [0]. *)
Record kpis := {
  ventas_total : pyval;
  num_ordenes : Z;
  ticket_promedio : pyval
}.

(** [mask = (df['date'] >= period_start) & (df['date'] <= period_end)]. *)
Definition in_period (period_start period_end : date) (o : order) : bool :=
  date_leb period_start (o_date o) && date_leb (o_date o) period_end.

Definition calculate_kpis (df : list order) (period_start period_end : date)
  : kpis :=
  match df with
  | [] => {| ventas_total := VInt 0; num_ordenes := 0;
             ticket_promedio := VInt 0 |}
  | _ =>
      let period_df := List.filter (in_period period_start period_end) df in
      let ventas_total := series_sum (map o_total_price period_df) in
      let num_ordenes := Z.of_nat (length period_df) in
      {| ventas_total := VFloat ventas_total;
         num_ordenes := num_ordenes;
         ticket_promedio :=
           if 0 <? num_ordenes
           then VFloat (ventas_total / float_of_Z num_ordenes)
           else VInt 0 |}
  end.

(** [f"${amount:,.2f} MXN"] for a float. *)
Definition currency_text (amount : float) : string :=
  String "$" (Fmt.fixed true 2 amount ++ " MXN").

(** [format_currency(amount)]: the format type [f] takes a float, an
    integer or a boolean; text has no such format, and the other values have
    no format at all. *)
Definition format_currency (amount : pyval) : outcome string :=
  match amount with
  | VFloat f => Ok (currency_text f)
  | VInt z => f <~ PyFloat.of_int z; Ok (currency_text f)
  | VBool b => Ok (currency_text (if b then 1 else 0))
  | VStr _ => Raise ValueError
  | VNone | VList _ | VDict _ => Raise TypeError
  end.

Definition CHANNEL_COLORS : list (string * string) :=
  [("Amazon", "#FF9900"); ("Mercado Libre", "#FFE600");
   ("Shopify", "#96BF48"); ("TikTok", "#000000"); ("Otro", "#CCCCCC")].

(** The distinct elements of a list, first occurrences kept. *)
Fixpoint distinct_by {A} (eqb : A -> A -> bool) (l : list A) : list A :=
  match l with
  | [] => []
  | x :: l' => x :: List.filter (fun y => negb (eqb x y)) (distinct_by eqb l')
  end.

(** The layout of a figure. *)
Record layout := {
  l_title : string;
  l_xaxis_title : string;
  l_yaxis_title : string;
  l_height : Z;
  l_showlegend : bool
}.

(** The horizontal bars of [create_channel_bar_chart]. *)
Record channel_bars := {
  bar_y : list string;
  bar_x : list float;
  bar_marker_color : list string;
  bar_text : list string
}.

(** The line of [create_daily_trend_chart]. *)
Record trend_line := {
  sc_x : list date;
  sc_y : list float;
  sc_line_color : string;
  sc_fillcolor : string
}.

(** A plotly figure, as far as these functions fill it: [go.Figure()], or
    one trace with its layout. *)
Inductive figure :=
| EmptyFigure
| BarFigure (data : channel_bars) (lay : layout)
| ScatterFigure (data : trend_line) (lay : layout).

(** [df.groupby('channel')['total_price'].sum()]: one entry per channel, in
    the order of the channel names. *)
Definition channel_sums (df : list order) : list (string * float) :=
  map (fun ch =>
         (ch, group_sum (map o_total_price
                (List.filter (fun o => String.eqb ch (o_channel o)) df))))
      (sort_by String.leb (distinct_by String.eqb (map o_channel df))).

(** [.sort_values(ascending=False)] on that Series. *)
Definition channel_sales (df : list order) : list (string * float) :=
  sort_by (fun a b => desc_leb (snd a) (snd b)) (channel_sums df).

(** [CHANNEL_COLORS.get(ch, CHANNEL_COLORS['Otro'])]. *)
Definition channel_color (ch : string) : string :=
  match assoc ch CHANNEL_COLORS with
  | Some c => c
  | None => "#CCCCCC"
  end.

Definition create_channel_bar_chart (df : list order) (title : string)
  : figure :=
  match df with
  | [] => EmptyFigure
  | _ =>
      let channel_sales := channel_sales df in
      BarFigure
        {| bar_y := map fst channel_sales;
           bar_x := map snd channel_sales;
           bar_marker_color := map (fun kv => channel_color (fst kv))
                                   channel_sales;
           bar_text := map (fun kv => currency_text (snd kv)) channel_sales |}
        {| l_title := title; l_xaxis_title := "Ventas (MXN)";
           l_yaxis_title := "Canal"; l_height := 300;
           l_showlegend := false |}
  end.

Module PyStr.

(** [s.lstrip(c)] for a single character [c]. *)
Fixpoint lstrip (c : ascii) (s : list ascii) : list ascii :=
  match s with
  | x :: s' => if Ascii.eqb x c then lstrip c s' else s
  | [] => []
  end.

(** [s[i:j]] for [0 <= i <= j]. *)
Definition slice (i j : nat) (s : list ascii) : list ascii :=
  take (j - i) (drop i s).

Definition hex_digit (c : ascii) : bool :=
  match Json.hex_val c with
  | Some _ => true
  | None => false
  end.

Definition hex_digit_val (c : ascii) : Z :=
  match Json.hex_val c with
  | Some v => v
  | None => 0
  end.

(** An underscore is accepted only between two digits, or between the
    prefix [0x] and a digit; [prev] tells whether the character before is
    a digit or the prefix. *)
Fixpoint underscores_ok (prev : bool) (s : list ascii) : bool :=
  match s with
  | [] => true
  | c :: s' =>
      if Ascii.eqb c "_"
      then prev && match s' with d :: _ => hex_digit d | [] => false end
           && underscores_ok false s'
      else underscores_ok (hex_digit c) s'
  end.

(** [int(s, 16)]: white space around an optional sign, an optional prefix
    [0x] and hexadecimal digits. *)
Definition int16 (s : list ascii) : outcome Z :=
  match PyFloat.to_ascii s with
  | None => Raise ValueError
  | Some cs =>
      let cs := PyFloat.strip cs in
      let '(neg, body) :=
        match cs with
        | "-"%char :: t => (true, t)
        | "+"%char :: t => (false, t)
        | _ => (false, cs)
        end in
      let '(prefixed, body) :=
        match body with
        | "0"%char :: x :: t =>
            if Ascii.eqb (PyFloat.lower x) "x" then (true, t)
            else (false, body)
        | _ => (false, body)
        end in
      if negb (underscores_ok prefixed body) then Raise ValueError
      else
        let ds := List.filter (fun c => negb (Ascii.eqb c "_")) body in
        match ds with
        | [] => Raise ValueError
        | _ =>
            if forallb hex_digit ds then
              let n :=
                fold_left (fun acc c => 16 * acc + hex_digit_val c) ds 0 in
              Ok (if neg then - n else n)
            else Raise ValueError
        end
  end.

(** [str(n)] for an integer. *)
Definition of_int (n : Z) : list ascii :=
  (if n <? 0 then ["-"%char] else []) ++ Fmt.digits (Z.abs n).

End PyStr.

(** [f'rgba{tuple(list(int(color.lstrip("#")[i:i+2], 16) for i in (0, 2, 4))
    + [0.2])}']. *)
Definition fillcolor_of (color : string) : outcome string :=
  let hex := PyStr.lstrip "#" (list_ascii_of_string color) in
  r <~ PyStr.int16 (PyStr.slice 0 2 hex);
  g <~ PyStr.int16 (PyStr.slice 2 4 hex);
  b <~ PyStr.int16 (PyStr.slice 4 6 hex);
  Ok (string_of_list_ascii
        (list_ascii_of_string "rgba(" ++ PyStr.of_int r ++
         list_ascii_of_string ", " ++ PyStr.of_int g ++
         list_ascii_of_string ", " ++ PyStr.of_int b ++
         list_ascii_of_string ", 0.2)")).

(** [df.groupby('date')['total_price'].sum().reset_index()], then
    [sort_values('date')]. *)
Definition daily_sums (df : list order) : list (date * float) :=
  map (fun d =>
         (d, group_sum (map o_total_price
               (List.filter (fun o => date_eqb d (o_date o)) df))))
      (sort_by date_leb (distinct_by date_eqb (map o_date df))).

Definition daily_sales (df : list order) : list (date * float) :=
  sort_by (fun a b => date_leb (fst a) (fst b)) (daily_sums df).

(** The truth value of the [channel] argument: [None] and the empty string
    are false. *)
Definition truthy (channel : option string) : bool :=
  match channel with
  | None | Some EmptyString => false
  | Some _ => true
  end.

Definition create_daily_trend_chart (df : list order) (title : string)
    (channel : option string) : outcome figure :=
  match df with
  | [] => Ok EmptyFigure
  | _ =>
      let df :=
        match channel with
        | Some ch =>
            if truthy channel
            then List.filter (fun o => String.eqb (o_channel o) ch) df
            else df
        | None => df
        end in
      let daily_sales := daily_sales df in
      let color :=
        match channel with
        | Some ch =>
            if truthy channel then
              match assoc ch CHANNEL_COLORS with
              | Some c => c
              | None => "#1f77b4"
              end
            else "#1f77b4"
        | None => "#1f77b4"
        end in
      fillcolor <~ fillcolor_of color;
      Ok (ScatterFigure
            {| sc_x := map fst daily_sales; sc_y := map snd daily_sales;
               sc_line_color := color; sc_fillcolor := fillcolor |}
            {| l_title := title; l_xaxis_title := "Fecha";
               l_yaxis_title := "Ventas (MXN)";
               l_height := if truthy channel then 250 else 400;
               l_showlegend := false |})
  end.

(** The channels [show_overview_tab] draws a small trend for. *)
Definition overview_channels : list string :=
  ["Amazon"; "Mercado Libre"; "Shopify"; "TikTok"].

(** Sample orders. *)
Definition mk_order (y m d : Z) (ch : string) (t : float) : order :=
  {| o_date := {| d_year := y; d_month := m; d_day := d |};
     o_channel := ch; o_total_price := t |}.

Definition may_orders : list order :=
  [mk_order 2024 5 3 "Shopify" 100; mk_order 2024 5 1 "Amazon" 250;
   mk_order 2024 5 3 "Shopify" 50; mk_order 2024 4 30 "Tienda" 75;
   mk_order 2024 5 17 "Amazon" 20].

(** * Properties *)

(** ** The extractor *)

Ltac step_bind :=
  match goal with
  | H : context [bind ?m _] |- _ =>
      let E := fresh "E" in
      destruct m eqn:E; simpl in H; [| discriminate H]
  end.

Lemma make_product_data_ok (row : Series) (item : pyval) (p : product_data) :
  make_product_data row item = Ok p ->
  exists d, item = VDict d /\
    py_float (dict_get d "price" (VInt 0)) = Ok (pd_price p) /\
    pd_quantity p = dict_get d "quantity" (VInt 0) /\
    py_float_mul (pd_price p) (pd_quantity p) = Ok (pd_line_total p).
Proof.
  unfold make_product_data. intros H.
  do 3 step_bind.
  destruct item as [| | | | | |d]; simpl in H; try discriminate H.
  exists d. split; [reflexivity|].
  destruct (py_float (dict_get d "price" (VInt 0))) as [price|] eqn:Ep;
    simpl in H; [| discriminate H].
  destruct (py_float (dict_get d "total_discount" (VInt 0))) as [disc|] eqn:Ed;
    simpl in H; [| discriminate H].
  destruct (py_float_mul price (dict_get d "quantity" (VInt 0)))
    as [total|] eqn:Em; simpl in H; [| discriminate H].
  injection H as <-. simpl. auto.
Qed.

Lemma make_product_data_KeyError (row : Series) (item : pyval) :
  assoc "id" row = None \/ assoc "date" row = None \/
    assoc "channel" row = None ->
  make_product_data row item = Raise KeyError.
Proof.
  unfold make_product_data, getitem. intros H.
  destruct (assoc "id" row); simpl; [| reflexivity].
  destruct (assoc "date" row); simpl; [| reflexivity].
  destruct (assoc "channel" row); simpl; [| reflexivity].
  destruct H as [H | [H | H]]; discriminate H.
Qed.

Lemma items_loop_fst (row : Series) (items : list pyval)
    (acc : list product_data) :
  exists new, fst (items_loop row items acc) = acc ++ new /\
    Forall (fun p => exists item, item ∈ items /\
                       make_product_data row item = Ok p) new.
Proof.
  revert acc. induction items as [|item items IH]; intros acc; simpl.
  - exists []. split; [by rewrite app_nil_r | constructor].
  - destruct (make_product_data row item) as [p|e] eqn:E.
    + destruct (IH (acc ++ [p])) as (new & -> & Hnew).
      exists (p :: new). split; [by rewrite <- app_assoc |].
      constructor.
      * exists item. split; [left | done].
      * eapply Forall_impl; [exact Hnew |].
        intros q (it & Hit & Hq). exists it. split; [by right | done].
    + exists []. split; [by rewrite app_nil_r | constructor].
Qed.

Section ExtractFacts.

Variable json_loads : string -> outcome pyval.

#[local] Abbreviation try_body := (try_body json_loads).
#[local] Abbreviation rows_loop := (rows_loop json_loads).
#[local] Abbreviation items_of := (items_of json_loads).
#[local] Abbreviation extract := (extract_line_items_from_orders json_loads).
#[local] Abbreviation passed_over := (passed_over json_loads).
#[local] Abbreviation line_from := (line_from json_loads).

Lemma rows_loop_app (pre post : list Series) (acc : list product_data) :
  rows_loop (pre ++ post) acc =
  (acc' <~ rows_loop pre acc; rows_loop post acc').
Proof.
  revert acc. induction pre as [|row pre IH]; intros acc; simpl; [done|].
  destruct (try_body row acc) as [acc' [e|]]; [| apply IH].
  destruct (caught e); [apply IH | done].
Qed.

Lemma rows_loop_passed_over (row : Series) (rs : list Series)
    (acc : list product_data) :
  passed_over row -> rows_loop (row :: rs) acc = rows_loop rs acc.
Proof.
  intros H. destruct (H acc) as (oe & E & Hoe). simpl. rewrite E.
  destruct oe as [e|]; [by rewrite Hoe | done].
Qed.

Lemma extract_passed_over (cols : list string) (pre post : list (list pyval))
    (r : list pyval) :
  passed_over (combine cols r) ->
  extract {| columns := cols; rows := pre ++ r :: post |} =
  extract {| columns := cols; rows := pre ++ post |}.
Proof.
  intros H. unfold extract_line_items_from_orders, df_empty, has_column, iterrows.
  cbn [columns rows].
  generalize (negb (existsb (String.eqb "line_items") cols)). intros b.
  destruct cols as [|c cols].
  { by destruct (pre ++ r :: post), (pre ++ post). }
  set (f := fun r0 : list pyval => combine (c :: cols) r0).
  assert (Hloop :
    rows_loop (map f (pre ++ r :: post)) [] =
    rows_loop (map f (pre ++ post)) []).
  { rewrite !map_app, !rows_loop_app. rewrite map_cons.
    destruct (rows_loop (map f pre) []) as [acc|e]; [| done].
    unfold bind. by apply rows_loop_passed_over. }
  rewrite Hloop.
  destruct (pre ++ r :: post) as [|x l] eqn:E1.
  { by destruct pre. }
  destruct (pre ++ post) as [|y l'] eqn:E2; [| done].
  cbn. by destruct b.
Qed.

Lemma line_from_mono (rs rs' : list Series) (p : product_data) :
  (forall row, row ∈ rs -> row ∈ rs') -> line_from rs p -> line_from rs' p.
Proof.
  intros Hsub (row & items & d & Hrow & H). exists row, items, d.
  split; [by apply Hsub | exact H].
Qed.

Lemma try_body_lines (row : Series) (acc : list product_data) :
  exists new, fst (try_body row acc) = acc ++ new /\
    Forall (line_from [row]) new.
Proof.
  unfold try_body.
  destruct (items_of row) as [[items|]|e] eqn:E; simpl;
    try (exists []; split; [by rewrite app_nil_r | constructor]).
  destruct (items_loop_fst row items acc) as (new & Hnew & Hall).
  exists new. split; [done|].
  eapply Forall_impl; [exact Hall|].
  intros p (item & Hitem & Hp).
  destruct (make_product_data_ok _ _ _ Hp) as (d & -> & Hd).
  exists row, items, d. split; [by left|]. by split.
Qed.

Lemma rows_loop_lines (rs : list Series) (acc out : list product_data) :
  rows_loop rs acc = Ok out ->
  exists new, out = acc ++ new /\ Forall (line_from rs) new.
Proof.
  revert acc. induction rs as [|row rs IH]; intros acc; simpl.
  - intros [= <-]. exists []. split; [by rewrite app_nil_r | constructor].
  - destruct (try_body_lines row acc) as (new1 & Hfst & Hnew1).
    destruct (try_body row acc) as [acc' oe]. simpl in Hfst. subst acc'.
    intros H.
    assert (Hrest : rows_loop rs (acc ++ new1) = Ok out).
    { destruct oe as [e|]; [| done]. by destruct (caught e). }
    destruct (IH _ Hrest) as (new2 & -> & Hnew2).
    exists (new1 ++ new2). split; [by rewrite app_assoc|].
    apply Forall_app. split.
    + eapply Forall_impl; [exact Hnew1|]. intros p.
      apply line_from_mono. intros r Hr. apply list_elem_of_singleton in Hr.
      subst r. by left.
    + eapply Forall_impl; [exact Hnew2|]. intros p.
      apply line_from_mono. intros r Hr. by right.
Qed.

End ExtractFacts.

Lemma items_loop_acc (row : Series) (items : list pyval)
    (acc : list product_data) :
  items_loop row items acc =
  (acc ++ fst (items_loop row items []), snd (items_loop row items [])).
Proof.
  revert acc. induction items as [|item items IH]; intros acc; simpl.
  - by rewrite app_nil_r.
  - destruct (make_product_data row item) as [p|e]; simpl.
    + rewrite (IH (acc ++ [p])), (IH [p]). simpl. by rewrite <- app_assoc.
    + by rewrite app_nil_r.
Qed.

Lemma try_body_acc (json_loads : string -> outcome pyval) (row : Series)
    (acc : list product_data) :
  try_body json_loads row acc =
  (acc ++ fst (try_body json_loads row []),
   snd (try_body json_loads row [])).
Proof.
  unfold try_body.
  destruct (items_of json_loads row) as [[items|]|e]; simpl;
    try by rewrite app_nil_r.
  apply items_loop_acc.
Qed.

Lemma rows_loop_acc (json_loads : string -> outcome pyval) (rs : list Series)
    (acc : list product_data) :
  rows_loop json_loads rs acc =
  (new <~ rows_loop json_loads rs []; Ok (acc ++ new)).
Proof.
  revert acc. induction rs as [|row rs IH]; intros acc; simpl.
  - by rewrite app_nil_r.
  - rewrite (try_body_acc json_loads row acc).
    destruct (try_body json_loads row []) as [new1 oe]. simpl.
    assert (H : rows_loop json_loads rs (acc ++ new1) =
                (new <~ rows_loop json_loads rs new1; Ok (acc ++ new))).
    { rewrite (IH (acc ++ new1)), (IH new1).
      destruct (rows_loop json_loads rs []) as [new2|e]; simpl; [|done].
      by rewrite app_assoc. }
    destruct oe as [e|]; [|exact H].
    destruct (caught e); [exact H | done].
Qed.

(** The result of the extraction in terms of the row loop alone. *)
Lemma extract_rows_loop (json_loads : string -> outcome pyval)
    (cols : list string) (rs : list (list pyval)) :
  has_column {| columns := cols; rows := rs |} "line_items" = true ->
  extract_line_items_from_orders json_loads {| columns := cols; rows := rs |} =
  rows_loop json_loads (iterrows {| columns := cols; rows := rs |}) [].
Proof.
  intros Hcol. unfold extract_line_items_from_orders. rewrite Hcol.
  unfold df_empty, iterrows. cbn [columns rows negb orb].
  destruct rs as [|r rs]; [done|].
  destruct cols as [|c cols]; [discriminate Hcol|].
  rewrite orb_false_r. cbn [orb].
  destruct (rows_loop json_loads _ []) as [[|p out]|e]; done.
Qed.

(** The origin of every line the row loop adds: an item of a row, turned
    into a line by [make_product_data]. *)
Lemma rows_loop_origin (json_loads : string -> outcome pyval)
    (rs : list Series) (acc out : list product_data) :
  rows_loop json_loads rs acc = Ok out ->
  exists new, out = acc ++ new /\
    Forall (fun p => exists row items item,
              row ∈ rs /\ items_of json_loads row = Ok (Some items) /\
              item ∈ items /\ make_product_data row item = Ok p) new.
Proof.
  revert acc. induction rs as [|row rs IH]; intros acc; simpl.
  - intros [= <-]. exists []. split; [by rewrite app_nil_r | constructor].
  - intros H.
    assert (Hbody : exists new1 oe,
      try_body json_loads row acc = (acc ++ new1, oe) /\
      Forall (fun p => exists items item,
                items_of json_loads row = Ok (Some items) /\
                item ∈ items /\ make_product_data row item = Ok p) new1).
    { unfold try_body.
      destruct (items_of json_loads row) as [[items|]|e] eqn:E.
      - destruct (items_loop_fst row items acc) as (new1 & Hfst & Hall).
        destruct (items_loop row items acc) as [a oe]. simpl in Hfst. subst a.
        exists new1, oe. split; [done|].
        eapply Forall_impl; [exact Hall|]. intros p (item & ? & ?).
        by exists items, item.
      - exists [], None. split; [by rewrite app_nil_r | constructor].
      - exists [], (Some e). split; [by rewrite app_nil_r | constructor]. }
    destruct Hbody as (new1 & oe & Hbody & Hnew1). rewrite Hbody in H.
    assert (Hrest : rows_loop json_loads rs (acc ++ new1) = Ok out).
    { destruct oe as [e|]; [|done]. by destruct (caught e). }
    destruct (IH _ Hrest) as (new2 & -> & Hnew2).
    exists (new1 ++ new2). split; [by rewrite app_assoc|].
    apply Forall_app. split.
    + eapply Forall_impl; [exact Hnew1|]. intros p (items & item & ? & ? & ?).
      exists row, items, item. split; [by left | done].
    + eapply Forall_impl; [exact Hnew2|].
      intros p (row' & items & item & ? & ?).
      exists row', items, item. split; [by right | done].
Qed.

Lemma make_product_data_fields (row : Series) (item : pyval)
    (p : product_data) :
  make_product_data row item = Ok p ->
  exists d, item = VDict d /\
    getitem row "id" = Ok (pd_order_id p) /\
    getitem row "date" = Ok (pd_order_date p) /\
    getitem row "channel" = Ok (pd_channel p) /\
    pd_line_item_id p = dict_get d "id" VNone /\
    pd_product_id p = dict_get d "product_id" VNone /\
    pd_variant_id p = dict_get d "variant_id" VNone /\
    pd_sku p = dict_get d "sku" (VStr "N/A") /\
    pd_name p = dict_get d "name" (VStr "Sin nombre") /\
    pd_title p = dict_get d "title" (dict_get d "name" (VStr "Sin título")).
Proof.
  unfold make_product_data. intros H.
  destruct (getitem row "id") as [oid|] eqn:E1; simpl in H; [|discriminate H].
  destruct (getitem row "date") as [odate|] eqn:E2; simpl in H;
    [|discriminate H].
  destruct (getitem row "channel") as [och|] eqn:E3; simpl in H;
    [|discriminate H].
  destruct item as [| | | | | |d]; simpl in H; try discriminate H.
  exists d. split; [reflexivity|].
  destruct (py_float (dict_get d "price" (VInt 0))) as [price|];
    simpl in H; [|discriminate H].
  destruct (py_float (dict_get d "total_discount" (VInt 0))) as [disc|];
    simpl in H; [|discriminate H].
  destruct (py_float_mul price (dict_get d "quantity" (VInt 0))) as [total|];
    simpl in H; [|discriminate H].
  injection H as <-. simpl. repeat split; reflexivity.
Qed.

Lemma getitem_has_column (cols : list string) (r : list pyval) (k : string)
    (v : pyval) :
  getitem (combine cols r) k = Ok v -> existsb (String.eqb k) cols = true.
Proof.
  unfold getitem. revert r.
  induction cols as [|c cols IH]; intros [|x r]; simpl; try done.
  destruct (String.eqb k c); [done|]. apply IH.
Qed.

Lemma items_loop_all (row : Series) (items : list pyval)
    (ps acc : list product_data) :
  Forall2 (fun item p => make_product_data row item = Ok p) items ps ->
  items_loop row items acc = (acc ++ ps, None).
Proof.
  intros H. revert acc.
  induction H as [|item p items ps Hp _ IH]; intros acc; simpl.
  - by rewrite app_nil_r.
  - rewrite Hp, IH. by rewrite <- app_assoc.
Qed.

Lemma parses_to_items_of (json_loads : string -> outcome pyval)
    (row : Series) (items : list pyval) :
  parses_to json_loads row items ->
  items_of json_loads row = Ok (Some items).
Proof.
  unfold items_of. intros [-> | (s & -> & Hs)]; simpl; [done|].
  by rewrite Hs.
Qed.

Lemma try_body_order_lines (json_loads : string -> outcome pyval)
    (row : Series) (ps acc : list product_data) :
  order_lines json_loads row ps ->
  try_body json_loads row acc = (acc ++ ps, None).
Proof.
  intros (items & Hitems & Hps). unfold try_body.
  rewrite (parses_to_items_of _ _ _ Hitems). by apply items_loop_all.
Qed.

Lemma rows_loop_order_lines (json_loads : string -> outcome pyval)
    (rs : list Series) (pss : list (list product_data))
    (acc : list product_data) :
  Forall2 (order_lines json_loads) rs pss ->
  rows_loop json_loads rs acc = Ok (acc ++ concat pss).
Proof.
  intros H. revert acc.
  induction H as [|row ps rs pss Hrow _ IH]; intros acc; simpl.
  - by rewrite app_nil_r.
  - rewrite (try_body_order_lines _ _ _ _ Hrow), IH.
    by rewrite <- app_assoc.
Qed.

(** The scenario of the specification: order A has one item, order B has
    malformed JSON; the result is the single line of A. *)
Example extract_scenario :
  extract_line_items_from_orders Json.loads
    {| columns := order_columns;
       rows := [[VStr "A"; VStr "2024-05-01"; VStr "Shopify";
                 VStr (json_text "[{'sku': 'X1', 'name': 'Widget', 'price': 10, 'quantity': 2}]")];
                [VStr "B"; VStr "2024-05-01"; VStr "Shopify";
                 VStr "{not valid"]] |}
  = Ok [{| pd_order_id := VStr "A"; pd_order_date := VStr "2024-05-01";
           pd_channel := VStr "Shopify"; pd_line_item_id := VNone;
           pd_product_id := VNone; pd_variant_id := VNone;
           pd_sku := VStr "X1"; pd_name := VStr "Widget";
           pd_title := VStr "Widget"; pd_quantity := VInt 2;
           pd_price := 10; pd_total_discount := 0; pd_line_total := 20 |}].
Proof. vm_compute. reflexivity. Qed.

(** The same scenario through the ranker: one product, all of the
    revenue, rank 1. *)
Example rank_scenario :
  (all_items <~ extract_line_items_from_orders Json.loads
     {| columns := order_columns;
        rows := [[VStr "A"; VStr "2024-05-01"; VStr "Shopify";
                  VStr (json_text "[{'sku': 'X1', 'name': 'Widget', 'price': 10, 'quantity': 2}]")];
                 [VStr "B"; VStr "2024-05-01"; VStr "Shopify";
                  VStr "{not valid"]] |};
   Ok (option_map (fun items_df => get_top_products items_df 5)
                  (items_frame all_items)))
  = Ok (Some [{| rank := 1; SKU := "X1"; Producto := "Widget"; Unidades := 2;
                 Ventas := 20; PctTotal := 100 |}]).
Proof. vm_compute. reflexivity. Qed.

(** C1 (the code departs from it): a price that is not a number makes
    [float] raise [ValueError], which the [except] clause does not list, so
    the exception leaves [extract_line_items_from_orders]; here for an order
    whose items are a native list, whatever [json.loads] does, and for the
    same items as JSON text. *)
Theorem extract_raises_on_unparsable_price :
  (forall json_loads,
     extract_line_items_from_orders json_loads
       {| columns := order_columns;
          rows := [[VInt 1; VStr "2024-05-01"; VStr "Shopify";
                    VList [VDict [("price", VStr "abc");
                                  ("quantity", VInt 1)]]]] |}
     = Raise ValueError) /\
  extract_line_items_from_orders Json.loads
    {| columns := order_columns;
       rows := [[VInt 1; VStr "2024-05-01"; VStr "Shopify";
                 VStr (json_text "[{'price': 'abc', 'quantity': 1}]")]] |}
  = Raise ValueError.
Proof. split; [intros json_loads|]; vm_compute; reflexivity. Qed.

(** C4: an order whose line-items field is a string that [json.loads]
    rejects contributes no transaction line: its [try] body ends in a
    [JSONDecodeError] with [all_items] untouched, and the loop goes on with
    the next order. When the orders before it give the lines [lines_pre] and
    the items of each order after it all become lines, the result is
    [lines_pre] followed by the lines of the orders after it, one per item,
    in order. And whatever the other orders are, the extraction returns (or
    raises) what it does for the batch without that order. *)
Theorem malformed_json_order_skipped
    (json_loads : string -> outcome pyval) (cols : list string)
    (pre post : list (list pyval)) (r : list pyval) (s : string)
    (lines_pre : list product_data) (lines_post : list (list product_data)) :
  getitem (combine cols r) "line_items" = Ok (VStr s) ->
  json_loads s = Raise JSONDecodeError ->
  extract_line_items_from_orders json_loads
    {| columns := cols; rows := pre |} = Ok lines_pre ->
  Forall2 (fun o ps => order_lines json_loads (combine cols o) ps)
          post lines_post ->
  (forall acc,
     try_body json_loads (combine cols r) acc = (acc, Some JSONDecodeError)) /\
  extract_line_items_from_orders json_loads
    {| columns := cols; rows := pre ++ r :: post |} =
    Ok (lines_pre ++ concat lines_post) /\
  (forall pre' post',
     extract_line_items_from_orders json_loads
       {| columns := cols; rows := pre' ++ r :: post' |} =
     extract_line_items_from_orders json_loads
       {| columns := cols; rows := pre' ++ post' |}).
Proof.
  intros Hget Hjson Hpre Hpost.
  assert (Hbody : forall acc,
    try_body json_loads (combine cols r) acc = (acc, Some JSONDecodeError)).
  { intros acc. unfold try_body, items_of. rewrite Hget. simpl.
    by rewrite Hjson. }
  assert (Hpass : passed_over json_loads (combine cols r)).
  { intros acc. exists (Some JSONDecodeError). by rewrite Hbody. }
  split; [exact Hbody|]. split.
  - assert (Hcol : forall rs,
      has_column {| columns := cols; rows := rs |} "line_items" = true).
    { intros rs. unfold has_column. cbn [columns].
      eapply getitem_has_column, Hget. }
    rewrite extract_rows_loop in Hpre by apply Hcol.
    rewrite extract_rows_loop by apply Hcol.
    unfold iterrows in *. cbn [columns rows] in *.
    rewrite map_app, rows_loop_app, Hpre. cbn [bind map].
    rewrite rows_loop_passed_over by exact Hpass.
    apply rows_loop_order_lines.
    clear -Hpost. induction Hpost; constructor; auto.
  - intros pre' post'. by apply extract_passed_over.
Qed.

Lemma malformed_json_order_skipped_witness :
  let a := [VStr "A"; VStr "2024-05-01"; VStr "Shopify";
            VList [VDict [("sku", VStr "X1"); ("price", VStr "19.99");
                          ("quantity", VInt 3)]]] in
  let b := [VStr "B"; VStr "2024-05-02"; VStr "Amazon"; VStr "{not valid"] in
  let c := [VStr "C"; VStr "2024-05-03"; VStr "TikTok";
            VStr (json_text "[{'sku': 'X2', 'name': 'Taza', 'price': 5, 'quantity': 2}]")] in
  let line_a :=
    {| pd_order_id := VStr "A"; pd_order_date := VStr "2024-05-01";
       pd_channel := VStr "Shopify"; pd_line_item_id := VNone;
       pd_product_id := VNone; pd_variant_id := VNone;
       pd_sku := VStr "X1"; pd_name := VStr "Sin nombre";
       pd_title := VStr "Sin título"; pd_quantity := VInt 3;
       pd_price := 0x1.3fd70a3d70a3dp+4; pd_total_discount := 0;
       pd_line_total := 0x1.dfc28f5c28f5cp+5 |} in
  let line_c :=
    {| pd_order_id := VStr "C"; pd_order_date := VStr "2024-05-03";
       pd_channel := VStr "TikTok"; pd_line_item_id := VNone;
       pd_product_id := VNone; pd_variant_id := VNone;
       pd_sku := VStr "X2"; pd_name := VStr "Taza";
       pd_title := VStr "Taza"; pd_quantity := VInt 2;
       pd_price := 5; pd_total_discount := 0; pd_line_total := 10 |} in
  getitem (combine order_columns b) "line_items" = Ok (VStr "{not valid") /\
  Json.loads "{not valid" = Raise JSONDecodeError /\
  extract_line_items_from_orders Json.loads
    {| columns := order_columns; rows := [a] |} = Ok [line_a] /\
  order_lines Json.loads (combine order_columns c) [line_c] /\
  extract_line_items_from_orders Json.loads
    {| columns := order_columns; rows := [a] ++ b :: [c] |} =
  Ok ([line_a] ++ concat [[line_c]]).
Proof.
  intros a b c line_a line_c.
  assert (H1 : getitem (combine order_columns b) "line_items" =
               Ok (VStr "{not valid")) by reflexivity.
  assert (H2 : Json.loads "{not valid" = Raise JSONDecodeError)
    by reflexivity.
  assert (H3 : extract_line_items_from_orders Json.loads
                 {| columns := order_columns; rows := [a] |} = Ok [line_a])
    by (vm_compute; reflexivity).
  assert (H4 : order_lines Json.loads (combine order_columns c) [line_c]).
  { eexists. split.
    - right. eexists. split; [reflexivity | vm_compute; reflexivity].
    - constructor; [vm_compute; reflexivity | constructor]. }
  split; [exact H1|]. split; [exact H2|]. split; [exact H3|].
  split; [exact H4|].
  apply (malformed_json_order_skipped Json.loads order_columns [a] [c] b
           "{not valid" [line_a] [[line_c]] H1 H2 H3).
  constructor; [exact H4 | constructor].
Defined.

(** C10: an order whose line items parse to a list but which lacks its
    [id], [date] or [channel] field contributes no transaction line and
    raises nothing: the first item fails with a [KeyError] before anything is
    appended, the [except] clause catches it, and the extraction returns what
    it returns without that order. *)
Theorem incomplete_order_skipped
    (json_loads : string -> outcome pyval) (cols : list string)
    (pre post : list (list pyval)) (r : list pyval) (items : list pyval) :
  parses_to json_loads (combine cols r) items ->
  assoc "id" (combine cols r) = None \/
    assoc "date" (combine cols r) = None \/
    assoc "channel" (combine cols r) = None ->
  (forall acc,
     try_body json_loads (combine cols r) acc =
     (acc, match items with [] => None | _ :: _ => Some KeyError end)) /\
  caught KeyError = true /\
  extract_line_items_from_orders json_loads
    {| columns := cols; rows := pre ++ r :: post |} =
  extract_line_items_from_orders json_loads
    {| columns := cols; rows := pre ++ post |}.
Proof.
  intros Hitems Hkey.
  assert (Hof : items_of json_loads (combine cols r) = Ok (Some items)).
  { unfold items_of. destruct Hitems as [-> | (s & -> & Hs)]; simpl; [done|].
    by rewrite Hs. }
  assert (Hbody : forall acc,
    try_body json_loads (combine cols r) acc =
    (acc, match items with [] => None | _ :: _ => Some KeyError end)).
  { intros acc. unfold try_body. rewrite Hof.
    destruct items as [|item items]; simpl; [done|].
    by rewrite make_product_data_KeyError. }
  split; [exact Hbody|]. split; [reflexivity|].
  apply extract_passed_over. intros acc. eexists. split; [apply Hbody|].
  by destruct items.
Qed.

Lemma incomplete_order_skipped_witness :
  let cols := ["id"; "date"; "line_items"] in
  let items := [VDict [("sku", VStr "X1"); ("price", VInt 10);
                       ("quantity", VInt 2)]] in
  let r := [VInt 7; VStr "2024-05-01";
            VStr (json_text "[{'sku': 'X1', 'price': 10, 'quantity': 2}]")] in
  parses_to Json.loads (combine cols r) items /\
  assoc "channel" (combine cols r) = None /\
  extract_line_items_from_orders Json.loads
    {| columns := cols; rows := [] ++ r :: [r] |} =
  extract_line_items_from_orders Json.loads
    {| columns := cols; rows := [] ++ [r] |}.
Proof.
  intros cols items r.
  assert (Hp : parses_to Json.loads (combine cols r) items).
  { right. eexists. split; reflexivity. }
  split; [exact Hp|]. split; [reflexivity|].
  apply (incomplete_order_skipped Json.loads cols [] [r] r items Hp).
  right. right. reflexivity.
Defined.

(** C8: every transaction line in the result comes from a dictionary [d]
    among the items of an order of the batch; its price is [float] of the
    raw [price] entry of [d] (of [0] when absent), its quantity is the raw
    [quantity] entry (or [0]), and its line total is that price times that
    quantity: the very float the product evaluates to, NaN included. *)
Theorem line_total_is_price_times_quantity
    (json_loads : string -> outcome pyval) (df : DataFrame)
    (lines : list product_data) (p : product_data) :
  extract_line_items_from_orders json_loads df = Ok lines ->
  p ∈ lines ->
  exists row items d,
    row ∈ iterrows df /\
    items_of json_loads row = Ok (Some items) /\ VDict d ∈ items /\
    py_float (dict_get d "price" (VInt 0)) = Ok (pd_price p) /\
    pd_quantity p = dict_get d "quantity" (VInt 0) /\
    py_float_mul (pd_price p) (pd_quantity p) = Ok (pd_line_total p).
Proof.
  unfold extract_line_items_from_orders. intros H Hp.
  destruct (df_empty df || negb (has_column df "line_items")).
  { injection H as <-. by apply elem_of_nil in Hp. }
  destruct (rows_loop json_loads (iterrows df) []) as [out|e] eqn:E;
    simpl in H; [| discriminate H].
  assert (lines = out) as -> by (destruct out; congruence).
  destruct (rows_loop_lines _ _ _ _ E) as (new & -> & Hall).
  rewrite Forall_forall in Hall. apply (Hall p). exact Hp.
Qed.

Lemma line_total_is_price_times_quantity_witness :
  let df := {| columns := order_columns;
               rows := [[VStr "A"; VStr "2024-05-01"; VStr "Shopify";
                         VStr (json_text "[{'sku': 'X1', 'price': '19.99', 'quantity': 3}]")]] |} in
  let p := {| pd_order_id := VStr "A"; pd_order_date := VStr "2024-05-01";
              pd_channel := VStr "Shopify"; pd_line_item_id := VNone;
              pd_product_id := VNone; pd_variant_id := VNone;
              pd_sku := VStr "X1"; pd_name := VStr "Sin nombre";
              pd_title := VStr "Sin título"; pd_quantity := VInt 3;
              pd_price := 0x1.3fd70a3d70a3dp+4;
              pd_total_discount := 0;
              pd_line_total := 0x1.dfc28f5c28f5cp+5 |} in
  extract_line_items_from_orders Json.loads df = Ok [p] /\
  py_float_mul (pd_price p) (pd_quantity p) = Ok (pd_line_total p).
Proof.
  intros df p.
  assert (E : extract_line_items_from_orders Json.loads df = Ok [p])
    by (vm_compute; reflexivity).
  split; [exact E|].
  destruct (line_total_is_price_times_quantity Json.loads df [p] p E)
    as (row & items & d & _ & _ & _ & _ & _ & H); [by left | exact H].
Defined.

(** ** The order of floats *)

Module FloatOrder.

Lemma SFcompare_antisym (x y : spec_float) :
  SFcompare y x = option_map CompOpp (SFcompare x y).
Proof.
  destruct x as [[]|[]| |s1 m1 e1], y as [[]|[]| |s2 m2 e2];
    try reflexivity; try (by destruct s1); try (by destruct s2).
  simpl.
  change (PosDef.Pos.compare_cont Eq m2 m1) with (m2 ?= m1)%positive.
  change (PosDef.Pos.compare_cont Eq m1 m2) with (m1 ?= m2)%positive.
  rewrite (Z.compare_antisym e1 e2), (Pos.compare_antisym m1 m2).
  by destruct s1, s2, (e1 ?= e2), (m1 ?= m2)%positive.
Qed.

Lemma SFcompare_refl (x : spec_float) :
  x <> S754_nan -> SFcompare x x = Some Eq.
Proof.
  destruct x as [[]|[]| |[] m e]; simpl; try congruence; intros _;
    rewrite Z.compare_refl;
    change (PosDef.Pos.compare_cont Eq m m) with (m ?= m)%positive;
    by rewrite Pos.compare_refl.
Qed.

Lemma lex_trans (e1 e2 e3 : Z) (m1 m2 m3 : positive) :
  match e1 ?= e2 with Eq => (m1 ?= m2)%positive | c => c end <> Gt ->
  match e2 ?= e3 with Eq => (m2 ?= m3)%positive | c => c end <> Gt ->
  match e1 ?= e3 with Eq => (m1 ?= m3)%positive | c => c end <> Gt.
Proof.
  destruct (Z.compare_spec e1 e2), (Z.compare_spec e2 e3),
    (Z.compare_spec e1 e3); try lia; try congruence.
  destruct (Pos.compare_spec m1 m2), (Pos.compare_spec m2 m3),
    (Pos.compare_spec m1 m3); try lia; congruence.
Qed.

Lemma SFleb_trans (x y z : spec_float) :
  SFleb x y = true -> SFleb y z = true -> SFleb x z = true.
Proof.
  unfold SFleb.
  destruct x as [[]|[]| |[] m1 e1], y as [[]|[]| |[] m2 e2],
    z as [[]|[]| |[] m3 e3]; simpl; try congruence;
    change (PosDef.Pos.compare_cont Eq m1 m2) with (m1 ?= m2)%positive;
    change (PosDef.Pos.compare_cont Eq m2 m3) with (m2 ?= m3)%positive;
    change (PosDef.Pos.compare_cont Eq m1 m3) with (m1 ?= m3)%positive;
    intros H1 H2.
  - (* three negative numbers: the order of the magnitudes, reversed *)
    pose proof (lex_trans e3 e2 e1 m3 m2 m1) as T.
    rewrite (Z.compare_antisym e1 e2), (Pos.compare_antisym m1 m2) in T.
    rewrite (Z.compare_antisym e2 e3), (Pos.compare_antisym m2 m3) in T.
    rewrite (Z.compare_antisym e1 e3), (Pos.compare_antisym m1 m3) in T.
    destruct (e1 ?= e2), (e2 ?= e3), (e1 ?= e3),
      (m1 ?= m2)%positive, (m2 ?= m3)%positive, (m1 ?= m3)%positive;
      simpl in *; try congruence; exfalso; apply T; congruence.
  - pose proof (lex_trans e1 e2 e3 m1 m2 m3) as T.
    destruct (e1 ?= e2), (e2 ?= e3), (e1 ?= e3),
      (m1 ?= m2)%positive, (m2 ?= m3)%positive, (m1 ?= m3)%positive;
      simpl in *; try congruence; exfalso; apply T; congruence.
Qed.

Lemma is_nan_spec (x : float) :
  is_nan x = match Prim2SF x with S754_nan => true | _ => false end.
Proof.
  unfold is_nan. rewrite FloatAxioms.eqb_spec. unfold SFeqb.
  destruct (Prim2SF x) eqn:E; try reflexivity;
    by rewrite SFcompare_refl.
Qed.

Lemma leb_total (x y : float) :
  is_nan x = false -> is_nan y = false ->
  (x <=? y)%float = false -> (y <=? x)%float = true.
Proof.
  rewrite !is_nan_spec, !FloatAxioms.leb_spec. unfold SFleb.
  rewrite (SFcompare_antisym (Prim2SF x) (Prim2SF y)).
  destruct (Prim2SF x) as [[]|[]| |[] m1 e1], (Prim2SF y) as [[]|[]| |[] m2 e2];
    simpl; try congruence;
    destruct (e1 ?= e2); simpl; try congruence;
    destruct (PosDef.Pos.compare_cont Eq m1 m2); simpl; congruence.
Qed.

Lemma leb_trans (x y z : float) :
  (x <=? y)%float = true -> (y <=? z)%float = true -> (x <=? z)%float = true.
Proof. rewrite !FloatAxioms.leb_spec. apply SFleb_trans. Qed.

Lemma leb_not_nan (x y : float) :
  (x <=? y)%float = true -> is_nan x = false /\ is_nan y = false.
Proof.
  rewrite !is_nan_spec, FloatAxioms.leb_spec. unfold SFleb.
  by destruct (Prim2SF x), (Prim2SF y).
Qed.

Lemma leb_not_ltb (x y : float) :
  (y <=? x)%float = true -> (x <? y)%float = false.
Proof.
  rewrite FloatAxioms.leb_spec, FloatAxioms.ltb_spec. unfold SFleb, SFltb.
  rewrite (SFcompare_antisym (Prim2SF x) (Prim2SF y)).
  by destruct (SFcompare (Prim2SF x) (Prim2SF y)) as [[]|].
Qed.

Lemma ltb_nan_r (x y : float) : is_nan y = true -> (x <? y)%float = false.
Proof.
  rewrite is_nan_spec, FloatAxioms.ltb_spec. unfold SFltb.
  by destruct (Prim2SF x), (Prim2SF y).
Qed.

(** [desc_leb], the order of [sort_values(ascending=False)], is total and
    transitive, and never puts a smaller revenue first. *)
Lemma desc_leb_total (x y : float) :
  desc_leb x y = false -> desc_leb y x = true.
Proof.
  unfold desc_leb. intros H.
  apply orb_false_iff in H as [Hy Hle].
  destruct (is_nan x) eqn:Hx; [reflexivity|]. simpl.
  by apply leb_total.
Qed.

Lemma desc_leb_trans (x y z : float) :
  desc_leb x y = true -> desc_leb y z = true -> desc_leb x z = true.
Proof.
  unfold desc_leb. intros Hxy Hyz.
  destruct (is_nan z) eqn:Hz; [reflexivity|]. simpl in *.
  destruct (leb_not_nan _ _ Hyz) as [_ Hy]. rewrite Hy in Hxy. simpl in Hxy.
  by apply leb_trans with y.
Qed.

Lemma desc_leb_not_ltb (x y : float) :
  desc_leb x y = true -> (x <? y)%float = false.
Proof.
  unfold desc_leb. intros H. apply orb_true_iff in H as [H|H].
  - by apply ltb_nan_r.
  - by apply leb_not_ltb.
Qed.

End FloatOrder.

(** ** Insertion sort *)

Section SortFacts.
Context {A : Type} (le : A -> A -> bool).

Lemma insert_by_Permutation (x : A) (l : list A) :
  insert_by le x l ≡ₚ x :: l.
Proof.
  induction l as [|y l IH]; simpl; [done|].
  destruct (le x y); [done|]. rewrite IH. apply Permutation_swap.
Qed.

Lemma sort_by_Permutation (l : list A) : sort_by le l ≡ₚ l.
Proof.
  induction l as [|x l IH]; simpl; [done|].
  by rewrite insert_by_Permutation, IH.
Qed.

Lemma length_sort_by (l : list A) : length (sort_by le l) = length l.
Proof. apply Permutation_length, sort_by_Permutation. Qed.

Hypothesis le_total : forall x y, le x y = false -> le y x = true.
Hypothesis le_trans :
  forall x y z, le x y = true -> le y z = true -> le x z = true.

Lemma insert_by_sorted (x : A) (l : list A) :
  StronglySorted (le_rel le) l -> StronglySorted (le_rel le) (insert_by le x l).
Proof.
  induction 1 as [|y l Hs IH Hy]; simpl.
  - repeat constructor.
  - destruct (le x y) eqn:E.
    + constructor; [by constructor|].
      constructor; [exact E|].
      eapply Forall_impl; [exact Hy|]. intros z Hz. by eapply le_trans.
    + constructor; [exact IH|].
      rewrite insert_by_Permutation. constructor; [|exact Hy].
      by apply le_total.
Qed.

Lemma sort_by_sorted (l : list A) : StronglySorted (le_rel le) (sort_by le l).
Proof.
  induction l as [|x l IH]; simpl; [constructor|].
  by apply insert_by_sorted.
Qed.

End SortFacts.

(** ** The ranker *)

Lemma key_eqb_eq (k1 k2 : key) : key_eqb k1 k2 = true <-> k1 = k2.
Proof.
  destruct k1 as [s1 n1], k2 as [s2 n2]. unfold key_eqb. simpl.
  rewrite andb_true_iff, !String.eqb_eq. split; [intros [-> ->] | intros [= -> ->]]; done.
Qed.

Lemma elem_of_filter_bool {A} (f : A -> bool) (l : list A) (x : A) :
  x ∈ List.filter f l <-> x ∈ l /\ f x = true.
Proof. rewrite !list_elem_of_In. apply filter_In. Qed.

Lemma elem_of_distinct_keys (ks : list key) (k : key) :
  k ∈ distinct_keys ks <-> k ∈ ks.
Proof.
  induction ks as [|k0 ks IH]; simpl; [done|].
  rewrite !elem_of_cons, elem_of_filter_bool, IH.
  split; [intros [?|[? _]]; auto|].
  intros [->|H]; [by left|].
  destruct (key_eqb k0 k) eqn:E.
  - left. symmetry. by apply key_eqb_eq.
  - by right.
Qed.

Lemma NoDup_distinct_keys (ks : list key) : NoDup (distinct_keys ks).
Proof.
  induction ks as [|k ks IH]; simpl; constructor.
  - rewrite elem_of_filter_bool. intros [_ H]. cbv beta in H.
    apply negb_true_iff in H.
    assert (key_eqb k k = true) by by apply key_eqb_eq. congruence.
  - apply NoDup_ListNoDup, List.NoDup_filter. by apply NoDup_ListNoDup.
Qed.

Lemma key_of_Some (l : line) (s n : string) :
  key_of l = Some (s, n) <-> sku l = Some s /\ name l = Some n.
Proof.
  unfold key_of. destruct (sku l) as [s'|], (name l) as [n'|];
    (split; [intros [= <- <-] | intros [[= <-] [= <-]]]); done.
Qed.

Lemma has_keys_Some (l : line) :
  has_keys l = true <-> exists s n, sku l = Some s /\ name l = Some n.
Proof.
  unfold has_keys. destruct (key_of l) as [[s n]|] eqn:E.
  - apply key_of_Some in E. split; [by exists s, n | done].
  - split; [done|]. intros (s & n & H). apply key_of_Some in H. congruence.
Qed.

Lemma group_keys_Permutation (items_df : list line) :
  group_keys items_df ≡ₚ distinct_keys (omap key_of items_df).
Proof. apply sort_by_Permutation. Qed.

Lemma NoDup_group_keys (items_df : list line) : NoDup (group_keys items_df).
Proof. rewrite group_keys_Permutation. apply NoDup_distinct_keys. Qed.

Lemma elem_of_group_keys (items_df : list line) (k : key) :
  k ∈ group_keys items_df <-> exists l, l ∈ items_df /\ key_of l = Some k.
Proof.
  rewrite group_keys_Permutation, elem_of_distinct_keys.
  apply list_elem_of_omap.
Qed.

Lemma elem_of_group_of (k : key) (items_df : list line) (l : line) :
  l ∈ group_of k items_df <->
  l ∈ items_df /\ sku l = Some (fst k) /\ name l = Some (snd k).
Proof.
  unfold group_of, has_key. rewrite elem_of_filter_bool.
  destruct k as [s n]. cbn [fst snd]. rewrite <- key_of_Some.
  split.
  - intros [Hl H]. split; [done|].
    destruct (key_of l) as [k'|]; [|done]. apply key_eqb_eq in H. by subst.
  - intros [Hl ->]. split; [done|]. by apply key_eqb_eq.
Qed.

(** The groups the code forms are the pairs the specification counts. *)
Lemma lists_pairs_group_keys (items_df : list line) :
  lists_pairs items_df (group_keys items_df).
Proof.
  split; [apply NoDup_group_keys|]. intros s n.
  rewrite elem_of_group_keys. by setoid_rewrite key_of_Some.
Qed.

Lemma lists_pairs_length (items_df : list line) (keys : list key) :
  lists_pairs items_df keys -> length keys = num_groups items_df.
Proof.
  intros [Hnd Hin]. unfold num_groups.
  apply Permutation_length, NoDup_Permutation;
    [done | apply NoDup_group_keys |].
  intros [s n]. rewrite Hin, elem_of_group_keys.
  by setoid_rewrite key_of_Some.
Qed.

Lemma length_groupby_sum (items_df : list line) :
  length (groupby_sum items_df) = num_groups items_df.
Proof. unfold groupby_sum. by rewrite length_map. Qed.

Lemma sort_values_desc_Permutation (summary : list summary_row) :
  sort_values_desc summary ≡ₚ summary.
Proof. apply sort_by_Permutation. Qed.

Lemma sort_values_desc_sorted (summary : list summary_row) :
  StronglySorted (le_rel revenue_before) (sort_values_desc summary).
Proof.
  apply sort_by_sorted.
  - intros x y. apply FloatOrder.desc_leb_total.
  - intros x y z. apply FloatOrder.desc_leb_trans.
Qed.

Lemma length_with_pct (items_df : list line) :
  length (with_pct items_df) = num_groups items_df.
Proof.
  unfold with_pct. rewrite length_map.
  rewrite (Permutation_length (sort_values_desc_Permutation _)).
  apply length_groupby_sum.
Qed.

Lemma map_fst_with_pct (items_df : list line) :
  map fst (with_pct items_df) = sort_values_desc (groupby_sum items_df).
Proof.
  unfold with_pct. rewrite map_map. simpl. apply map_id.
Qed.

Lemma length_df_head {A} (n : Z) (l : list A) :
  Z.of_nat (length (df_head n l)) =
  if 0 <=? n then Z.min n (Z.of_nat (length l))
  else Z.max 0 (Z.of_nat (length l) + n).
Proof.
  unfold df_head. destruct (Z.leb_spec 0 n); rewrite length_take; lia.
Qed.

Lemma df_head_prefix {A} (n : Z) (l : list A) :
  exists k, df_head n l = take k l.
Proof. unfold df_head. destruct (0 <=? n); eauto. Qed.

Lemma number_rows_spec (top : list (summary_row * float)) :
  length (number_rows top) = length top /\
  map rank (number_rows top) = seqZ 1 (Z.of_nat (length top)) /\
  map (fun r => (SKU r, Producto r)) (number_rows top) =
    map (fun gp => summary_key (fst gp)) top /\
  map Unidades (number_rows top) = map (fun gp => quantity (fst gp)) top /\
  map Ventas (number_rows top) = map (fun gp => line_total (fst gp)) top /\
  map PctTotal (number_rows top) = map snd top.
Proof.
  unfold number_rows. generalize 1 as start.
  induction top as [|gp top IH]; intros start; [done|].
  rewrite length_cons, Nat2Z.inj_succ, seqZ_cons by lia.
  replace (Z.pred (Z.succ (Z.of_nat (length top)))) with
    (Z.of_nat (length top)) by lia.
  destruct (IH (Z.succ start)) as (H1 & H2 & H3 & H4 & H5 & H6).
  cbn [zip_with map length]. rewrite H1, H2, H3, H4, H5, H6. done.
Qed.

Lemma number_from_take (start : Z) (k : nat)
    (top : list (summary_row * float)) :
  zip_with mk_row (seqZ start (Z.of_nat (length (take k top)))) (take k top) =
  take k (zip_with mk_row (seqZ start (Z.of_nat (length top))) top).
Proof.
  revert start k. induction top as [|gp top IH]; intros start [|k]; try done.
  cbn [take length firstn].
  rewrite !Nat2Z.inj_succ.
  rewrite (seqZ_cons start (Z.succ (Z.of_nat (length (take k top))))) by lia.
  rewrite (seqZ_cons start (Z.succ (Z.of_nat (length top)))) by lia.
  cbn [zip_with take firstn]. f_equal.
  replace (Z.pred (Z.succ (Z.of_nat (length (take k top))))) with
    (Z.of_nat (length (take k top))) by lia.
  replace (Z.pred (Z.succ (Z.of_nat (length top)))) with
    (Z.of_nat (length top)) by lia.
  apply IH.
Qed.

Lemma number_rows_take (k : nat) (top : list (summary_row * float)) :
  number_rows (take k top) = take k (number_rows top).
Proof. apply number_from_take. Qed.

Lemma StronglySorted_lookup {A} (R : A -> A -> Prop) (l : list A)
    (i j : nat) (a b : A) :
  StronglySorted R l -> l !! i = Some a -> l !! j = Some b -> (i < j)%nat ->
  R a b.
Proof.
  intros Hs. revert i j. induction Hs as [|x l Hs IH Hx]; intros i j Hi Hj Hij.
  - by rewrite lookup_nil in Hi.
  - destruct j as [|j]; [lia|]. simpl in Hj. destruct i as [|i].
    + injection Hi as <-. rewrite Forall_forall in Hx. apply Hx.
      by eapply list_elem_of_lookup_2.
    + simpl in Hi. apply (IH i j); [done | done | lia].
Qed.

Lemma StronglySorted_take {A} (R : A -> A -> Prop) (l : list A) (k : nat) :
  StronglySorted R l -> StronglySorted R (take k l).
Proof.
  intros Hs. revert k. induction Hs as [|x l Hs IH Hx]; intros [|k]; simpl;
    try constructor; [apply IH|].
  rewrite Forall_forall in *. intros y Hy. apply Hx.
  apply elem_of_take in Hy as (i & Hi & _). by eapply list_elem_of_lookup_2.
Qed.

Lemma NoDup_take {A} (k : nat) (l : list A) : NoDup l -> NoDup (take k l).
Proof.
  intros H. rewrite <- (take_drop k l) in H. by apply NoDup_app in H as [? _].
Qed.

Lemma StronglySorted_map {A B} (R : B -> B -> Prop) (f : A -> B) (l : list A) :
  StronglySorted (fun x y => R (f x) (f y)) l -> StronglySorted R (map f l).
Proof.
  induction 1 as [|x l Hs IH Hx]; simpl; constructor; [done|].
  by apply Forall_map.
Qed.

(** The rows of the result, in terms of the sorted summary. *)
Lemma get_top_products_rows (items_df : list line) (top_n : Z) :
  exists top,
    get_top_products items_df top_n = number_rows top /\
    (exists k, top = take k (with_pct items_df)) /\
    Z.of_nat (length top) =
      if 0 <=? top_n then Z.min top_n (Z.of_nat (num_groups items_df))
      else Z.max 0 (Z.of_nat (num_groups items_df) + top_n).
Proof.
  destruct items_df as [|l items] eqn:E.
  - exists []. split; [done|]. split; [by exists 0%nat|].
    change (num_groups []) with 0%nat.
    destruct (Z.leb_spec 0 top_n); simpl; lia.
  - rewrite <- E. exists (df_head top_n (with_pct items_df)).
    split; [by subst|]. split; [apply df_head_prefix|].
    by rewrite length_df_head, length_with_pct.
Qed.

(** The result is the numbered head of the column of all groups, also for
    an empty frame. *)
Lemma get_top_products_head (items_df : list line) (top_n : Z) :
  get_top_products items_df top_n =
  number_rows (df_head top_n (with_pct items_df)).
Proof.
  destruct items_df as [|l items]; [|done].
  unfold get_top_products, df_head. cbn.
  by destruct (0 <=? top_n); rewrite take_nil.
Qed.

(** There is a group exactly when some line has both its keys. *)
Lemma num_groups_pos (items_df : list line) :
  (1 <= num_groups items_df)%nat <->
  exists l s n, l ∈ items_df /\ sku l = Some s /\ name l = Some n.
Proof.
  unfold num_groups. split.
  - destruct (group_keys items_df) as [|[s n] ks] eqn:E; simpl; [lia|].
    intros _.
    assert (H : (s, n) ∈ group_keys items_df) by (rewrite E; by left).
    apply elem_of_group_keys in H as (l & Hl & Hk).
    apply key_of_Some in Hk. by exists l, s, n.
  - intros (l & s & n & Hl & Hs & Hn).
    assert (H : (s, n) ∈ group_keys items_df).
    { apply elem_of_group_keys. exists l. split; [done|].
      by apply key_of_Some. }
    destruct (group_keys items_df); simpl; [|lia].
    by apply elem_of_nil in H.
Qed.

Lemma Ventas_sorted (items_df : list line) (top_n : Z) :
  StronglySorted (fun x y => desc_leb x y = true)
    (map Ventas (get_top_products items_df top_n)).
Proof.
  destruct (get_top_products_rows items_df top_n) as (top & -> & [k ->] & _).
  destruct (number_rows_spec (take k (with_pct items_df)))
    as (_ & _ & _ & _ & -> & _).
  rewrite <- (map_map fst line_total), <- firstn_map, map_fst_with_pct.
  apply StronglySorted_map, StronglySorted_take, sort_values_desc_sorted.
Qed.

(** C5, as the code has it. The lines with a null SKU or a null name are
    left out of the ranking. With [keys] the pairs (SKU, name) of the lines,
    each once, and [top_n >= 1], the result has
    [k = min(top_n, number of pairs)] rows, and [k >= 1] exactly when some
    line has both a SKU and a name; the ranks are [1, 2, ..., k]; and the
    revenue never increases with the rank: of two rows the later one never
    has the larger revenue, and its revenue is less than or equal to the
    earlier one's whenever it is a number. *)
Theorem top_products_ranked (items_df : list line) (top_n : Z)
    (keys : list key) :
  lists_pairs items_df keys -> 1 <= top_n ->
  let result := get_top_products items_df top_n in
  let k := Z.min top_n (Z.of_nat (length keys)) in
  Z.of_nat (length result) = k /\
  (1 <= k <->
   exists l s n, l ∈ items_df /\ sku l = Some s /\ name l = Some n) /\
  map rank result = seqZ 1 k /\
  forall (i j : nat) (a b : product_row),
    result !! i = Some a -> result !! j = Some b -> (i < j)%nat ->
    (Ventas a <? Ventas b)%float = false /\
    (is_nan (Ventas b) = false -> (Ventas b <=? Ventas a)%float = true).
Proof.
  intros Hkeys Hn result k.
  pose proof (lists_pairs_length _ _ Hkeys) as Hg.
  destruct (get_top_products_rows items_df top_n) as (top & Hres & _ & Hlen).
  destruct (number_rows_spec top) as (Hl & Hr & _).
  replace (0 <=? top_n) with true in Hlen by (symmetry; apply Z.leb_le; lia).
  rewrite <- Hg in Hlen.
  fold result in Hres. fold k in Hlen.
  split; [by rewrite Hres, Hl|].
  split.
  { rewrite <- num_groups_pos, <- Hg. subst k. lia. }
  split; [by rewrite Hres, Hr, Hlen|].
  intros i j a b Hi Hj Hij.
  assert (Hab : desc_leb (Ventas a) (Ventas b) = true).
  { apply (StronglySorted_lookup _ _ i j _ _
             (Ventas_sorted items_df top_n)); [| | done].
    - fold result. by rewrite list_lookup_fmap, Hi.
    - fold result. by rewrite list_lookup_fmap, Hj. }
  split; [by apply FloatOrder.desc_leb_not_ltb|].
  intros Hb. unfold desc_leb in Hab. by rewrite Hb in Hab.
Qed.

(** The scenario of the specification: revenues 50, 30 and 20, the top 2. *)
Example top_two_of_three :
  get_top_products three_products 2 =
  [{| rank := 1; SKU := "B"; Producto := "Beta"; Unidades := 3;
      Ventas := 50; PctTotal := 50 |};
   {| rank := 2; SKU := "C"; Producto := "Gama"; Unidades := 2;
      Ventas := 30; PctTotal := 30 |}].
Proof. vm_compute. reflexivity. Qed.

Lemma three_products_pairs :
  lists_pairs three_products [("A", "Alfa"); ("B", "Beta"); ("C", "Gama")].
Proof.
  assert (E : group_keys three_products =
              [("A", "Alfa"); ("B", "Beta"); ("C", "Gama")])
    by (vm_compute; reflexivity).
  rewrite <- E. apply lists_pairs_group_keys.
Qed.

Lemma top_products_ranked_witness :
  let keys := [("A", "Alfa"); ("B", "Beta"); ("C", "Gama")] in
  let result := get_top_products three_products 2 in
  lists_pairs three_products keys /\ 1 <= 2 /\
  Z.of_nat (length result) = 2 /\ map rank result = [1; 2].
Proof.
  intros keys result.
  assert (H2 : 1 <= 2) by lia.
  split; [exact three_products_pairs|]. split; [exact H2|].
  destruct (top_products_ranked three_products 2 keys three_products_pairs H2)
    as (Hl & _ & Hr & _).
  split; [exact Hl | exact Hr].
Defined.

(** C5 fails as stated: a frame of lines that is not empty can rank to
    nothing. A line whose SKU is null (a JSON [null] in the payload) belongs
    to no group, so a frame with only such lines gives no row for
    [top_n = 1]; and next to a line with its keys, the units of the line
    without them are missing from the ranking. *)
Lemma null_sku_counterexample :
  let lost : line :=
    {| sku := None; name := Some "Taza"; quantity := 2; line_total := 10 |} in
  ([lost] <> [] /\ 1 <= 1 /\ get_top_products [lost] 1 = []) /\
  get_top_products [lost; mk_line "A" "Alfa" 2 20] 5 =
  [{| rank := 1; SKU := "A"; Producto := "Alfa"; Unidades := 2;
      Ventas := 20; PctTotal := 100 |}].
Proof.
  intros lost. split; [split; [discriminate|]; split; [lia|]|];
    vm_compute; reflexivity.
Qed.

(** C2, as the code has it: [head(0)] is empty, and [head(top_n)] with a
    negative [top_n] keeps all groups but the last [-top_n]. With [keys]
    the pairs (SKU, name) of the lines, each once: a ranking that is not cut
    ([top_n = m] at least the number of pairs) has one row per pair, the
    result for a negative [top_n] is that ranking without its last [-top_n]
    rows, so it has [max(0, pairs + top_n)] rows and is empty exactly when
    there are at most [-top_n] pairs. *)
Theorem top_products_nonpositive (items_df : list line) (top_n : Z)
    (keys : list key) :
  lists_pairs items_df keys -> top_n <= 0 ->
  (top_n = 0 -> get_top_products items_df top_n = []) /\
  (top_n < 0 ->
   (forall m, Z.of_nat (length keys) <= m ->
      length (get_top_products items_df m) = length keys /\
      get_top_products items_df top_n =
        take (length keys - Z.to_nat (- top_n))
             (get_top_products items_df m)) /\
   Z.of_nat (length (get_top_products items_df top_n)) =
     Z.max 0 (Z.of_nat (length keys) + top_n) /\
   (get_top_products items_df top_n = [] <->
    Z.of_nat (length keys) <= - top_n)).
Proof.
  intros Hkeys Hn.
  pose proof (lists_pairs_length _ _ Hkeys) as Hg.
  destruct (get_top_products_rows items_df top_n) as (top & Hres & _ & Hlen).
  destruct (number_rows_spec top) as (Hl & _).
  rewrite <- Hl, <- Hres, <- Hg in Hlen.
  split.
  - intros ->. apply length_zero_iff_nil. simpl in Hlen. lia.
  - intros Hneg.
    replace (0 <=? top_n) with false in Hlen
      by (symmetry; apply Z.leb_gt; lia).
    split; [|split; [exact Hlen | rewrite <- length_zero_iff_nil; lia]].
    intros m Hm.
    assert (Hfull : get_top_products items_df m =
                    number_rows (with_pct items_df)).
    { rewrite get_top_products_head. f_equal. unfold df_head.
      replace (0 <=? m) with true by (symmetry; apply Z.leb_le; lia).
      apply take_ge. rewrite length_with_pct, <- Hg. lia. }
    split.
    + rewrite Hfull. destruct (number_rows_spec (with_pct items_df)) as [-> _].
      by rewrite length_with_pct.
    + rewrite Hfull, get_top_products_head, <- number_rows_take.
      f_equal. unfold df_head.
      replace (0 <=? top_n) with false by (symmetry; apply Z.leb_gt; lia).
      f_equal. rewrite length_with_pct, <- Hg. lia.
Qed.

Lemma top_products_nonpositive_witness :
  let keys := [("A", "Alfa"); ("B", "Beta"); ("C", "Gama")] in
  lists_pairs three_products keys /\ -1 <= 0 /\
  get_top_products three_products (-1) =
    take 2 (get_top_products three_products 3) /\
  Z.of_nat (length (get_top_products three_products (-1))) = 2.
Proof.
  intros keys.
  assert (H1 : -1 <= 0) by lia.
  split; [exact three_products_pairs|]. split; [exact H1|].
  destruct (top_products_nonpositive three_products (-1) keys
              three_products_pairs H1) as (_ & H).
  destruct (H ltac:(lia)) as (Hm & Hlen & _).
  split; [|exact Hlen].
  destruct (Hm 3 ltac:(simpl; lia)) as (_ & E). exact E.
Defined.

(** C2 fails as stated: three groups and [top_n = -1] give two rows. *)
Lemma negative_top_n_counterexample :
  three_products <> [] /\ -1 <= 0 /\
  get_top_products three_products (-1) =
  [{| rank := 1; SKU := "B"; Producto := "Beta"; Unidades := 3;
      Ventas := 50; PctTotal := 50 |};
   {| rank := 2; SKU := "C"; Producto := "Gama"; Unidades := 2;
      Ventas := 30; PctTotal := 30 |}].
Proof. split; [discriminate|]. split; [lia|]. vm_compute. reflexivity. Qed.

Lemma with_pct_elem (items_df : list line) (g : summary_row) (p : float) :
  (g, p) ∈ with_pct items_df ->
  p = pct_total (total_sales items_df) g /\
  exists k, k ∈ group_keys items_df /\ g = agg k items_df.
Proof.
  unfold with_pct. rewrite list_elem_of_fmap. intros (g' & [= -> ->] & Hg).
  split; [done|].
  rewrite sort_values_desc_Permutation in Hg. unfold groupby_sum in Hg.
  apply list_elem_of_fmap in Hg as (k & -> & Hk). by exists k.
Qed.

Lemma result_row (items_df : list line) (top_n : Z) (r : product_row) :
  r ∈ get_top_products items_df top_n ->
  exists g p, (g, p) ∈ with_pct items_df /\
    SKU r = sku g /\ Producto r = name g /\ Unidades r = quantity g /\
    Ventas r = line_total g /\ PctTotal r = p.
Proof.
  destruct (get_top_products_rows items_df top_n) as (top & -> & [k ->] & _).
  unfold number_rows. intros H.
  apply elem_of_zip_with in H as (i & [g p] & -> & _ & Hgp).
  exists g, p. split; [|done].
  apply elem_of_take in Hgp as (j & Hj & _). by eapply list_elem_of_lookup_2.
Qed.

Lemma summary_key_agg (k : key) (items_df : list line) :
  summary_key (agg k items_df) = k.
Proof. by destruct k. Qed.

Lemma keys_of_groupby_sum (items_df : list line) :
  map summary_key (groupby_sum items_df) = group_keys items_df.
Proof.
  unfold groupby_sum. rewrite map_map.
  rewrite (map_ext _ id); [apply map_id|]. intros k. apply summary_key_agg.
Qed.

Lemma result_keys (items_df : list line) (top_n : Z) :
  exists k,
    map (fun r => (SKU r, Producto r)) (get_top_products items_df top_n) =
    take k (map summary_key (sort_values_desc (groupby_sum items_df))) /\
    (Z.of_nat (num_groups items_df) <= top_n ->
     (num_groups items_df <= k)%nat).
Proof.
  destruct (get_top_products_rows items_df top_n) as (top & -> & [k ->] & Hlen).
  destruct (number_rows_spec (take k (with_pct items_df)))
    as (_ & _ & -> & _).
  exists k. split.
  - rewrite <- (map_map fst summary_key), <- firstn_map.
    by rewrite map_fst_with_pct, firstn_map.
  - intros Hn. rewrite length_take, length_with_pct in Hlen.
    destruct (Z.leb_spec 0 top_n); lia.
Qed.

Lemma sorted_keys_Permutation (items_df : list line) :
  map summary_key (sort_values_desc (groupby_sum items_df))
    ≡ₚ group_keys items_df.
Proof.
  rewrite <- keys_of_groupby_sum.
  apply Permutation_map, sort_values_desc_Permutation.
Qed.

(** C6, as the code has it: the rows of the result are groups by the pair
    (SKU, name). Every row carries the wrapped sum of the quantities and
    pandas' group sum of the line revenues of exactly the lines with its SKU
    and its name, in the order of the frame, of which there is at least one;
    no two rows have the same pair. Two lines with the same SKU and
    different names give two different rows for that SKU, one for each name,
    when [top_n] is at least the number of pairs (SKU, name) of the lines:
    then no group is cut off. *)
Theorem groups_by_sku_and_name (items_df : list line) (top_n : Z) :
  let result := get_top_products items_df top_n in
  (forall r, r ∈ result ->
     let g := group_of (SKU r, Producto r) items_df in
     g <> [] /\
     (forall l, l ∈ g <->
        l ∈ items_df /\ sku l = Some (SKU r) /\ name l = Some (Producto r)) /\
     Unidades r = sum_int64 (map quantity g) /\
     Ventas r = group_sum (map line_total g)) /\
  NoDup (map (fun r => (SKU r, Producto r)) result) /\
  (forall keys, lists_pairs items_df keys ->
   Z.of_nat (length keys) <= top_n ->
   forall l1 l2 s n1 n2, l1 ∈ items_df -> l2 ∈ items_df ->
     sku l1 = Some s -> name l1 = Some n1 ->
     sku l2 = Some s -> name l2 = Some n2 -> n1 <> n2 ->
     exists r1 r2, r1 ∈ result /\ r2 ∈ result /\ r1 <> r2 /\
       SKU r1 = s /\ Producto r1 = n1 /\
       SKU r2 = s /\ Producto r2 = n2).
Proof.
  intros result. subst result. split; [|split].
  - intros r Hr g.
    destruct (result_row _ _ _ Hr) as (g0 & p & Hgp & Hs & Hn & Hq & Hv & _).
    destruct (with_pct_elem _ _ _ Hgp) as (_ & k & Hk & ->).
    assert (Hkey : (SKU r, Producto r) = k) by (destruct k; simpl in *; congruence).
    subst g. rewrite Hkey. split; [|split; [|split]].
    + apply elem_of_group_keys in Hk as (l & Hl & Hlk).
      assert (l ∈ group_of k items_df).
      { apply elem_of_group_of. destruct k. by apply key_of_Some in Hlk. }
      intros E. rewrite E in H. by apply elem_of_nil in H.
    + intros l. rewrite elem_of_group_of. by rewrite <- Hkey.
    + exact Hq.
    + exact Hv.
  - destruct (result_keys items_df top_n) as (k & -> & _).
    apply NoDup_take.
    rewrite sorted_keys_Permutation. apply NoDup_group_keys.
  - intros keys Hkeys Hn l1 l2 s n1 n2 Hl1 Hl2 Hs1 Hn1 Hs2 Hn2 Hne.
    pose proof (lists_pairs_length _ _ Hkeys) as Hg. rewrite Hg in Hn.
    destruct (result_keys items_df top_n) as (k & Hkeys' & Hk).
    specialize (Hk Hn).
    assert (Hall : forall l s' n', l ∈ items_df ->
              sku l = Some s' -> name l = Some n' ->
              exists r, r ∈ get_top_products items_df top_n /\
                        SKU r = s' /\ Producto r = n').
    { intros l s' n' Hl Hs' Hn'.
      assert (Hin : (s', n') ∈ map (fun r => (SKU r, Producto r))
                                   (get_top_products items_df top_n)).
      { rewrite Hkeys', take_ge.
        - rewrite sorted_keys_Permutation. apply elem_of_group_keys.
          exists l. split; [done|]. by apply key_of_Some.
        - rewrite length_map, (Permutation_length (sort_values_desc_Permutation _)),
            length_groupby_sum. exact Hk. }
      apply list_elem_of_fmap in Hin as (r & Hr & Hrin).
      exists r. split; [done|]. by injection Hr as -> ->. }
    destruct (Hall l1 s n1 Hl1 Hs1 Hn1) as (r1 & Hr1 & Hsr1 & Hnr1).
    destruct (Hall l2 s n2 Hl2 Hs2 Hn2) as (r2 & Hr2 & Hsr2 & Hnr2).
    exists r1, r2. repeat split; try done.
    intros ->. congruence.
Qed.

Lemma two_names_pairs :
  lists_pairs two_names [("X1", "Widget"); ("X1", "Widget (blue)")].
Proof.
  assert (E : group_keys two_names =
              [("X1", "Widget"); ("X1", "Widget (blue)")])
    by (vm_compute; reflexivity).
  rewrite <- E. apply lists_pairs_group_keys.
Qed.

Lemma groups_by_sku_and_name_witness :
  let keys := [("X1", "Widget"); ("X1", "Widget (blue)")] in
  lists_pairs two_names keys /\ Z.of_nat (length keys) <= 5 /\
  get_top_products two_names 5 =
  [{| rank := 1; SKU := "X1"; Producto := "Widget (blue)"; Unidades := 1;
      Ventas := 150; PctTotal := 75 |};
   {| rank := 2; SKU := "X1"; Producto := "Widget"; Unidades := 5;
      Ventas := 50; PctTotal := 25 |}] /\
  exists r1 r2, r1 ∈ get_top_products two_names 5 /\
    r2 ∈ get_top_products two_names 5 /\ r1 <> r2 /\
    SKU r1 = "X1" /\ Producto r1 = "Widget" /\
    SKU r2 = "X1" /\ Producto r2 = "Widget (blue)".
Proof.
  intros keys.
  assert (Hn : Z.of_nat (length keys) <= 5) by (simpl; lia).
  split; [exact two_names_pairs|]. split; [exact Hn|].
  split; [vm_compute; reflexivity|].
  destruct (groups_by_sku_and_name two_names 5) as (_ & _ & H).
  apply (H keys two_names_pairs Hn (mk_line "X1" "Widget" 2 20)
           (mk_line "X1" "Widget (blue)" 1 150) "X1" "Widget"
           "Widget (blue)").
  - by left.
  - right. by left.
  - reflexivity.
  - reflexivity.
  - reflexivity.
  - reflexivity.
  - discriminate.
Defined.

(** C6 fails as stated: [top_n] can cut a name off. The SKU X1 is sold
    under two names, and the result for [top_n = 1] has one row for it. *)
Lemma truncated_names_counterexample :
  mk_line "X1" "Widget" 2 20 ∈ two_names /\
  mk_line "X1" "Widget (blue)" 1 150 ∈ two_names /\
  get_top_products two_names 1 =
  [{| rank := 1; SKU := "X1"; Producto := "Widget (blue)"; Unidades := 1;
      Ventas := 150; PctTotal := 75 |}].
Proof.
  split; [by left|]. split; [right; by left|]. vm_compute. reflexivity.
Qed.

(** ** Sums of floats *)

Lemma pairwise_sum_S (fuel : nat) (xs : list float) :
  pairwise_sum (S fuel) xs =
  if (length xs <=? 128)%nat then block_sum xs
  else
    let n2 := (length xs / 2 - (length xs / 2) mod 8)%nat in
    (pairwise_sum fuel (take n2 xs) + pairwise_sum fuel (drop n2 xs))%float.
Proof. reflexivity. Qed.

(** The fuel [series_sum] gives is never used up: any fuel from the length
    of the list on gives the same sum. *)
Lemma pairwise_sum_fuel (f1 f2 : nat) (xs : list float) :
  (length xs <= f1)%nat -> (length xs <= f2)%nat ->
  pairwise_sum f1 xs = pairwise_sum f2 xs.
Proof.
  revert f2 xs. induction f1 as [|f1 IH]; intros f2 xs H1 H2.
  - destruct xs; [|simpl in H1; lia]. by destruct f2.
  - destruct f2 as [|f2].
    { destruct xs; [done | simpl in H2; lia]. }
    rewrite !pairwise_sum_S.
    destruct (Nat.leb_spec (length xs) 128) as [Hn|Hn]; [done|].
    cbv zeta.
    set (n2 := (length xs / 2 - (length xs / 2) mod 8)%nat).
    assert (Hn2 : (1 <= n2 < length xs)%nat).
    { subst n2.
      pose proof (Nat.mod_upper_bound (length xs / 2) 8 ltac:(lia)).
      pose proof (Nat.div_lt (length xs) 2 ltac:(lia) ltac:(lia)).
      assert (64 <= length xs / 2)%nat
        by (apply Nat.div_le_lower_bound; lia).
      lia. }
    f_equal; apply IH; rewrite ?length_take, ?length_drop; lia.
Qed.

Section ClosedUnderAddition.

Variable P : float -> Prop.
Hypothesis P_zero : P 0%float.
Hypothesis P_add : forall x y, P x -> P y -> P (x + y)%float.

Lemma fold_add_closed (xs : list float) (acc : float) :
  P acc -> Forall P xs ->
  P (fold_left (fun res x => (res + x)%float) xs acc).
Proof.
  intros Hacc H. revert acc Hacc.
  induction H as [|x xs Hx _ IH]; intros acc Hacc; simpl; [done|].
  apply IH. by apply P_add.
Qed.

Lemma accumulate8_closed (n : nat) (xs : list float) (r : acc8) :
  (length xs <= n)%nat -> all8 P r -> Forall P xs ->
  all8 P (fst (accumulate8 r xs)) /\ Forall P (snd (accumulate8 r xs)).
Proof.
  revert xs r. induction n as [|n IH]; intros xs r Hlen Hr Hxs.
  { destruct xs; [done | simpl in Hlen; lia]. }
  destruct xs as [|a0 [|a1 [|a2 [|a3 [|a4 [|a5 [|a6 [|a7 xs']]]]]]]];
    try done.
  cbn [accumulate8].
  repeat match goal with
         | H : Forall P (_ :: _) |- _ => apply Forall_cons in H as [? H]
         end.
  destruct Hr as (? & ? & ? & ? & ? & ? & ? & ?).
  apply IH; [simpl in Hlen; lia | | done].
  unfold all8. cbn [r0 r1 r2 r3 r4 r5 r6 r7].
  repeat split; by apply P_add.
Qed.

Lemma block_sum_closed (xs : list float) : Forall P xs -> P (block_sum xs).
Proof.
  intros Hxs. unfold block_sum.
  destruct xs as [|a0 [|a1 [|a2 [|a3 [|a4 [|a5 [|a6 [|a7 xs']]]]]]]];
    try (by apply fold_add_closed).
  repeat match goal with
         | H : Forall P (_ :: _) |- _ => apply Forall_cons in H as [? H]
         end.
  match goal with
  | |- context [accumulate8 ?r xs'] =>
      destruct (accumulate8_closed (length xs') xs' r) as [Hr Hrest];
        [done | by repeat split | done |];
      destruct (accumulate8 r xs') as [r' rest]
  end.
  destruct Hr as (? & ? & ? & ? & ? & ? & ? & ?).
  apply fold_add_closed; [|done].
  repeat apply P_add; done.
Qed.

Lemma pairwise_sum_closed (fuel : nat) (xs : list float) :
  Forall P xs -> P (pairwise_sum fuel xs).
Proof.
  revert xs. induction fuel as [|fuel IH]; intros xs Hxs.
  - by apply block_sum_closed.
  - rewrite pairwise_sum_S.
    destruct (length xs <=? 128)%nat; [by apply block_sum_closed|].
    cbv zeta. apply P_add; apply IH.
    + by apply Forall_take.
    + by apply Forall_drop.
Qed.

End ClosedUnderAddition.

(** The compensation at work: four amounts (68.05, 423.87, 382.12 and
    128.28) whose sum, added one after the other, falls one unit in the last
    place short of what the group sum gives, the float nearest to
    1002.32. *)
Example group_sum_compensates :
  let amounts := [0x1.1033333333333p+6; 0x1.a7deb851eb852p+8;
                  0x1.7e1eb851eb852p+8; 0x1.008f5c28f5c29p+7]%float in
  group_sum amounts = 0x1.f528f5c28f5c3p+9%float /\
  fsum amounts = 0x1.f528f5c28f5c2p+9%float.
Proof. split; vm_compute; reflexivity. Qed.

(** Eight groups are added in pairs: their revenues sum to 30, where adding
    them one after the other would give 32, and the share of a group of
    revenue 7 is 23.33 (the float nearest to it). *)
Example eight_groups_total :
  total_sales eight_groups = 30%float /\
  fsum (map line_total (sort_values_desc (groupby_sum eight_groups)))
    = 32%float /\
  get_top_products eight_groups 2 !! 1%nat =
  Some {| rank := 2; SKU := "B"; Producto := "p"; Unidades := 1;
          Ventas := 7; PctTotal := 0x1.7547ae147ae14p+4 |}.
Proof. repeat split; vm_compute; reflexivity. Qed.

(** ** Percentages *)

Module NonFinite.

Lemma Prim2SF_100 : Prim2SF 100 = S754_finite false 7036874417766400 (-46).
Proof. vm_compute. reflexivity. Qed.

Lemma Prim2SF_two52 : Prim2SF two52 = S754_finite false 4503599627370496 0.
Proof. vm_compute. reflexivity. Qed.

Lemma Prim2SF_tolerance :
  Prim2SF 0x1.999999999999ap-5 = S754_finite false 7205759403792794 (-57).
Proof. vm_compute. reflexivity. Qed.

Lemma is_zero_spec (t : float) :
  (t =? 0)%float = true -> exists s, Prim2SF t = S754_zero s.
Proof.
  rewrite FloatAxioms.eqb_spec. change (Prim2SF 0) with (S754_zero false).
  destruct (Prim2SF t) as [s|[]| |[] m e]; simpl; try discriminate.
  by exists s.
Qed.

Lemma div_zero (x t : float) :
  (t =? 0)%float = true -> nonfinite (x / t) = true.
Proof.
  intros [s Ht]%is_zero_spec. unfold nonfinite.
  rewrite div_spec, Ht. by destruct (Prim2SF x).
Qed.

Lemma mul_100 (x : float) : nonfinite x = true -> nonfinite (x * 100) = true.
Proof.
  unfold nonfinite. rewrite mul_spec, Prim2SF_100.
  by destruct (Prim2SF x).
Qed.

Lemma div_100 (x : float) : nonfinite x = true -> nonfinite (x / 100) = true.
Proof.
  unfold nonfinite. rewrite div_spec, Prim2SF_100.
  by destruct (Prim2SF x).
Qed.

Lemma rint_id (x : float) : nonfinite x = true -> rint x = x.
Proof.
  unfold nonfinite, rint. intros H.
  rewrite FloatAxioms.ltb_spec, abs_spec, Prim2SF_two52.
  by destruct (Prim2SF x).
Qed.

Lemma round2_nonfinite (x : float) :
  nonfinite x = true -> nonfinite (round2 x) = true.
Proof.
  intros H. unfold round2. apply div_100.
  rewrite rint_id; by apply mul_100.
Qed.

Lemma add_l (x y : float) : nonfinite x = true -> nonfinite (x + y) = true.
Proof.
  unfold nonfinite. rewrite add_spec.
  by destruct (Prim2SF x) as [| [] | |], (Prim2SF y) as [| [] | |].
Qed.

Lemma add_r (x y : float) : nonfinite y = true -> nonfinite (x + y) = true.
Proof.
  unfold nonfinite. rewrite add_spec.
  by destruct (Prim2SF x) as [| [] | |], (Prim2SF y) as [| [] | |].
Qed.

Lemma is_nan_nonfinite (x : float) : is_nan x = true -> nonfinite x = true.
Proof.
  rewrite FloatOrder.is_nan_spec. unfold nonfinite. by destruct (Prim2SF x).
Qed.

Lemma out_of_tolerance (s : float) :
  nonfinite s = true -> within_tolerance s = false.
Proof.
  unfold nonfinite, within_tolerance.
  rewrite FloatAxioms.leb_spec, abs_spec, sub_spec, Prim2SF_100,
    Prim2SF_tolerance.
  by destruct (Prim2SF s) as [| [] | |].
Qed.

Lemma fsum_from (xs : list float) (acc : float) :
  nonfinite acc = true ->
  nonfinite (fold_left (fun a x => (a + x)%float) xs acc) = true.
Proof.
  revert acc. induction xs as [|x xs IH]; intros acc H; simpl; [done|].
  by apply IH, add_l.
Qed.

Lemma fsum_nonfinite (xs : list float) :
  xs <> [] -> Forall (fun x => nonfinite x = true) xs ->
  nonfinite (fsum xs) = true.
Proof.
  destruct xs as [|x xs]; [done|]. intros _ H. unfold fsum. simpl.
  apply fsum_from, add_r. by inversion H.
Qed.

Lemma zero_or_nonfinite_add (x y : float) :
  x = 0%float \/ nonfinite x = true ->
  y = 0%float \/ nonfinite y = true ->
  (x + y)%float = 0%float \/ nonfinite (x + y) = true.
Proof.
  intros [-> | Hx] [-> | Hy]; [by left | | |]; right;
    first [by apply add_l | by apply add_r].
Qed.

(** The percentages of a zero total, added by pandas: zero (all of them
    NaN) or not a finite number. *)
Lemma series_sum_zero_or_nonfinite (xs : list float) :
  Forall (fun x => nonfinite x = true) xs ->
  series_sum xs = 0%float \/ nonfinite (series_sum xs) = true.
Proof.
  intros H. unfold series_sum.
  apply zero_or_nonfinite_add; [by left|].
  apply (pairwise_sum_closed
           (fun x => x = 0%float \/ nonfinite x = true));
    [by left | apply zero_or_nonfinite_add |].
  apply Forall_map. eapply Forall_impl; [exact H|].
  intros x Hx. unfold fill_nan. destruct (is_nan x); auto.
Qed.

End NonFinite.

Module SingleGroup.

Lemma Prim2SF_1 : Prim2SF 1 = S754_finite false 4503599627370496 (-52).
Proof. vm_compute. reflexivity. Qed.

Lemma SFdiv_self (s : bool) (m : positive) (e : Z) :
  SFdiv prec emax (S754_finite s m e) (S754_finite s m e) =
  S754_finite false 4503599627370496 (-52).
Proof.
  unfold SFdiv, SFdiv_core_binary.
  replace (Zdigits2 (Z.pos m) + e - (Zdigits2 (Z.pos m) + e)) with 0 by lia.
  rewrite Z.sub_diag.
  change (Z.min (fexp prec emax 0) 0) with (-53).
  change (0 - -53) with 53.
  cbv iota beta zeta.
  rewrite Z.shiftl_mul_pow2 by lia.
  assert (H : Z.div_eucl (Z.pos m * 2 ^ 53) (Z.pos m) = (2 ^ 53, 0)).
  { pose proof (Z.div_eucl_eq (Z.pos m * 2 ^ 53) (Z.pos m)) as E.
    pose proof (Z.mod_pos_bound (Z.pos m * 2 ^ 53) (Z.pos m)) as B.
    unfold Z.modulo in B.
    destruct (Z.div_eucl (Z.pos m * 2 ^ 53) (Z.pos m)) as [q r].
    specialize (E ltac:(lia)). specialize (B ltac:(lia)).
    assert (q = 2 ^ 53) by nia. subst q. f_equal. lia. }
  rewrite H.
  assert (L : new_location (Z.pos m) 0 = loc_Exact).
  { unfold new_location, new_location_even, new_location_odd.
    destruct (Z.even (Z.pos m)); reflexivity. }
  rewrite L. destruct s; vm_compute; reflexivity.
Qed.

Lemma div_self (x : float) : finite_nonzero x = true -> (x / x)%float = 1%float.
Proof.
  unfold finite_nonzero. intros H. apply Prim2SF_inj.
  rewrite div_spec, Prim2SF_1. unfold SF64div.
  destruct (Prim2SF x) as [| | |s m e]; try discriminate.
  apply SFdiv_self.
Qed.

Lemma zero_add (x : float) : finite_nonzero x = true -> (0 + x)%float = x.
Proof.
  unfold finite_nonzero. intros H. apply Prim2SF_inj.
  rewrite add_spec. change (Prim2SF 0) with (S754_zero false).
  by destruct (Prim2SF x).
Qed.

Lemma not_nan (x : float) : finite_nonzero x = true -> is_nan x = false.
Proof.
  rewrite FloatOrder.is_nan_spec. unfold finite_nonzero.
  by destruct (Prim2SF x).
Qed.

(** One group, of a revenue that is a number other than zero: its share is
    exactly 100.0. *)
Lemma all_of_it (items_df : list line) (g : summary_row) :
  groupby_sum items_df = [g] -> finite_nonzero (line_total g) = true ->
  all_pct items_df = [100%float].
Proof.
  intros Hg Hfin.
  assert (Htotal : total_sales items_df = line_total g).
  { unfold total_sales. rewrite Hg.
    change (series_sum (map line_total (sort_values_desc [g]))) with
      (0 + (0 + fill_nan (line_total g)))%float.
    unfold fill_nan. rewrite not_nan by done.
    rewrite (zero_add (line_total g)) by done. by apply zero_add. }
  unfold all_pct, with_pct. rewrite Htotal, Hg. simpl.
  unfold pct_total. rewrite div_self by done. f_equal.
Qed.

End SingleGroup.

Lemma single_pair_summary (items_df : list line) (k : key) :
  lists_pairs items_df [k] -> groupby_sum items_df = [agg k items_df].
Proof.
  intros Hk. unfold groupby_sum.
  assert (E : group_keys items_df = [k]).
  { pose proof (lists_pairs_group_keys items_df) as [Hnd Hin].
    destruct Hk as [_ Hk].
    assert (Hlen : length (group_keys items_df) = 1%nat).
    { change 1%nat with (length [k]). apply Permutation_length.
      apply NoDup_Permutation; [done | apply NoDup_singleton |].
      intros [s n]. by rewrite Hin, Hk. }
    destruct (group_keys items_df) as [|k' [|? ?]]; try done.
    assert (H : k' ∈ [k]).
    { destruct k' as [s n]. apply Hk, Hin. by left. }
    apply list_elem_of_singleton in H. by subst. }
  by rewrite E.
Qed.

(** C3, as the code has it: the percentage of a row is
    [round(revenue / total * 100, 2)] against the total revenue of all
    groups, whatever [top_n] is; there is one percentage per pair (SKU,
    name) of the lines, and the percentages of the result are the first ones
    of the column computed for all groups. A single group whose revenue is a
    number other than zero gets exactly 100.0. There is no branch for a zero
    total: then every percentage is NaN or infinite, and the percentages sum
    to nothing within 0.05 of 100, whether they are added one by one or by
    pandas (which counts NaN as zero). *)
Theorem percentages_of_total (items_df : list line) (top_n : Z) :
  (forall r, r ∈ get_top_products items_df top_n ->
     PctTotal r = round2 (Ventas r / total_sales items_df * 100)) /\
  (forall keys, lists_pairs items_df keys ->
     length (all_pct items_df) = length keys) /\
  (exists k, map PctTotal (get_top_products items_df top_n) =
             take k (all_pct items_df)) /\
  (forall k, lists_pairs items_df [k] ->
     finite_nonzero (group_sum (map line_total (group_of k items_df))) = true ->
     all_pct items_df = [100%float] /\
     within_tolerance (fsum (all_pct items_df)) = true) /\
  ((total_sales items_df =? 0)%float = true ->
   (forall p, p ∈ all_pct items_df -> nonfinite p = true) /\
   within_tolerance (fsum (all_pct items_df)) = false /\
   within_tolerance (series_sum (all_pct items_df)) = false).
Proof.
  split; [|split; [|split; [|split]]].
  - intros r Hr.
    destruct (result_row _ _ _ Hr) as (g & p & Hgp & _ & _ & _ & Hv & ->).
    destruct (with_pct_elem _ _ _ Hgp) as (-> & _).
    unfold pct_total. by rewrite Hv.
  - intros keys Hkeys. unfold all_pct.
    by rewrite length_map, length_with_pct, (lists_pairs_length _ _ Hkeys).
  - destruct (get_top_products_rows items_df top_n) as (top & -> & [k ->] & _).
    destruct (number_rows_spec (take k (with_pct items_df)))
      as (_ & _ & _ & _ & _ & ->).
    exists k. unfold all_pct. by rewrite firstn_map.
  - intros k Hk Hfin.
    rewrite (SingleGroup.all_of_it items_df (agg k items_df)
               (single_pair_summary _ _ Hk) Hfin).
    split; [reflexivity | vm_compute; reflexivity].
  - intros Hzero.
    assert (Hall : Forall (fun x => nonfinite x = true) (all_pct items_df)).
    { apply Forall_forall. intros p Hp. unfold all_pct in Hp.
      apply list_elem_of_fmap in Hp as ([g p'] & -> & Hgp).
      destruct (with_pct_elem _ _ _ Hgp) as (-> & _).
      apply NonFinite.round2_nonfinite, NonFinite.mul_100.
      by apply NonFinite.div_zero. }
    split; [by apply Forall_forall|]. split.
    + destruct (all_pct items_df) as [|p ps] eqn:E;
        [vm_compute; reflexivity|].
      apply NonFinite.out_of_tolerance, NonFinite.fsum_nonfinite; done.
    + destruct (NonFinite.series_sum_zero_or_nonfinite _ Hall) as [-> | H].
      * vm_compute. reflexivity.
      * by apply NonFinite.out_of_tolerance.
Qed.

Lemma percentages_of_total_witness :
  (total_sales zero_revenue =? 0)%float = true /\
  within_tolerance (fsum (all_pct zero_revenue)) = false /\
  within_tolerance (series_sum (all_pct zero_revenue)) = false.
Proof.
  assert (H0 : (total_sales zero_revenue =? 0)%float = true)
    by (vm_compute; reflexivity).
  split; [exact H0|].
  destruct (percentages_of_total zero_revenue 5) as (_ & _ & _ & _ & H).
  destruct (H H0) as (_ & H'). exact H'.
Defined.

(** C3 fails as stated. With a total revenue of zero the only percentage is
    NaN; with thirty groups of equal revenue each percentage is 3.33 and the
    sum is 99.9 (exactly the float shown), which is 0.1 away from 100. *)
Lemma percentage_sum_counterexample :
  (zero_revenue <> [] /\ all_pct zero_revenue = [nan] /\
   within_tolerance (fsum (all_pct zero_revenue)) = false /\
   within_tolerance (series_sum (all_pct zero_revenue)) = false) /\
  (thirty_products <> [] /\
   fsum (all_pct thirty_products) = 0x1.8f99999999997p+6%float /\
   within_tolerance (fsum (all_pct thirty_products)) = false /\
   within_tolerance (series_sum (all_pct thirty_products)) = false).
Proof.
  split; (split; [discriminate|]); vm_compute; repeat split.
Qed.

(** ** Frames as objects: formatting in place, ranking without effect *)

Lemma apply_map {A} (f : cell -> outcome cell) (g g' : A -> cell)
    (l : list A) :
  (forall x, f (g x) = Ok (g' x)) -> apply f (map g l) = Ok (map g' l).
Proof.
  intros H. induction l as [|x l IH]; simpl; [done|].
  by rewrite H, IH.
Qed.

Lemma zip_with_map2 {A B C D} (f : B -> C -> D) (g : A -> B) (g' : A -> C)
    (l : list A) :
  zip_with f (map g l) (map g' l) = map (fun x => f (g x) (g' x)) l.
Proof. induction l as [|x l IH]; simpl; [done|]. by rewrite IH. Qed.

Lemma format_columns_rows (rows : list product_row) :
  format_columns (map row_cells rows) = (map formatted rows, None).
Proof.
  unfold format_columns.
  rewrite map_map.
  rewrite (apply_map fmt_ventas (fun r => t_Ventas (row_cells r))
             (fun r => CStr (String "$" (Fmt.fixed true 2 (Ventas r)))))
    by done.
  rewrite zip_with_map2, map_map.
  rewrite (apply_map fmt_pct _
             (fun r => CStr (Fmt.fixed false 1 (PctTotal r) ++ "%")))
    by done.
  rewrite zip_with_map2, map_map.
  rewrite (apply_map fmt_unidades _
             (fun r => CStr (Fmt.int_grouped (Unidades r))))
    by done.
  by rewrite zip_with_map2.
Qed.

Lemma format_product_table_rows (h : store) (df : loc)
    (rows : list product_row) :
  h !! df = Some (Table (map row_cells rows)) ->
  format_product_table df h =
    Some (<[df := Table (map formatted rows)]> h, Ok df).
Proof.
  intros Hdf. unfold format_product_table. rewrite Hdf.
  destruct rows as [|r rows].
  - simpl. by rewrite insert_id.
  - change (map row_cells (r :: rows)) with
      (row_cells r :: map row_cells rows).
    cbv iota beta.
    change (row_cells r :: map row_cells rows) with
      (map row_cells (r :: rows)).
    by rewrite format_columns_rows.
Qed.

(** C7, as the code has it: [format_product_table] writes the three
    formatted columns into the frame it is given and returns that same
    frame. For a table as [get_top_products] returns it, the call succeeds,
    the caller's frame holds the formatted rows afterwards, and every other
    frame is unchanged; the argument is left as it was only when it is
    empty. *)
Theorem format_product_table_in_place (h : store) (df : loc)
    (rows : list product_row) :
  h !! df = Some (Table (map row_cells rows)) ->
  format_product_table df h =
    Some (<[df := Table (map formatted rows)]> h, Ok df) /\
  (forall l, l <> df ->
     (<[df := Table (map formatted rows)]> h) !! l = h !! l) /\
  (rows = [] -> format_product_table df h = Some (h, Ok df)) /\
  (rows <> [] ->
   (<[df := Table (map formatted rows)]> h) !! df <> h !! df).
Proof.
  intros Hdf. split; [|split; [|split]].
  - by apply format_product_table_rows.
  - intros l Hl. by rewrite lookup_insert_ne.
  - intros ->. unfold format_product_table. by rewrite Hdf.
  - intros Hne. rewrite lookup_insert_eq, Hdf.
    destruct rows as [|r rows]; [done|]. discriminate.
Qed.

Lemma format_product_table_in_place_witness :
  let h : store := {[ 1%positive := Table (map row_cells top_two) ]} in
  h !! 1%positive = Some (Table (map row_cells top_two)) /\
  format_product_table 1%positive h =
    Some (<[1%positive := Table (map formatted top_two)]> h, Ok 1%positive).
Proof.
  intros h.
  assert (H : h !! 1%positive = Some (Table (map row_cells top_two)))
    by reflexivity.
  split; [exact H|].
  apply (format_product_table_in_place h 1%positive top_two H).
Defined.

(** C7 fails as stated: after the call the caller's frame holds text where
    it held numbers. *)
Lemma format_mutates_counterexample :
  let h : store := {[ 1%positive := Table (map row_cells top_two) ]} in
  exists h',
    format_product_table 1%positive h = Some (h', Ok 1%positive) /\
    h' !! 1%positive =
      Some (Table
        [{| t_index := 1; t_SKU := "B"; t_Producto := "Beta";
            t_Unidades := CStr "1,234"; t_Ventas := CStr "$1,234,567.50";
            t_PctTotal := CStr "62.5%" |};
         {| t_index := 2; t_SKU := "C"; t_Producto := "Gama";
            t_Unidades := CStr "2"; t_Ventas := CStr "$30.00";
            t_PctTotal := CStr "37.5%" |}]) /\
    h' !! 1%positive <> h !! 1%positive.
Proof.
  intros h. eexists. split; [vm_compute; reflexivity|].
  split; [vm_compute; reflexivity|]. vm_compute. discriminate.
Qed.

(** The caller of the dashboard formats a copy, and its own table stays as
    it was. *)
Lemma format_of_copy (h : store) (df : loc) (rows : list product_row) :
  h !! df = Some (Table (map row_cells rows)) ->
  exists h1 c h2,
    copy df h = Some (h1, c) /\
    format_product_table c h1 = Some (h2, Ok c) /\
    c <> df /\ h2 !! df = h !! df.
Proof.
  intros Hdf. unfold copy. rewrite Hdf.
  set (c := fresh (dom h)).
  assert (Hc : h !! c = None) by apply not_elem_of_dom, is_fresh.
  assert (Hne : c <> df) by (intros ->; congruence).
  set (h1 := <[c := Table (map row_cells rows)]> h).
  assert (H1 : h1 !! c = Some (Table (map row_cells rows)))
    by apply lookup_insert_eq.
  pose proof (format_product_table_rows h1 c rows H1) as Hf.
  eexists h1, c, _. split; [done|]. split; [exact Hf|]. split; [done|].
  rewrite lookup_insert_ne by done. unfold h1. by rewrite lookup_insert_ne.
Qed.

(** C9: [get_top_products] has no state of its own and leaves its argument
    alone. Called twice on the same frame with the same [top_n], it returns
    two frames with the same rows, those of the function [get_top_products]
    of the rows of the argument; the argument and every other frame there
    was are unchanged by both calls, and the second call leaves the result of
    the first as it was. *)
Theorem get_top_products_deterministic (h : store) (items_df : loc)
    (items : list line) (top_n : Z) :
  h !! items_df = Some (Items items) ->
  exists h1 r1 h2 r2,
    get_top_products_obj items_df top_n h = Some (h1, Ok r1) /\
    get_top_products_obj items_df top_n h1 = Some (h2, Ok r2) /\
    h1 !! r1 = Some (Table (map row_cells (get_top_products items top_n))) /\
    h2 !! r2 = Some (Table (map row_cells (get_top_products items top_n))) /\
    (forall l, is_Some (h !! l) -> h1 !! l = h !! l /\ h2 !! l = h !! l) /\
    h2 !! r1 = h1 !! r1.
Proof.
  intros Hdf.
  set (t := Table (map row_cells (get_top_products items top_n))).
  set (r1 := fresh (dom h)).
  set (h1 := <[r1 := t]> h).
  set (r2 := fresh (dom h1)).
  set (h2 := <[r2 := t]> h1).
  assert (Hr1 : h !! r1 = None) by apply not_elem_of_dom, is_fresh.
  assert (Hr2 : h1 !! r2 = None) by apply not_elem_of_dom, is_fresh.
  assert (Hne1 : r1 <> items_df) by (intros E; rewrite E in Hr1; congruence).
  assert (Hdf1 : h1 !! items_df = Some (Items items)).
  { unfold h1. by rewrite lookup_insert_ne. }
  assert (H11 : h1 !! r1 = Some t) by apply lookup_insert_eq.
  assert (Hne2 : r2 <> r1) by (intros E; rewrite E in Hr2; congruence).
  exists h1, r1, h2, r2. repeat split.
  - unfold get_top_products_obj. by rewrite Hdf.
  - unfold get_top_products_obj. by rewrite Hdf1.
  - exact H11.
  - apply lookup_insert_eq.
  - apply lookup_insert_ne. intros E. rewrite <- E in H. rewrite Hr1 in H.
    by destruct H.
  - unfold h2. rewrite lookup_insert_ne.
    + apply lookup_insert_ne. intros E. rewrite <- E in H. rewrite Hr1 in H.
      by destruct H.
    + intros E. rewrite <- E in H.
      assert (is_Some (h1 !! r2)).
      { unfold h1. rewrite lookup_insert_ne; [done|].
        intros E'. rewrite <- E' in H. rewrite Hr1 in H. by destruct H. }
      rewrite Hr2 in H0. by destruct H0.
  - unfold h2. by rewrite lookup_insert_ne.
Qed.

Lemma get_top_products_deterministic_witness :
  let h : store := {[ 1%positive := Items three_products ]} in
  h !! 1%positive = Some (Items three_products) /\
  exists h1 r1 h2 r2,
    get_top_products_obj 1%positive 2 h = Some (h1, Ok r1) /\
    get_top_products_obj 1%positive 2 h1 = Some (h2, Ok r2) /\
    h2 !! r2 = h1 !! r1.
Proof.
  intros h.
  assert (H : h !! 1%positive = Some (Items three_products)) by reflexivity.
  split; [exact H|].
  destruct (get_top_products_deterministic h 1%positive three_products 2 H)
    as (h1 & r1 & h2 & r2 & E1 & E2 & T1 & T2 & _).
  exists h1, r1, h2, r2. split; [exact E1|]. split; [exact E2|].
  by rewrite T1, T2.
Defined.

(** * Further properties *)

(** ** The extractor: payloads, exceptions, batches *)

(** X1: an order whose line-items field is neither text nor a list (null,
    NaN, a number, a boolean, a dictionary) contributes nothing and raises
    nothing: the extraction returns what it returns for the batch without
    that order. *)
Theorem other_payload_order_skipped
    (json_loads : string -> outcome pyval) (cols : list string)
    (pre post : list (list pyval)) (r : list pyval) (v : pyval) :
  getitem (combine cols r) "line_items" = Ok v ->
  (forall s, v <> VStr s) -> (forall l, v <> VList l) ->
  (forall acc, try_body json_loads (combine cols r) acc = (acc, None)) /\
  extract_line_items_from_orders json_loads
    {| columns := cols; rows := pre ++ r :: post |} =
  extract_line_items_from_orders json_loads
    {| columns := cols; rows := pre ++ post |}.
Proof.
  intros Hget Hs Hl.
  assert (Hbody : forall acc,
            try_body json_loads (combine cols r) acc = (acc, None)).
  { intros acc. unfold try_body, items_of. rewrite Hget. simpl.
    destruct v; try done; [by destruct (Hs s) | by destruct (Hl l)]. }
  split; [exact Hbody|].
  apply extract_passed_over. intros acc. exists None. by rewrite Hbody.
Qed.

Lemma other_payload_order_skipped_witness :
  let a := [VStr "A"; VStr "2024-05-01"; VStr "Shopify";
            VList [VDict [("sku", VStr "X1"); ("price", VStr "19.99");
                          ("quantity", VInt 3)]]] in
  let b := [VStr "B"; VStr "2024-05-02"; VStr "Amazon"; VNone] in
  getitem (combine order_columns b) "line_items" = Ok VNone /\
  extract_line_items_from_orders Json.loads
    {| columns := order_columns; rows := [a] ++ b :: [a] |} =
  extract_line_items_from_orders Json.loads
    {| columns := order_columns; rows := [a] ++ [a] |}.
Proof.
  intros a b. split; [reflexivity|].
  apply (other_payload_order_skipped Json.loads order_columns [a] [a] b VNone);
    [reflexivity | discriminate | discriminate].
Defined.

Lemma py_float_raises (v : pyval) (e : exn) :
  py_float v = Raise e ->
  e = TypeError \/ e = ValueError \/ e = OverflowError.
Proof.
  destruct v as [|b|z|f|s|l|d]; simpl; try (intros [= <-]; auto); try done.
  - unfold PyFloat.of_int.
    destruct (binary_normalize prec emax z 0 false); intros [= <-]; auto.
  - destruct (PyFloat.of_str s); intros [= <-]; auto.
Qed.

Lemma py_float_mul_raises (x : float) (v : pyval) (e : exn) :
  py_float_mul x v = Raise e -> e = TypeError \/ e = OverflowError.
Proof.
  destruct v as [|b|z|f|s|l|d]; simpl; try (intros [= <-]; auto); try done.
  unfold PyFloat.of_int.
  destruct (binary_normalize prec emax z 0 false); simpl; intros [= <-]; auto.
Qed.

(** The exceptions of the dictionary display. *)
Lemma make_product_data_raises (row : Series) (item : pyval) (e : exn) :
  make_product_data row item = Raise e ->
  e = KeyError \/ e = AttributeError \/ e = TypeError \/ e = ValueError \/
  e = OverflowError.
Proof.
  unfold make_product_data, getitem. intros H.
  destruct (assoc "id" row); simpl in H; [|injection H as <-; auto].
  destruct (assoc "date" row); simpl in H; [|injection H as <-; auto].
  destruct (assoc "channel" row); simpl in H; [|injection H as <-; auto].
  destruct item as [| | | | | |d]; simpl in H;
    try (injection H as <-; by auto).
  destruct (py_float (dict_get d "price" (VInt 0))) as [price|e1] eqn:Ep;
    simpl in H.
  2: { injection H as <-.
       destruct (py_float_raises _ _ Ep) as [-> | [-> | ->]]; auto. }
  destruct (py_float (dict_get d "total_discount" (VInt 0)))
    as [disc|e2] eqn:Ed; simpl in H.
  2: { injection H as <-.
       destruct (py_float_raises _ _ Ed) as [-> | [-> | ->]]; auto. }
  destruct (py_float_mul price (dict_get d "quantity" (VInt 0)))
    as [total|e3] eqn:Em; simpl in H; [done|].
  injection H as <-.
  destruct (py_float_mul_raises _ _ _ Em) as [-> | ->]; auto.
Qed.

Lemma items_loop_raises (row : Series) (items : list pyval)
    (acc acc' : list product_data) (e : exn) :
  items_loop row items acc = (acc', Some e) ->
  exists item, item ∈ items /\ make_product_data row item = Raise e.
Proof.
  revert acc. induction items as [|item items IH]; intros acc; simpl; [done|].
  destruct (make_product_data row item) as [p|e'] eqn:E.
  - intros H. destruct (IH _ H) as (it & ? & ?).
    exists it. split; [by right | done].
  - intros [= <- <-]. exists item. split; [by left | done].
Qed.

(** Where an exception of the [try] body comes from: [json.loads] raised
    it on the text of the row, or it is one the body itself can raise. *)
Lemma try_body_raises (json_loads : string -> outcome pyval) (row : Series)
    (acc acc' : list product_data) (e : exn) :
  try_body json_loads row acc = (acc', Some e) ->
  (exists s, getitem row "line_items" = Ok (VStr s) /\
             json_loads s = Raise e) \/
  e = KeyError \/ e = AttributeError \/ e = TypeError \/ e = ValueError \/
  e = OverflowError.
Proof.
  unfold try_body.
  destruct (items_of json_loads row) as [[items|]|e'] eqn:E.
  - intros H. right.
    destruct (items_loop_raises _ _ _ _ _ H) as (item & _ & Hitem).
    by eapply make_product_data_raises.
  - done.
  - intros [= <- <-]. unfold items_of, getitem in *.
    destruct (assoc "line_items" row) as [v|]; simpl in E;
      [|injection E as <-; auto].
    destruct v as [|b|z|f|s|l|d]; simpl in E; try done.
    destruct (json_loads s) as [items|e''] eqn:Ej; simpl in E.
    + destruct items; simpl in E; try done; injection E as <-; auto.
    + injection E as <-. left. by exists s.
Qed.

Lemma rows_loop_raised_by (json_loads : string -> outcome pyval)
    (rs : list Series) (acc : list product_data) (e : exn) :
  rows_loop json_loads rs acc = Raise e ->
  caught e = false /\
  exists row acc0 acc1, row ∈ rs /\
    try_body json_loads row acc0 = (acc1, Some e).
Proof.
  revert acc. induction rs as [|row rs IH]; intros acc; simpl; [done|].
  destruct (try_body json_loads row acc) as [acc' [e'|]] eqn:E.
  - destruct (caught e') eqn:Ec.
    + intros H. destruct (IH _ H) as (Hc & r & a0 & a1 & Hr & Hb).
      split; [done|]. exists r, a0, a1. split; [by right | done].
    + intros [= <-]. split; [done|]. exists row, acc, acc'.
      split; [by left | done].
  - intros H. destruct (IH _ H) as (Hc & r & a0 & a1 & Hr & Hb).
    split; [done|]. exists r, a0, a1. split; [by right | done].
Qed.

(** X2: an exception that leaves the extraction is one its [except] clause
    does not list, and it is either one [json.loads] raised on the text of an
    order (a [RecursionError] on a document nested too deeply, for one), or a
    [ValueError] (a price or discount that is not a number), an
    [AttributeError] (an item that is not a dictionary) or an
    [OverflowError] (an integer too large for a float). A
    [JSONDecodeError], [KeyError] or [TypeError] never leaves it. *)
Theorem escaping_exceptions
    (json_loads : string -> outcome pyval) (df : DataFrame) (e : exn) :
  extract_line_items_from_orders json_loads df = Raise e ->
  caught e = false /\
  (e = ValueError \/ e = AttributeError \/ e = OverflowError \/
   exists row s, row ∈ iterrows df /\
     getitem row "line_items" = Ok (VStr s) /\ json_loads s = Raise e).
Proof.
  unfold extract_line_items_from_orders.
  destruct (df_empty df || negb (has_column df "line_items")); [done|].
  destruct (rows_loop json_loads (iterrows df) []) as [out|e'] eqn:E; simpl.
  - by destruct out.
  - intros [= <-].
    destruct (rows_loop_raised_by _ _ _ _ E) as (Hc & row & a0 & a1 & Hr & Hb).
    split; [exact Hc|].
    destruct (try_body_raises _ _ _ _ _ Hb)
      as [(s & Hs & Hj) | [-> | [-> | [-> | [-> | ->]]]]]; auto;
      try discriminate Hc.
    right. right. right. by exists row, s.
Qed.

(** A decoder that gives up on the text of the order with a
    [RecursionError], as [json.loads] does on a document nested more deeply
    than the interpreter allows. *)
Lemma escaping_exceptions_witness :
  let deep := fun s : string =>
    if String.eqb s "[[[[1]]]]" then Raise RecursionError else Json.loads s in
  let df := {| columns := order_columns;
               rows := [[VInt 1; VStr "2024-05-01"; VStr "Shopify";
                         VStr "[[[[1]]]]"]] |} in
  extract_line_items_from_orders deep df = Raise RecursionError /\
  caught RecursionError = false /\
  (RecursionError = ValueError \/ RecursionError = AttributeError \/
   RecursionError = OverflowError \/
   exists row s, row ∈ iterrows df /\
     getitem row "line_items" = Ok (VStr s) /\ deep s = Raise RecursionError).
Proof.
  intros deep df.
  assert (E : extract_line_items_from_orders deep df = Raise RecursionError)
    by (vm_compute; reflexivity).
  split; [exact E|].
  exact (escaping_exceptions deep df RecursionError E).
Defined.

(** X3: extraction goes batch by batch. When two frames with the same
    columns are each extracted without an exception, the frame of all their
    orders gives the lines of the first followed by the lines of the
    second. *)
Theorem extract_batches
    (json_loads : string -> outcome pyval) (cols : list string)
    (rows1 rows2 : list (list pyval)) (lines1 lines2 : list product_data) :
  extract_line_items_from_orders json_loads
    {| columns := cols; rows := rows1 |} = Ok lines1 ->
  extract_line_items_from_orders json_loads
    {| columns := cols; rows := rows2 |} = Ok lines2 ->
  extract_line_items_from_orders json_loads
    {| columns := cols; rows := rows1 ++ rows2 |} = Ok (lines1 ++ lines2).
Proof.
  destruct (has_column {| columns := cols; rows := rows1 |} "line_items")
    eqn:Hcol.
  - rewrite !extract_rows_loop by exact Hcol.
    unfold iterrows. cbn [columns rows]. intros H1 H2.
    rewrite map_app, rows_loop_app, H1. simpl.
    by rewrite rows_loop_acc, H2.
  - unfold extract_line_items_from_orders.
    assert (Hc : forall rs,
      has_column {| columns := cols; rows := rs |} "line_items" = false)
      by (intros rs; exact Hcol).
    rewrite !Hc, !orb_true_r. by intros [= <-] [= <-].
Qed.

Lemma extract_batches_witness :
  let a := [VStr "A"; VStr "2024-05-01"; VStr "Shopify";
            VStr (json_text "[{'sku': 'X1', 'price': 10, 'quantity': 2}]")] in
  let b := [VStr "B"; VStr "2024-05-02"; VStr "Amazon";
            VStr (json_text "[{'sku': 'X2', 'price': '5.5', 'quantity': 1}]")] in
  exists lines1 lines2,
    extract_line_items_from_orders Json.loads
      {| columns := order_columns; rows := [a] |} = Ok lines1 /\
    extract_line_items_from_orders Json.loads
      {| columns := order_columns; rows := [b] |} = Ok lines2 /\
    length lines1 = 1%nat /\ length lines2 = 1%nat /\
    extract_line_items_from_orders Json.loads
      {| columns := order_columns; rows := [a] ++ [b] |} =
    Ok (lines1 ++ lines2).
Proof.
  intros a b. eexists _, _.
  assert (H1 : extract_line_items_from_orders Json.loads
                 {| columns := order_columns; rows := [a] |} = Ok _)
    by (vm_compute; reflexivity).
  assert (H2 : extract_line_items_from_orders Json.loads
                 {| columns := order_columns; rows := [b] |} = Ok _)
    by (vm_compute; reflexivity).
  split; [exact H1|]. split; [exact H2|].
  split; [reflexivity|]. split; [reflexivity|].
  exact (extract_batches Json.loads order_columns [a] [b] _ _ H1 H2).
Defined.

(** X4: every line of the result comes from one order of the batch and
    one dictionary among that order's items. The text it carries is theirs:
    an identifier, date or channel of the order that is text, and a SKU, name
    or title of the item that is text, are in the line as they are; an item
    without SKU has ["N/A"], one without name ["Sin nombre"], and one
    without title takes its name, or ["Sin título"] when it has no name
    either. (Values that are not text are subject to the column types
    pandas infers for the frame, which are not described here.) *)
Theorem lines_trace_their_order
    (json_loads : string -> outcome pyval) (df : DataFrame)
    (lines : list product_data) (p : product_data) :
  extract_line_items_from_orders json_loads df = Ok lines ->
  p ∈ lines ->
  exists row items d,
    row ∈ iterrows df /\
    items_of json_loads row = Ok (Some items) /\ VDict d ∈ items /\
    same_text (getitem row "id") (pd_order_id p) /\
    same_text (getitem row "date") (pd_order_date p) /\
    same_text (getitem row "channel") (pd_channel p) /\
    same_text (Ok (dict_get d "sku" (VStr "N/A"))) (pd_sku p) /\
    same_text (Ok (dict_get d "name" (VStr "Sin nombre"))) (pd_name p) /\
    same_text
      (Ok (dict_get d "title" (dict_get d "name" (VStr "Sin título"))))
      (pd_title p).
Proof.
  unfold extract_line_items_from_orders. intros H Hp.
  destruct (df_empty df || negb (has_column df "line_items")).
  { injection H as <-. by apply elem_of_nil in Hp. }
  destruct (rows_loop json_loads (iterrows df) []) as [out|e] eqn:E;
    simpl in H; [| discriminate H].
  assert (lines = out) as -> by (destruct out; congruence).
  destruct (rows_loop_origin _ _ _ _ E) as (new & -> & Hall).
  rewrite Forall_forall in Hall.
  destruct (Hall p Hp) as (row & items & item & Hrow & Hitems & Hitem & Hmk).
  destruct (make_product_data_fields _ _ _ Hmk)
    as (d & -> & H1 & H2 & H3 & _ & _ & _ & H4 & H5 & H6).
  exists row, items, d. split; [done|]. split; [done|]. split; [done|].
  unfold same_text. rewrite H1, H2, H3, H4, H5, H6.
  repeat split; intros s; congruence.
Qed.

Lemma lines_trace_their_order_witness :
  let df := {| columns := order_columns;
               rows := [[VStr "A"; VStr "2024-05-01"; VStr "Shopify";
                         VStr (json_text "[{'title': 'Taza', 'price': 10, 'quantity': 2}]")]] |} in
  exists p,
    extract_line_items_from_orders Json.loads df = Ok [p] /\
    pd_order_id p = VStr "A" /\ pd_sku p = VStr "N/A" /\
    pd_name p = VStr "Sin nombre" /\ pd_title p = VStr "Taza" /\
    exists row, row ∈ iterrows df /\
      same_text (getitem row "id") (pd_order_id p).
Proof.
  intros df. eexists.
  assert (E : extract_line_items_from_orders Json.loads df = Ok [_])
    by (vm_compute; reflexivity).
  split; [exact E|]. repeat (split; [reflexivity|]).
  match type of E with
  | _ = Ok [?p] =>
      destruct (lines_trace_their_order Json.loads df [p] p E)
        as (row & items & d & Hrow & _ & _ & Hid & _); [by left|]
  end.
  exists row. by split.
Defined.

(** X5: the skip is of the rest of an order, not of the whole order. When
    the items before a failing one are turned into lines, those lines stay in
    the result: the [try] body ends with them appended and with the
    exception of the failing item, and if that exception is one the
    [except] clause catches, the loop goes on after them. When no item fails
    the order contributes one line per item, in order. *)
Theorem items_before_failure_kept
    (json_loads : string -> outcome pyval) (row : Series)
    (good rest : list pyval) (bad : pyval) (ps : list product_data)
    (e : exn) :
  items_of json_loads row = Ok (Some (good ++ bad :: rest)) ->
  Forall2 (fun item p => make_product_data row item = Ok p) good ps ->
  make_product_data row bad = Raise e ->
  (forall acc, try_body json_loads row acc = (acc ++ ps, Some e)) /\
  (caught e = true ->
   forall rs acc,
     rows_loop json_loads (row :: rs) acc =
     rows_loop json_loads rs (acc ++ ps)).
Proof.
  intros Hitems Hgood Hbad.
  assert (Hloop : forall acc,
    items_loop row (good ++ bad :: rest) acc = (acc ++ ps, Some e)).
  { clear Hitems.
    induction Hgood as [|item p good ps Hp Hgood IH]; intros acc; simpl.
    - rewrite Hbad. by rewrite app_nil_r.
    - rewrite Hp, IH. by rewrite <- app_assoc. }
  assert (Hbody : forall acc,
    try_body json_loads row acc = (acc ++ ps, Some e)).
  { intros acc. unfold try_body. by rewrite Hitems. }
  split; [exact Hbody|].
  intros Hcaught rs acc. simpl. by rewrite Hbody, Hcaught.
Qed.

Lemma items_before_failure_kept_witness :
  let row := combine order_columns
               [VStr "A"; VStr "2024-05-01"; VStr "Shopify";
                VStr (json_text "[{'sku': 'X1', 'price': 10, 'quantity': 2}, {'sku': 'X2', 'price': 5, 'quantity': 'dos'}, {'sku': 'X3', 'price': 1, 'quantity': 1}]")] in
  exists p,
    pd_sku p = VStr "X1" /\
    forall acc, try_body Json.loads row acc = (acc ++ [p], Some TypeError).
Proof.
  intros row.
  assert (Hitems : items_of Json.loads row =
    Ok (Some ([VDict [("sku", VStr "X1"); ("price", VInt 10);
                      ("quantity", VInt 2)]] ++
              VDict [("sku", VStr "X2"); ("price", VInt 5);
                     ("quantity", VStr "dos")] ::
              [VDict [("sku", VStr "X3"); ("price", VInt 1);
                      ("quantity", VInt 1)]])))
    by (vm_compute; reflexivity).
  eexists. split; [|
    apply (items_before_failure_kept Json.loads row _ _ _ [_] TypeError Hitems);
    [constructor; [vm_compute; reflexivity | constructor]
    | vm_compute; reflexivity]].
  reflexivity.
Defined.

(** ** The ranker: prefixes and units *)

(** X6: a shorter ranking is the beginning of a longer one. For
    [0 <= n <= m] the result for [top_n = n] is the first [n] rows of the
    result for [top_n = m], with the same ranks and the same percentages;
    so the [head(10)] the dashboard draws from a ranking of at least ten is
    the ranking for [top_n = 10]. *)
Theorem top_products_prefix (items_df : list line) (n m : Z) :
  0 <= n -> n <= m ->
  get_top_products items_df n =
  take (Z.to_nat n) (get_top_products items_df m).
Proof.
  intros Hn Hm. unfold get_top_products.
  destruct items_df as [|l items]; [by rewrite take_nil|].
  unfold df_head.
  replace (0 <=? n) with true by (symmetry; apply Z.leb_le; lia).
  replace (0 <=? m) with true by (symmetry; apply Z.leb_le; lia).
  rewrite <- number_rows_take, take_take. f_equal. f_equal. lia.
Qed.

Lemma top_products_prefix_witness :
  0 <= 2 /\ 2 <= 10 /\
  get_top_products three_products 2 =
  take (Z.to_nat 2) (get_top_products three_products 10).
Proof.
  split; [lia|]. split; [lia|].
  apply (top_products_prefix three_products 2 10); lia.
Defined.

Lemma wrap_int64_mod (z : Z) : wrap_int64 z mod 2 ^ 64 = z mod 2 ^ 64.
Proof.
  unfold wrap_int64.
  rewrite Zminus_mod, Z.mod_mod, <- Zminus_mod by lia.
  f_equal. lia.
Qed.

Lemma wrap_int64_congr (x y : Z) :
  x mod 2 ^ 64 = y mod 2 ^ 64 -> wrap_int64 x = wrap_int64 y.
Proof.
  intros H. unfold wrap_int64.
  rewrite (Zplus_mod x), (Zplus_mod y), H. reflexivity.
Qed.

Lemma sum_int64_from (zs : list Z) (a : Z) :
  fold_left (fun acc z => wrap_int64 (acc + z)) zs (wrap_int64 a) =
  wrap_int64 (a + Zsum zs).
Proof.
  revert a. induction zs as [|z zs IH]; intros a; simpl.
  - by rewrite Z.add_0_r.
  - rewrite (wrap_int64_congr (wrap_int64 a + z) (a + z)).
    + rewrite IH. f_equal. lia.
    + rewrite Zplus_mod, wrap_int64_mod, <- Zplus_mod. reflexivity.
Qed.

Lemma sum_int64_Zsum (zs : list Z) : sum_int64 zs = wrap_int64 (Zsum zs).
Proof.
  unfold sum_int64. change 0 with (wrap_int64 0) at 1.
  by rewrite sum_int64_from.
Qed.

Lemma Zsum_Permutation (l k : list Z) : l ≡ₚ k -> Zsum l = Zsum k.
Proof. induction 1; simpl; lia. Qed.

Lemma Zsum_app (l k : list Z) : Zsum (l ++ k) = Zsum l + Zsum k.
Proof. induction l; simpl; lia. Qed.

(** The quantity of a line counts once among the groups of distinct keys
    that include its key. *)
Lemma Zsum_one_key (ks : list key) (k0 : key) (q : Z) :
  NoDup ks -> k0 ∈ ks ->
  Zsum (map (fun k => if key_eqb k k0 then q else 0) ks) = q.
Proof.
  induction 1 as [|k ks Hk Hnd IH]; intros Hin.
  - by apply elem_of_nil in Hin.
  - simpl. destruct (key_eqb k k0) eqn:E.
    + apply key_eqb_eq in E. subst k0.
      assert (H0 : Zsum (map (fun k' => if key_eqb k' k then q else 0) ks) = 0).
      { clear IH Hin Hnd. induction ks as [|k' ks IH]; [done|]. simpl.
        destruct (key_eqb k' k) eqn:E'.
        - apply key_eqb_eq in E'. subst k'. exfalso. apply Hk. by left.
        - rewrite IH; [lia|]. intros H. apply Hk. by right. }
      lia.
    + apply elem_of_cons in Hin as [->|Hin].
      * assert (key_eqb k k = true) by by apply key_eqb_eq. congruence.
      * rewrite IH by done. lia.
Qed.

Lemma Zsum_groups (ks : list key) (items_df : list line) :
  NoDup ks ->
  (forall l k, l ∈ items_df -> key_of l = Some k -> k ∈ ks) ->
  Zsum (map (fun k => Zsum (map quantity (group_of k items_df))) ks) =
  Zsum (map quantity (List.filter has_keys items_df)).
Proof.
  intros Hnd. induction items_df as [|l items IH]; intros Hin.
  - clear. induction ks as [|k ks IHk]; [done|]. simpl in *. by rewrite IHk.
  - specialize (IH (fun l' k Hl' => Hin l' k (list_elem_of_further _ _ _ Hl'))).
    unfold group_of in *. cbn [List.filter].
    unfold has_keys at 1, has_key at 1.
    destruct (key_of l) as [k0|] eqn:E.
    + change (Zsum (map quantity (l :: List.filter has_keys items))) with
        (quantity l + Zsum (map quantity (List.filter has_keys items))).
      rewrite <- IH.
      rewrite <- (Zsum_one_key ks k0 (quantity l) Hnd)
        by (apply (Hin l); [by left | done]).
      clear. induction ks as [|k ks IHk]; [done|]. simpl.
      destruct (key_eqb k k0); simpl; lia.
    + rewrite <- IH. f_equal.
Qed.

Lemma Zsum_wrapped (zss : list (list Z)) :
  Zsum (map sum_int64 zss) mod 2 ^ 64 = Zsum (map Zsum zss) mod 2 ^ 64.
Proof.
  induction zss as [|zs zss IH]; [done|]. simpl.
  rewrite Zplus_mod, IH, sum_int64_Zsum, wrap_int64_mod, <- Zplus_mod.
  reflexivity.
Qed.

Lemma filter_all {A} (f : A -> bool) (l : list A) :
  Forall (fun x => f x = true) l -> List.filter f l = l.
Proof.
  induction 1 as [|x l Hx _ IH]; simpl; [done|]. by rewrite Hx, IH.
Qed.

(** X7: the ranking accounts for the units of every line that has its
    keys. With [keys] the pairs (SKU, name) of the lines, each once, and
    [top_n] at least their number (no group is cut off), the [int64] sum of
    the [Unidades] column of the result is the [int64] sum of the
    quantities of the lines that have both a SKU and a name. When every line
    has them, this is the sum of the whole [quantity] column, the total the
    dashboard shows as units sold; the units of a line with a null key are
    in that total and not in the ranking. *)
Theorem units_accounted (items_df : list line) (top_n : Z)
    (keys : list key) :
  lists_pairs items_df keys -> Z.of_nat (length keys) <= top_n ->
  sum_int64 (map Unidades (get_top_products items_df top_n)) =
    sum_int64 (map quantity (List.filter has_keys items_df)) /\
  (Forall (fun l => has_keys l = true) items_df ->
   sum_int64 (map Unidades (get_top_products items_df top_n)) =
     sum_int64 (map quantity items_df)).
Proof.
  intros Hkeys Hn.
  rewrite (lists_pairs_length _ _ Hkeys) in Hn.
  assert (H : sum_int64 (map Unidades (get_top_products items_df top_n)) =
              sum_int64 (map quantity (List.filter has_keys items_df))).
  { destruct (get_top_products_rows items_df top_n)
      as (top & -> & [k ->] & Hlen).
    destruct (number_rows_spec (take k (with_pct items_df)))
      as (_ & _ & _ & -> & _).
    rewrite length_take, length_with_pct in Hlen.
    assert (Hk : (num_groups items_df <= k)%nat)
      by (destruct (Z.leb_spec 0 top_n); lia).
    rewrite take_ge by (rewrite length_with_pct; exact Hk).
    rewrite <- (map_map fst quantity), map_fst_with_pct.
    rewrite !sum_int64_Zsum. apply wrap_int64_congr.
    rewrite (Zsum_Permutation _ (map quantity (groupby_sum items_df)))
      by (apply Permutation_map, sort_values_desc_Permutation).
    unfold groupby_sum. rewrite map_map. simpl.
    rewrite <- (map_map (fun k0 => map quantity (group_of k0 items_df))
                        sum_int64).
    rewrite Zsum_wrapped, map_map. f_equal.
    apply Zsum_groups; [apply NoDup_group_keys|].
    intros l k0 Hl Hk0. apply elem_of_group_keys. by exists l. }
  split; [exact H|].
  intros Hall. by rewrite H, filter_all.
Qed.

Lemma units_accounted_witness :
  let keys := [("X1", "Widget"); ("X1", "Widget (blue)")] in
  lists_pairs two_names keys /\ Z.of_nat (length keys) <= 5 /\
  sum_int64 (map Unidades (get_top_products two_names 5)) = 6 /\
  sum_int64 (map quantity two_names) = 6.
Proof.
  intros keys.
  assert (Hn : Z.of_nat (length keys) <= 5) by (simpl; lia).
  split; [exact two_names_pairs|]. split; [exact Hn|].
  assert (H : sum_int64 (map quantity two_names) = 6) by reflexivity.
  split; [|exact H].
  rewrite <- H.
  apply (units_accounted two_names 5 keys two_names_pairs Hn).
  repeat constructor.
Defined.

(** ** Formatting: what it keeps, and formatting twice *)

Lemma apply_length (f : cell -> outcome cell) (col col' : list cell) :
  apply f col = Ok col' -> length col' = length col.
Proof.
  revert col'. induction col as [|c col IH]; intros col'; simpl.
  - by intros [= <-].
  - destruct (f c) as [c'|]; simpl; [|done].
    destruct (apply f col) as [col''|]; simpl; [|done].
    intros [= <-]. simpl. f_equal. by apply IH.
Qed.

Lemma apply_Forall (f : cell -> outcome cell) (P : cell -> Prop)
    (col col' : list cell) :
  (forall c c', f c = Ok c' -> P c') ->
  apply f col = Ok col' -> Forall P col'.
Proof.
  intros Hf. revert col'. induction col as [|c col IH]; intros col'; simpl.
  - intros [= <-]. constructor.
  - destruct (f c) as [c'|] eqn:E; simpl; [|done].
    destruct (apply f col) as [col''|]; simpl; [|done].
    intros [= <-]. constructor; [by eapply Hf | by apply IH].
Qed.

Lemma apply_raises (f : cell -> outcome cell) (col : list cell) (e : exn) :
  apply f col = Raise e -> exists c, c ∈ col /\ f c = Raise e.
Proof.
  induction col as [|c col IH]; simpl; [done|].
  destruct (f c) as [c'|e'] eqn:E; simpl.
  - destruct (apply f col) as [col''|e'']; simpl; [done|].
    intros [= <-]. destruct IH as (c0 & ? & ?); [done|].
    exists c0. split; [by right | done].
  - intros [= <-]. exists c. split; [by left | done].
Qed.

Lemma float_of_cell_raises (c : cell) (e : exn) :
  float_of_cell c = Raise e ->
  e = ValueError \/ e = OverflowError \/ e = TypeError.
Proof.
  destruct c as [z|f|s|b|]; simpl; try (intros [= <-]; auto); try done.
  unfold PyFloat.of_int.
  destruct (binary_normalize prec emax z 0 false); intros [= <-]; auto.
Qed.

Lemma int_of_str_raises (s : string) (e : exn) :
  Fmt.int_of_str s = Raise e -> e = ValueError.
Proof.
  unfold Fmt.int_of_str.
  repeat match goal with
         | |- context [match ?x with _ => _ end] => destruct x
         end; simpl; congruence.
Qed.

Lemma fmt_raises (c : cell) (e : exn) :
  fmt_ventas c = Raise e \/ fmt_pct c = Raise e \/ fmt_unidades c = Raise e ->
  e = ValueError \/ e = OverflowError \/ e = TypeError.
Proof.
  unfold fmt_ventas, fmt_pct, fmt_unidades.
  intros [H | [H | H]].
  - destruct (float_of_cell c) eqn:E; [done|]. injection H as ->.
    by eapply float_of_cell_raises.
  - destruct (float_of_cell c) eqn:E; [done|]. injection H as ->.
    by eapply float_of_cell_raises.
  - destruct c as [z|f|s|b|]; simpl in H; try done.
    + unfold Fmt.int_of_float in H.
      destruct (Prim2SF f); simpl in H; try done; injection H as <-; auto.
    + destruct (Fmt.int_of_str s) as [n|e'] eqn:E; simpl in H; [done|].
      injection H as ->. left. by eapply int_of_str_raises.
    + injection H as <-. auto.
Qed.

Lemma fmt_text (c c' : cell) :
  fmt_ventas c = Ok c' \/ fmt_pct c = Ok c' \/ fmt_unidades c = Ok c' ->
  exists s, c' = CStr s.
Proof.
  unfold fmt_ventas, fmt_pct, fmt_unidades.
  intros [H | [H | H]].
  - destruct (float_of_cell c); [|done]. injection H as <-. eauto.
  - destruct (float_of_cell c); [|done]. injection H as <-. eauto.
  - destruct (match c with
              | CInt z => Ok z
              | CFloat f => Fmt.int_of_float f
              | CStr s => Fmt.int_of_str s
              | CBool b => Ok (if b then 1 else 0)
              | CNone => Raise TypeError
              end); [|done].
    injection H as <-. eauto.
Qed.

Lemma zip_with_set_shape (set : table_row -> cell -> table_row)
    (t : list table_row) (col : list cell) :
  (forall r c, t_index (set r c) = t_index r /\ t_SKU (set r c) = t_SKU r /\
               t_Producto (set r c) = t_Producto r) ->
  length col = length t ->
  length (zip_with set t col) = length t /\
  map t_index (zip_with set t col) = map t_index t /\
  map t_SKU (zip_with set t col) = map t_SKU t /\
  map t_Producto (zip_with set t col) = map t_Producto t.
Proof.
  intros Hset. revert col. induction t as [|r t IH]; intros [|c col] Hlen;
    try done.
  simpl in Hlen. destruct (IH col) as (H1 & H2 & H3 & H4); [lia|].
  destruct (Hset r c) as (E1 & E2 & E3).
  simpl. by rewrite H1, H2, H3, H4, E1, E2, E3.
Qed.

Lemma zip_with_set_column (set : table_row -> cell -> table_row)
    (get : table_row -> cell) (t : list table_row) (col : list cell) :
  (forall r c, get (set r c) = c) -> length col = length t ->
  map get (zip_with set t col) = col.
Proof.
  intros Hset. revert col. induction t as [|r t IH]; intros [|c col] Hlen;
    try done.
  simpl in *. rewrite Hset, IH; [done | lia].
Qed.

Lemma zip_with_set_other (set : table_row -> cell -> table_row)
    (get : table_row -> cell) (t : list table_row) (col : list cell) :
  (forall r c, get (set r c) = get r) -> length col = length t ->
  map get (zip_with set t col) = map get t.
Proof.
  intros Hset. revert col. induction t as [|r t IH]; intros [|c col] Hlen;
    try done.
  simpl in *. rewrite Hset, IH; [done | lia].
Qed.

(** What [format_columns] leaves of a frame, whatever its cells are. *)
Lemma format_columns_shape (t : list table_row) :
  exists t' oe,
    format_columns t = (t', oe) /\
    length t' = length t /\
    map t_index t' = map t_index t /\
    map t_SKU t' = map t_SKU t /\
    map t_Producto t' = map t_Producto t /\
    match oe with
    | None =>
        Forall (fun r => exists u v p, t_Unidades r = CStr u /\
                           t_Ventas r = CStr v /\ t_PctTotal r = CStr p) t'
    | Some e => e = ValueError \/ e = OverflowError \/ e = TypeError
    end.
Proof.
  unfold format_columns.
  destruct (apply fmt_ventas (map t_Ventas t)) as [ventas|e] eqn:E1.
  2: { exists t, (Some e). repeat split.
       apply apply_raises in E1 as (c & _ & Hc). apply (fmt_raises c). auto. }
  pose proof (apply_length _ _ _ E1) as L1. rewrite length_map in L1.
  destruct (zip_with_set_shape set_Ventas t ventas) as (A1 & A2 & A3 & A4);
    [done | done |].
  set (t1 := zip_with set_Ventas t ventas) in *.
  destruct (apply fmt_pct (map t_PctTotal t1)) as [pct|e] eqn:E2.
  2: { exists t1, (Some e). repeat split; try done.
       apply apply_raises in E2 as (c & _ & Hc). apply (fmt_raises c). auto. }
  pose proof (apply_length _ _ _ E2) as L2. rewrite length_map in L2.
  destruct (zip_with_set_shape set_PctTotal t1 pct) as (B1 & B2 & B3 & B4);
    [done | done |].
  set (t2 := zip_with set_PctTotal t1 pct) in *.
  destruct (apply fmt_unidades (map t_Unidades t2)) as [unidades|e] eqn:E3.
  2: { exists t2, (Some e). repeat split; try congruence.
       apply apply_raises in E3 as (c & _ & Hc). apply (fmt_raises c). auto. }
  pose proof (apply_length _ _ _ E3) as L3. rewrite length_map in L3.
  destruct (zip_with_set_shape set_Unidades t2 unidades)
    as (C1 & C2 & C3 & C4); [done | done |].
  set (t3 := zip_with set_Unidades t2 unidades) in *.
  exists t3, None. repeat split; try congruence.
  assert (HU : map t_Unidades t3 = unidades)
    by (apply zip_with_set_column; done).
  assert (HP : map t_PctTotal t3 = pct).
  { unfold t3. rewrite (zip_with_set_other set_Unidades t_PctTotal) by done.
    apply zip_with_set_column; done. }
  assert (HV : map t_Ventas t3 = ventas).
  { unfold t3, t2.
    rewrite (zip_with_set_other set_Unidades t_Ventas) by done.
    rewrite (zip_with_set_other set_PctTotal t_Ventas) by done.
    apply zip_with_set_column; done. }
  assert (FU : Forall (fun c => exists s, c = CStr s) (map t_Unidades t3)).
  { rewrite HU. eapply apply_Forall; [|exact E3].
    intros c c' Hc. apply (fmt_text c). auto. }
  assert (FP : Forall (fun c => exists s, c = CStr s) (map t_PctTotal t3)).
  { rewrite HP. eapply apply_Forall; [|exact E2].
    intros c c' Hc. apply (fmt_text c). auto. }
  assert (FV : Forall (fun c => exists s, c = CStr s) (map t_Ventas t3)).
  { rewrite HV. eapply apply_Forall; [|exact E1].
    intros c c' Hc. apply (fmt_text c). auto. }
  rewrite Forall_fmap in FU, FP, FV. rewrite Forall_forall in *.
  intros r Hr.
  destruct (FU r Hr) as [u Hu], (FV r Hr) as [v Hv], (FP r Hr) as [p Hp].
  simpl in *. by exists u, v, p.
Qed.

(** X8: formatting keeps the shape of the frame, whatever its cells hold
    (numbers, text, booleans or [None]) and whether it succeeds or not. The
    frame has the same number of rows afterwards, in the same order, with
    the same labels, SKUs and product names; the call returns the frame it
    was given or raises the exception of the first cell that cannot be
    formatted: [ValueError] (text, or a NaN count), [OverflowError] (an
    infinite count, an integer too large for a float) or [TypeError]
    ([None]); and when it returns, the three formatted columns hold text in
    every row. *)
Theorem format_keeps_shape (h : store) (df : loc) (t : list table_row) :
  h !! df = Some (Table t) ->
  exists t' res,
    format_product_table df h = Some (<[df := Table t']> h, res) /\
    length t' = length t /\
    map t_index t' = map t_index t /\
    map t_SKU t' = map t_SKU t /\
    map t_Producto t' = map t_Producto t /\
    (res = Ok df \/ res = Raise ValueError \/ res = Raise OverflowError \/
     res = Raise TypeError) /\
    (res = Ok df ->
     Forall (fun r => exists u v p, t_Unidades r = CStr u /\
                        t_Ventas r = CStr v /\ t_PctTotal r = CStr p) t').
Proof.
  intros Hdf. unfold format_product_table. rewrite Hdf.
  destruct t as [|r t].
  { exists [], (Ok df). rewrite insert_id by done.
    repeat split; auto. }
  destruct (format_columns_shape (r :: t))
    as (t' & oe & -> & Hlen & Hi & Hs & Hp & Hoe).
  destruct oe as [e|].
  - exists t', (Raise e). repeat split; try done.
    destruct Hoe as [-> | [-> | ->]]; auto.
  - exists t', (Ok df). repeat split; auto.
Qed.

Lemma format_keeps_shape_witness :
  let t := [{| t_index := 1; t_SKU := "B"; t_Producto := "Beta";
               t_Unidades := CInt 3; t_Ventas := CNone;
               t_PctTotal := CFloat 62.5 |}] in
  let h : store := {[ 1%positive := Table t ]} in
  h !! 1%positive = Some (Table t) /\
  format_product_table 1%positive h = Some (h, Raise TypeError) /\
  exists t' res,
    format_product_table 1%positive h = Some (<[1%positive := Table t']> h, res) /\
    length t' = length t.
Proof.
  intros t h.
  assert (H : h !! 1%positive = Some (Table t)) by reflexivity.
  split; [exact H|]. split; [vm_compute; reflexivity|].
  destruct (format_keeps_shape h 1%positive t H) as (t' & res & Hf & Hl & _).
  by exists t', res.
Defined.

(** X9: formatting is not to be repeated. After a first call on a table of
    [get_top_products] that is not empty, a second call on the same frame
    raises [ValueError] (the cells are text by then) and leaves the frame as
    the first call left it. *)
Theorem format_twice_raises (h : store) (df : loc)
    (rows : list product_row) :
  h !! df = Some (Table (map row_cells rows)) -> rows <> [] ->
  exists h1,
    format_product_table df h = Some (h1, Ok df) /\
    h1 !! df = Some (Table (map formatted rows)) /\
    format_product_table df h1 = Some (h1, Raise ValueError).
Proof.
  intros Hdf Hne.
  exists (<[df := Table (map formatted rows)]> h).
  split; [by apply format_product_table_rows|].
  assert (H1 : (<[df := Table (map formatted rows)]> h) !! df =
               Some (Table (map formatted rows)))
    by apply lookup_insert_eq.
  split; [exact H1|].
  unfold format_product_table. rewrite H1.
  destruct rows as [|r rows]; [done|].
  change (map formatted (r :: rows)) with (formatted r :: map formatted rows).
  cbv iota beta.
  assert (Hc : format_columns (formatted r :: map formatted rows) =
               (formatted r :: map formatted rows, Some ValueError))
    by reflexivity.
  rewrite Hc. by rewrite insert_id.
Qed.

Lemma format_twice_raises_witness :
  let h : store := {[ 1%positive := Table (map row_cells top_two) ]} in
  h !! 1%positive = Some (Table (map row_cells top_two)) /\ top_two <> [] /\
  exists h1,
    format_product_table 1%positive h = Some (h1, Ok 1%positive) /\
    format_product_table 1%positive h1 = Some (h1, Raise ValueError).
Proof.
  intros h.
  assert (H : h !! 1%positive = Some (Table (map row_cells top_two)))
    by reflexivity.
  assert (Hne : top_two <> []) by discriminate.
  split; [exact H|]. split; [exact Hne|].
  destruct (format_twice_raises h 1%positive top_two H Hne)
    as (h1 & H1 & _ & H2).
  by exists h1.
Defined.

(** X10: the ranking survives its display. The products tab ranks the
    lines, copies the ranking and formats the copy. The three calls succeed
    one after the other; afterwards the display frame holds the formatted
    rows, the ranking itself still holds its numbers, so that the chart
    drawn from it later reads numbers and not text, and the frame of the
    lines is as it was. *)
Theorem ranking_survives_display (h : store) (items_df : loc)
    (items : list line) (top_n : Z) :
  h !! items_df = Some (Items items) ->
  exists h1 top_products h2 display_df h3,
    get_top_products_obj items_df top_n h = Some (h1, Ok top_products) /\
    copy top_products h1 = Some (h2, display_df) /\
    format_product_table display_df h2 = Some (h3, Ok display_df) /\
    display_df <> top_products /\
    h3 !! top_products =
      Some (Table (map row_cells (get_top_products items top_n))) /\
    h3 !! display_df =
      Some (Table (map formatted (get_top_products items top_n))) /\
    h3 !! items_df = Some (Items items).
Proof.
  intros Hdf.
  set (t := Table (map row_cells (get_top_products items top_n))).
  set (r := fresh (dom h)).
  assert (Hr : h !! r = None) by apply not_elem_of_dom, is_fresh.
  assert (Hri : r <> items_df) by (intros E; rewrite E in Hr; congruence).
  set (h1 := <[r := t]> h).
  assert (H1r : h1 !! r = Some t) by apply lookup_insert_eq.
  set (c := fresh (dom h1)).
  assert (Hc : h1 !! c = None) by apply not_elem_of_dom, is_fresh.
  assert (Hcr : c <> r) by (intros E; rewrite E in Hc; congruence).
  assert (Hci : c <> items_df).
  { intros E. rewrite E in Hc. unfold h1 in Hc.
    rewrite lookup_insert_ne in Hc by done. congruence. }
  set (h2 := <[c := t]> h1).
  assert (H2c : h2 !! c = Some t) by apply lookup_insert_eq.
  exists h1, r, h2, c,
    (<[c := Table (map formatted (get_top_products items top_n))]> h2).
  split.
  { unfold get_top_products_obj. by rewrite Hdf. }
  split.
  { unfold copy. by rewrite H1r. }
  split.
  { by apply format_product_table_rows. }
  split; [done|].
  split.
  { rewrite lookup_insert_ne by done. unfold h2.
    by rewrite lookup_insert_ne. }
  split.
  { apply lookup_insert_eq. }
  rewrite lookup_insert_ne by done. unfold h2.
  rewrite lookup_insert_ne by done. unfold h1.
  by rewrite lookup_insert_ne.
Qed.

Lemma ranking_survives_display_witness :
  let h : store := {[ 1%positive := Items three_products ]} in
  h !! 1%positive = Some (Items three_products) /\
  exists h1 top_products h2 display_df h3,
    get_top_products_obj 1%positive 2 h = Some (h1, Ok top_products) /\
    copy top_products h1 = Some (h2, display_df) /\
    format_product_table display_df h2 = Some (h3, Ok display_df) /\
    display_df <> top_products /\
    h3 !! top_products =
      Some (Table (map row_cells (get_top_products three_products 2))) /\
    h3 !! display_df =
      Some (Table (map formatted (get_top_products three_products 2))) /\
    h3 !! 1%positive = Some (Items three_products).
Proof.
  intros h.
  assert (H : h !! 1%positive = Some (Items three_products))
    by reflexivity.
  split; [exact H|].
  apply (ranking_survives_display h 1%positive three_products 2 H).
Defined.

(** ** The dashboard: dates, KPIs and charts *)

Ltac date_cases :=
  unfold date_leb, date_eqb, date_compare, first_day_month in *;
  cbn [d_year d_month d_day] in *;
  repeat match goal with
         | H : context [?x ?= ?y] |- _ => destruct (Z.compare_spec x y)
         | |- context [?x ?= ?y] => destruct (Z.compare_spec x y)
         end;
  subst; try lia; try congruence; try done.

Lemma date_leb_trans (a b c : date) :
  date_leb a b = true -> date_leb b c = true -> date_leb a c = true.
Proof. destruct a, b, c. date_cases. Qed.

Lemma date_leb_total (a b : date) :
  date_leb a b = false -> date_leb b a = true.
Proof. destruct a, b. date_cases. Qed.

Lemma date_eqb_eq (a b : date) : date_eqb a b = true <-> a = b.
Proof.
  destruct a, b. split.
  - date_cases.
  - intros [= -> -> ->]. unfold date_eqb, date_compare. simpl.
    by rewrite !Z.compare_refl.
Qed.

Lemma date_leb_lt (a b : date) :
  date_leb a b = true -> a <> b -> date_compare a b = Lt.
Proof.
  intros H Hne. unfold date_leb in H.
  destruct (date_compare a b) eqn:E; try done.
  exfalso. apply Hne. apply date_eqb_eq. unfold date_eqb. by rewrite E.
Qed.

Lemma first_day_month_leb (today : date) :
  1 <= d_day today -> date_leb (first_day_month today) today = true.
Proof. destruct today. cbn [d_day]. intros H. date_cases. Qed.

Lemma length_filter_mono {A} (f g : A -> bool) (l : list A) :
  (forall x, f x = true -> g x = true) ->
  (length (List.filter f l) <= length (List.filter g l))%nat.
Proof.
  intros H. induction l as [|x l IH]; simpl; [done|].
  destruct (f x) eqn:E.
  - rewrite (H x E). simpl. lia.
  - destruct (g x); simpl; lia.
Qed.

Lemma in_period_mono (s1 e1 s2 e2 : date) (o : order) :
  date_leb s2 s1 = true -> date_leb e1 e2 = true ->
  in_period s1 e1 o = true -> in_period s2 e2 o = true.
Proof.
  unfold in_period. intros Hs He [H1 H2]%andb_true_iff.
  apply andb_true_iff. split; by eapply date_leb_trans.
Qed.

Lemma num_ordenes_mono (df : list order) (s1 e1 s2 e2 : date) :
  date_leb s2 s1 = true -> date_leb e1 e2 = true ->
  num_ordenes (calculate_kpis df s1 e1) <= num_ordenes (calculate_kpis df s2 e2).
Proof.
  intros Hs He. unfold calculate_kpis. destruct df as [|o df]; [done|].
  cbn [num_ordenes]. apply Nat2Z.inj_le, length_filter_mono.
  intros x. by apply in_period_mono.
Qed.

(** X11: a narrower period never has more orders. If a period lies within
    another one (it starts no earlier and ends no later), its order count is
    at most the other's. *)
Theorem orders_in_narrower_period (df : list order) (s1 e1 s2 e2 : date) :
  date_leb s2 s1 = true -> date_leb e1 e2 = true ->
  num_ordenes (calculate_kpis df s1 e1) <=
  num_ordenes (calculate_kpis df s2 e2).
Proof. apply num_ordenes_mono. Qed.

Lemma orders_in_narrower_period_witness :
  let d1 := {| d_year := 2024; d_month := 5; d_day := 1 |} in
  let d3 := {| d_year := 2024; d_month := 5; d_day := 3 |} in
  let d31 := {| d_year := 2024; d_month := 5; d_day := 31 |} in
  date_leb d1 d3 = true /\ date_leb d3 d31 = true /\
  num_ordenes (calculate_kpis may_orders d3 d3) = 2 /\
  num_ordenes (calculate_kpis may_orders d1 d31) = 4 /\
  num_ordenes (calculate_kpis may_orders d3 d3) <=
  num_ordenes (calculate_kpis may_orders d1 d31).
Proof.
  intros d1 d3 d31.
  assert (H1 : date_leb d1 d3 = true) by reflexivity.
  assert (H2 : date_leb d3 d31 = true) by reflexivity.
  split; [exact H1|]. split; [exact H2|].
  split; [reflexivity|]. split; [reflexivity|].
  exact (orders_in_narrower_period may_orders d3 d3 d1 d31 H1 H2).
Defined.

(** X12: the overview never shows more orders for today than for the
    month. The month runs from [today.replace(day=1)] to today, and the
    count for that period is at least the count for today alone. *)
Theorem orders_today_within_month (df : list order) (today : date) :
  1 <= d_day today ->
  num_ordenes (calculate_kpis df today today) <=
  num_ordenes (calculate_kpis df (first_day_month today) today).
Proof.
  intros Hday. apply num_ordenes_mono.
  - by apply first_day_month_leb.
  - destruct today. date_cases.
Qed.

Lemma orders_today_within_month_witness :
  let today := {| d_year := 2024; d_month := 5; d_day := 3 |} in
  1 <= d_day today /\
  num_ordenes (calculate_kpis may_orders today today) <=
  num_ordenes (calculate_kpis may_orders (first_day_month today) today).
Proof.
  intros today. split; [simpl; lia|].
  apply (orders_today_within_month may_orders today). simpl. lia.
Defined.

Lemma filter_none {A} (f : A -> bool) (l : list A) :
  (forall x, f x = false) -> List.filter f l = [].
Proof.
  intros H. induction l as [|x l IH]; simpl; [done|]. by rewrite H.
Qed.

Lemma length_filter_le {A} (f : A -> bool) (l : list A) :
  (length (List.filter f l) <= length l)%nat.
Proof.
  induction l as [|x l IH]; simpl; [done|]. destruct (f x); simpl; lia.
Qed.

(** X13: the KPIs never divide by zero and can always be shown. The count
    lies between 0 and the number of orders; a period that ends before it
    starts has no order; without orders in the period the average ticket is
    the integer 0 and the total is zero; with orders the ticket is the total
    divided by the count; and in every case [format_currency] renders the
    total and the ticket without raising. *)
Theorem kpis_guarded (df : list order) (period_start period_end : date) :
  let k := calculate_kpis df period_start period_end in
  0 <= num_ordenes k <= Z.of_nat (length df) /\
  (date_leb period_start period_end = false -> num_ordenes k = 0) /\
  (num_ordenes k = 0 ->
   ticket_promedio k = VInt 0 /\
   (ventas_total k = VInt 0 \/ ventas_total k = VFloat 0)) /\
  (0 < num_ordenes k ->
   exists v, ventas_total k = VFloat v /\
     ticket_promedio k = VFloat (v / float_of_Z (num_ordenes k))) /\
  (exists s1 s2, format_currency (ventas_total k) = Ok s1 /\
                 format_currency (ticket_promedio k) = Ok s2).
Proof.
  intros k. subst k. unfold calculate_kpis.
  destruct df as [|o df].
  { cbn. repeat split; try lia; auto. eauto. }
  set (period_df := List.filter (in_period period_start period_end) (o :: df)).
  cbn [num_ordenes ventas_total ticket_promedio].
  split; [|split; [|split; [|split]]].
  - pose proof (length_filter_le (in_period period_start period_end) (o :: df)).
    fold period_df in H. lia.
  - intros Hinv.
    assert (period_df = []) as ->; [|done].
    apply filter_none. intros x. unfold in_period.
    destruct (date_leb period_start (o_date x)) eqn:E1; [|done].
    destruct (date_leb (o_date x) period_end) eqn:E2; [|done].
    rewrite (date_leb_trans _ _ _ E1 E2) in Hinv. done.
  - intros H0.
    assert (period_df = []) as ->
      by (apply length_zero_iff_nil; lia).
    split; [reflexivity | right; reflexivity].
  - intros Hpos. eexists. split; [reflexivity|].
    by replace (0 <? Z.of_nat (length period_df)) with true
      by (symmetry; apply Z.ltb_lt; lia).
  - destruct (0 <? Z.of_nat (length period_df)); simpl; eauto.
Qed.

Lemma kpis_guarded_witness :
  let s := {| d_year := 2024; d_month := 6; d_day := 1 |} in
  let e := {| d_year := 2024; d_month := 5; d_day := 3 |} in
  date_leb s e = false /\
  num_ordenes (calculate_kpis may_orders s e) = 0 /\
  format_currency (ticket_promedio (calculate_kpis may_orders s e)) =
    Ok "$0.00 MXN".
Proof.
  intros s e.
  assert (H : date_leb s e = false) by reflexivity.
  split; [exact H|].
  destruct (kpis_guarded may_orders s e) as (_ & H0 & _).
  split; [exact (H0 H) | reflexivity].
Defined.

Section DistinctFacts.
Context {A : Type} (eqb : A -> A -> bool).
Hypothesis eqb_eq : forall x y, eqb x y = true <-> x = y.

Lemma elem_of_distinct_by (l : list A) (x : A) :
  x ∈ distinct_by eqb l <-> x ∈ l.
Proof.
  induction l as [|y l IH]; simpl; [done|].
  rewrite !elem_of_cons, elem_of_filter_bool, IH.
  split; [intros [?|[? _]]; auto|].
  intros [->|H]; [by left|].
  destruct (eqb y x) eqn:E.
  - left. symmetry. by apply eqb_eq.
  - by right.
Qed.

Lemma NoDup_distinct_by (l : list A) : NoDup (distinct_by eqb l).
Proof.
  induction l as [|x l IH]; simpl; constructor.
  - rewrite elem_of_filter_bool. intros [_ H]. cbv beta in H.
    apply negb_true_iff in H.
    assert (eqb x x = true) by by apply eqb_eq. congruence.
  - apply NoDup_ListNoDup, List.NoDup_filter. by apply NoDup_ListNoDup.
Qed.

End DistinctFacts.

Lemma channel_sums_keys (df : list order) :
  NoDup (map fst (channel_sums df)) /\
  forall ch, ch ∈ map fst (channel_sums df) <->
             exists o, o ∈ df /\ o_channel o = ch.
Proof.
  unfold channel_sums. rewrite map_map. simpl. rewrite map_id.
  split.
  - rewrite sort_by_Permutation. apply NoDup_distinct_by, String.eqb_eq.
  - intros ch. rewrite sort_by_Permutation.
    rewrite (elem_of_distinct_by _ String.eqb_eq), list_elem_of_fmap.
    split; intros (o & ? & ?); exists o; auto.
Qed.

Lemma channel_sales_Permutation (df : list order) :
  channel_sales df ≡ₚ channel_sums df.
Proof. apply sort_by_Permutation. Qed.

Lemma channel_sales_sorted (df : list order) :
  StronglySorted (fun x y => desc_leb x y = true) (map snd (channel_sales df)).
Proof.
  apply StronglySorted_map.
  apply (sort_by_sorted (fun a b : string * float => desc_leb (snd a) (snd b))).
  - intros x y. apply FloatOrder.desc_leb_total.
  - intros x y z. apply FloatOrder.desc_leb_trans.
Qed.

Lemma channel_color_in_palette (ch : string) :
  channel_color ch ∈ map snd CHANNEL_COLORS.
Proof.
  unfold channel_color, CHANNEL_COLORS, assoc.
  repeat match goal with
         | |- context [String.eqb ch ?k] => destruct (String.eqb ch k)
         end; simpl; repeat (first [by left | right]).
Qed.

(** X14: the bars of the channel chart. For a frame that is not empty the
    figure has one bar per channel of the frame, no channel twice; the bar of
    a channel carries pandas' group sum of the prices of that channel's
    orders, taken in the order of the frame; the bars go from the largest sum
    down (a later bar never has the larger sum); every bar is coloured with
    its channel's colour of the palette, a channel the palette does not know
    with the colour of "Otro"; and its label is the sum as currency. *)
Theorem channel_chart_bars (df : list order) (title : string) :
  df <> [] ->
  exists b lay,
    create_channel_bar_chart df title = BarFigure b lay /\
    NoDup (bar_y b) /\
    (forall ch, ch ∈ bar_y b <-> exists o, o ∈ df /\ o_channel o = ch) /\
    length (bar_x b) = length (bar_y b) /\
    (forall (i : nat) ch x,
       bar_y b !! i = Some ch -> bar_x b !! i = Some x ->
       x = group_sum (map o_total_price
             (List.filter (fun o => String.eqb ch (o_channel o)) df))) /\
    (forall (i j : nat) x y,
       bar_x b !! i = Some x -> bar_x b !! j = Some y -> (i < j)%nat ->
       (x <? y)%float = false /\
       (is_nan y = false -> (y <=? x)%float = true)) /\
    bar_marker_color b = map channel_color (bar_y b) /\
    Forall (fun c => c ∈ map snd CHANNEL_COLORS) (bar_marker_color b) /\
    (forall ch, assoc ch CHANNEL_COLORS = None -> channel_color ch = "#CCCCCC") /\
    bar_text b = map currency_text (bar_x b).
Proof.
  intros Hne. unfold create_channel_bar_chart.
  destruct df as [|o0 df0] eqn:Edf; [done|]. rewrite <- Edf. clear Hne.
  eexists _, _. split; [reflexivity|]. cbn [bar_y bar_x bar_marker_color bar_text].
  destruct (channel_sums_keys df) as [Hnd Hin].
  split_and!.
  - rewrite channel_sales_Permutation. exact Hnd.
  - intros ch. rewrite channel_sales_Permutation. apply Hin.
  - by rewrite !length_map.
  - intros i ch x Hy Hx.
    rewrite list_lookup_fmap in Hy. rewrite list_lookup_fmap in Hx.
    destruct (channel_sales df !! i) as [[ch' x']|] eqn:E; [|done].
    simpl in Hy, Hx. injection Hy as ->. injection Hx as ->.
    apply list_elem_of_lookup_2 in E.
    rewrite channel_sales_Permutation in E. unfold channel_sums in E.
    apply list_elem_of_fmap in E as (k & [= -> ->] & _). reflexivity.
  - intros i j x y Hi Hj Hij.
    assert (Hd : desc_leb x y = true)
      by by apply (StronglySorted_lookup _ _ i j _ _ (channel_sales_sorted df)).
    split; [by apply FloatOrder.desc_leb_not_ltb|].
    intros Hnan. unfold desc_leb in Hd. by rewrite Hnan in Hd.
  - by rewrite map_map.
  - apply Forall_fmap, Forall_forall. intros kv _. apply channel_color_in_palette.
  - intros ch Hch. unfold channel_color. by rewrite Hch.
  - by rewrite map_map.
Qed.

Lemma channel_chart_bars_witness :
  may_orders <> [] /\
  exists lay,
    create_channel_bar_chart may_orders "Ventas de Hoy por Canal" =
    BarFigure
      {| bar_y := ["Amazon"; "Shopify"; "Tienda"];
         bar_x := [270%float; 150%float; 75%float];
         bar_marker_color := ["#FF9900"; "#96BF48"; "#CCCCCC"];
         bar_text := ["$270.00 MXN"; "$150.00 MXN"; "$75.00 MXN"] |} lay.
Proof.
  assert (Hne : may_orders <> []) by discriminate.
  split; [exact Hne|].
  destruct (channel_chart_bars may_orders "Ventas de Hoy por Canal" Hne)
    as (b & lay & E & _).
  eexists. vm_compute. reflexivity.
Defined.

Lemma fillcolor_of_palette (c : string) :
  c ∈ "#1f77b4" :: map snd CHANNEL_COLORS ->
  exists s, fillcolor_of c = Ok s.
Proof.
  intros H. simpl in H.
  repeat (apply elem_of_cons in H as [-> | H];
          [eexists; vm_compute; reflexivity|]).
  by apply elem_of_nil in H.
Qed.

Lemma trend_color_in_palette (ch : string) :
  match assoc ch CHANNEL_COLORS with
  | Some c => c
  | None => "#1f77b4"
  end ∈ "#1f77b4" :: map snd CHANNEL_COLORS.
Proof.
  unfold CHANNEL_COLORS, assoc.
  repeat match goal with
         | |- context [String.eqb ch ?k] => destruct (String.eqb ch k)
         end; simpl; repeat (first [by left | right]).
Qed.

Lemma strictly_sorted_dates (l : list date) :
  StronglySorted (fun a b => date_leb a b = true) l -> NoDup l ->
  StronglySorted (fun a b => date_compare a b = Lt) l.
Proof.
  induction 1 as [|d ds Hs IH Hd]; intros Hnd; [constructor|].
  apply NoDup_cons in Hnd as [Hnotin Hnd].
  constructor; [by apply IH|].
  rewrite Forall_forall in *. intros d' Hd'.
  apply date_leb_lt; [by apply Hd|]. intros ->. done.
Qed.

Lemma daily_sales_dates (df : list order) :
  StronglySorted (fun a b => date_compare a b = Lt) (map fst (daily_sales df)) /\
  forall d, d ∈ map fst (daily_sales df) <-> exists o, o ∈ df /\ o_date o = d.
Proof.
  assert (Hperm : map fst (daily_sales df) ≡ₚ
                  distinct_by date_eqb (map o_date df)).
  { unfold daily_sales. rewrite sort_by_Permutation. unfold daily_sums.
    rewrite map_map. simpl. rewrite map_id. apply sort_by_Permutation. }
  split.
  - assert (Hs : StronglySorted (fun a b => date_leb a b = true)
                   (map fst (daily_sales df))).
    { apply StronglySorted_map.
      apply (sort_by_sorted (fun a b : date * float => date_leb (fst a) (fst b))).
      - intros x y. apply date_leb_total.
      - intros x y z. apply date_leb_trans. }
    assert (Hnd : NoDup (map fst (daily_sales df))).
    { rewrite Hperm. apply NoDup_distinct_by, date_eqb_eq. }
    by apply strictly_sorted_dates.
  - intros d. rewrite Hperm.
    rewrite (elem_of_distinct_by _ date_eqb_eq), list_elem_of_fmap.
    split; intros (o & ? & ?); exists o; auto.
Qed.

(** X15: the trend chart never fails on its colour, and its points are in
    date order. Whatever the frame and the channel, the call raises nothing:
    the colour is one of the palette or the default blue, and each of them is
    a six-digit hexadecimal colour, so the fill colour can be computed. For
    a frame that is not empty the figure has one point per date of the
    orders drawn (those of the channel, when one is given), the dates
    strictly increasing, and it is 250 high with a channel and 400
    without. *)
Theorem trend_chart_well_formed (df : list order) (title : string)
    (channel : option string) :
  exists fig,
    create_daily_trend_chart df title channel = Ok fig /\
    (df <> [] ->
     exists s lay,
       fig = ScatterFigure s lay /\
       StronglySorted (fun a b => date_compare a b = Lt) (sc_x s) /\
       length (sc_y s) = length (sc_x s) /\
       (forall d, d ∈ sc_x s <->
          exists o, o ∈ df /\ o_date o = d /\
            (truthy channel = true -> Some (o_channel o) = channel)) /\
       sc_line_color s ∈ "#1f77b4" :: map snd CHANNEL_COLORS /\
       fillcolor_of (sc_line_color s) = Ok (sc_fillcolor s) /\
       l_height lay = (if truthy channel then 250 else 400)).
Proof.
  unfold create_daily_trend_chart.
  destruct df as [|o0 df0] eqn:Edf; [by exists EmptyFigure|]. rewrite <- Edf.
  set (df' := match channel with
              | Some ch =>
                  if truthy channel
                  then List.filter (fun o => String.eqb (o_channel o) ch) df
                  else df
              | None => df
              end).
  set (color := match channel with
                | Some ch =>
                    if truthy channel then
                      match assoc ch CHANNEL_COLORS with
                      | Some c => c
                      | None => "#1f77b4"
                      end
                    else "#1f77b4"
                | None => "#1f77b4"
                end).
  assert (Hcolor : color ∈ "#1f77b4" :: map snd CHANNEL_COLORS).
  { unfold color. destruct channel as [ch|]; [|by left].
    destruct (truthy (Some ch)); [apply trend_color_in_palette | by left]. }
  destruct (fillcolor_of_palette color Hcolor) as [fc Hfc].
  rewrite Hfc. simpl bind.
  eexists. split; [reflexivity|]. intros _.
  eexists _, _. split; [reflexivity|].
  cbn [sc_x sc_y sc_line_color sc_fillcolor l_height].
  destruct (daily_sales_dates df') as [Hsorted Hdates].
  split; [exact Hsorted|]. split; [by rewrite !length_map|].
  split; [|by repeat split].
  intros d. rewrite Hdates. unfold df'.
  destruct channel as [ch|].
  - destruct (truthy (Some ch)) eqn:Et.
    + split.
      * intros (o & Ho & Hd). apply elem_of_filter_bool in Ho as [Ho Hch].
        apply String.eqb_eq in Hch. exists o. repeat split; try done.
        intros _. by rewrite Hch.
      * intros (o & Ho & Hd & Hch). exists o. split; [|done].
        apply elem_of_filter_bool. split; [done|].
        apply String.eqb_eq. specialize (Hch eq_refl). congruence.
    + split; intros (o & Ho & Hd); exists o; repeat split; try done;
        by destruct Hd.
  - split; intros (o & Ho & Hd); exists o; repeat split; try done;
      by destruct Hd.
Qed.

Lemma trend_chart_well_formed_witness :
  may_orders <> [] /\
  exists lay,
    create_daily_trend_chart may_orders "Amazon" (Some "Amazon") =
    Ok (ScatterFigure
          {| sc_x := [{| d_year := 2024; d_month := 5; d_day := 1 |};
                      {| d_year := 2024; d_month := 5; d_day := 17 |}];
             sc_y := [250%float; 20%float];
             sc_line_color := "#FF9900";
             sc_fillcolor := "rgba(255, 153, 0, 0.2)" |} lay).
Proof.
  split; [discriminate|].
  destruct (trend_chart_well_formed may_orders "Amazon" (Some "Amazon"))
    as (fig & E & _).
  eexists. vm_compute. reflexivity.
Defined.
